(** * evmscn: token-transfer monitors (single-chain and multi-chain)

    A shallow embedding of [base_transfer_monitor.py] and
    [multi_chain_monitor.py]: the event decoder, the valuation engine, the
    webhook dispatcher, the HTTP polling session, the streaming sessions,
    the price refresh and the entry point, followed by the properties the
    specification states about them and by further properties of the code.

    Python values are modelled as the program sees them: JSON documents are a
    tagged union, an operation applied to a value of the wrong dynamic type
    raises, and [try ... except Exception] is a combinator on results.
    Network peers are an input of the model: every request is answered by an
    outcome supplied by the environment, and every externally visible action
    (a request, a printed line, a sleep) is recorded in a trace. *)

From Stdlib Require Import ZArith QArith Qround Qabs Qpower List String Ascii Bool Lia Lqa.
From Stdlib Require Import Floats.PrimFloat Floats.SpecFloat Floats.FloatOps.
Import ListNotations.

Set Warnings "-register-all".

Local Open Scope string_scope.
Local Open Scope Z_scope.

(** ** Exceptions and results *)

Module Py.

(** The exception classes the modelled code can meet.  All of them derive from
    [Exception]; [ConnectionClosed] is the one class the streaming loops
    handle separately. *)
Inductive exc : Type :=
| TypeError
| ValueError
| KeyError
| IndexError
| AttributeError
| DecimalOverflow
| OverflowError
| JSONDecodeError
| ConnectionClosed
| TransportError (detail : string).

Definition exc_eqb (a b : exc) : bool :=
  match a, b with
  | TypeError, TypeError | ValueError, ValueError | KeyError, KeyError
  | IndexError, IndexError | AttributeError, AttributeError
  | DecimalOverflow, DecimalOverflow | OverflowError, OverflowError
  | JSONDecodeError, JSONDecodeError
  | ConnectionClosed, ConnectionClosed => true
  | TransportError x, TransportError y => String.eqb x y
  | _, _ => false
  end.

(** The outcome of evaluating a Python expression or block. *)
Inductive res (A : Type) : Type :=
| Return (a : A)
| Raise (e : exc).
Arguments Return {A} a.
Arguments Raise {A} e.

Definition bind {A B} (c : res A) (k : A -> res B) : res B :=
  match c with
  | Return a => k a
  | Raise e => Raise e
  end.

(** [try: body except Exception as e: handler e] for a block without effects
    of its own. *)
Definition try_except {A} (body : res A) (handler : exc -> A) : A :=
  match body with
  | Return a => a
  | Raise e => handler e
  end.

End Py.

Import Py.

Notation "x <- c ;; k" := (Py.bind c (fun x => k))
  (at level 61, c at next level, right associativity).

(** ** Strings

    Characters are the 7-bit ASCII ones; Python's treatment of non-ASCII
    digits, letters and spaces is outside the model. *)

Module PyStr.

Definition lower_char (c : ascii) : ascii :=
  let n := nat_of_ascii c in
  if (Nat.leb 65 n && Nat.leb n 90)%bool then ascii_of_nat (n + 32)%nat else c.

(** [s.lower()] *)
Fixpoint lower (s : string) : string :=
  match s with
  | EmptyString => EmptyString
  | String c r => String (lower_char c) (lower r)
  end.

(** [s[-k:]] for k > 0: the last [k] characters, the whole string when it is
    shorter. *)
Definition last_chars (k : nat) (s : string) : string :=
  substring (String.length s - k)%nat k s.

(** [s[:k]] *)
Definition first_chars (k : nat) (s : string) : string :=
  substring 0 k s.

(** The characters [int()] skips around a literal in an ASCII string: tab,
    line feed, vertical tab, form feed, carriage return and the space.  (The
    separators 28 to 31 are white space for [str.strip], not for [int].) *)
Definition is_space (c : ascii) : bool :=
  let n := nat_of_ascii c in
  ((Nat.leb 9 n && Nat.leb n 13) || Nat.eqb n 32)%bool.

Fixpoint lstrip (s : string) : string :=
  match s with
  | String c r => if is_space c then lstrip r else s
  | EmptyString => EmptyString
  end.

(** Value of a character as a base-16 digit. *)
Definition hex_value (c : ascii) : option Z :=
  let n := nat_of_ascii c in
  if (Nat.leb 48 n && Nat.leb n 57)%bool then Some (Z.of_nat (n - 48)%nat)
  else if (Nat.leb 97 n && Nat.leb n 102)%bool then Some (Z.of_nat (n - 87)%nat)
  else if (Nat.leb 65 n && Nat.leb n 70)%bool then Some (Z.of_nat (n - 55)%nat)
  else None.

(** The digit scan of [int(s, 16)]: digits, single underscores between them,
    then optional trailing spaces and the end of the string.  [prev_us] tells
    whether the previous character was an underscore, [seen] whether a digit
    was read. *)
Fixpoint scan_digits (s : string) (acc : Z) (prev_us seen : bool) : res Z :=
  match s with
  | EmptyString => if (seen && negb prev_us)%bool then Return acc else Raise ValueError
  | String c r =>
      match hex_value c with
      | Some d => scan_digits r (16 * acc + d) false true
      | None =>
          if Ascii.eqb c "_" then
            if prev_us then Raise ValueError
            else scan_digits r acc true seen
          else if (seen && negb prev_us)%bool then
            match lstrip s with
            | EmptyString => Return acc
            | _ => Raise ValueError
            end
          else Raise ValueError
      end
  end.

(** [int(s, 16)] on a string: optional spaces, an optional sign, an optional
    [0x]/[0X] prefix (after which one underscore is allowed), the digits.
    Anything else is a [ValueError]. *)
Definition int16 (s : string) : res Z :=
  let s1 := lstrip s in
  let '(neg, s2) :=
    match s1 with
    | String "-" r => (true, r)
    | String "+" r => (false, r)
    | _ => (false, s1)
    end in
  let s3 :=
    match s2 with
    | String "0" (String x r) =>
        if (Ascii.eqb x "x" || Ascii.eqb x "X")%bool then
          match r with
          | String "_" r' => r'
          | _ => r
          end
        else s2
    | _ => s2
    end in
  match s3 with
  | String "_" _ => Raise ValueError
  | _ =>
      v <- scan_digits s3 0 false false ;;
      Return (if neg then - v else v)
  end.

Definition hex_digit (d : Z) : ascii :=
  if d <? 10 then ascii_of_nat (Z.to_nat d + 48)%nat else ascii_of_nat (Z.to_nat d + 87)%nat.

(** The base-16 digits of a non-negative number, most significant first,
    in front of [acc]. *)
Fixpoint hex_digits (fuel : nat) (n : Z) (acc : string) : string :=
  match fuel with
  | O => acc
  | S f =>
      let acc' := String (hex_digit (n mod 16)) acc in
      if n <? 16 then acc' else hex_digits f (n / 16) acc'
  end.

(** [hex(n)] *)
Definition hex (n : Z) : string :=
  let a := Z.abs n in
  let body := "0x" ++ hex_digits (S (Z.to_nat (Z.log2 a))) a EmptyString in
  if n <? 0 then "-" ++ body else body.

(** [needle in s] for two strings. *)
Fixpoint contains (needle s : string) : bool :=
  if prefix needle s then true
  else match s with
       | EmptyString => false
       | String _ r => contains needle r
       end.

End PyStr.

(** ** Numbers

    [Decimal] values and binary64 floats are modelled by their exact rational
    value; an operation is the exact operation followed by the rounding its
    format prescribes (round to nearest, ties to even). *)

Module Rnd.

(** [beta ^ e] for an integer exponent of either sign. *)
Definition bpow (beta e : Z) : Q := inject_Z beta ^ e.

Fixpoint log_aux (fuel : nat) (beta n : Z) : Z :=
  match fuel with
  | O => 0
  | S f => if n <? beta then 0 else 1 + log_aux f beta (n / beta)
  end.

(** The integer logarithm of a positive integer: the largest [k] with
    [beta ^ k <= n]. *)
Definition zlog (beta n : Z) : Z := log_aux (S (Z.to_nat (Z.log2 n))) beta n.

(** The integer logarithm of a non-zero rational: the [k] with
    [beta ^ k <= |x| < beta ^ (k + 1)]. *)
Definition ilog (beta : Z) (x : Q) : Z :=
  let k := zlog beta (Z.abs (Qnum x)) - zlog beta (Zpos (Qden x)) in
  if Qle_bool (bpow beta k) (Qabs x) then k else k - 1.

(** The nearest integer, ties to the even one. *)
Definition rne (x : Q) : Z :=
  let f := Qfloor x in
  match ((x - inject_Z f) ?= (1 # 2))%Q with
  | Lt => f
  | Gt => f + 1
  | Eq => if Z.even f then f else f + 1
  end.

(** The exponent of the format's grid around [x]: [prec] digits, never below
    [emin]. *)
Definition cexp (beta prec emin : Z) (x : Q) : Z :=
  Z.max (ilog beta x + 1 - prec) emin.

(** Rounding to [prec] significant digits in radix [beta]: the result is
    [m * beta ^ e], returned as [(m, e)]. *)
Definition round (beta prec emin : Z) (x : Q) : Z * Z :=
  let e := cexp beta prec emin x in
  (rne (x / bpow beta e), e).

Definition value (beta : Z) (r : Z * Z) : Q :=
  inject_Z (fst r) * bpow beta (snd r).

End Rnd.

(** *** binary64 *)

Module F64.

(** A Python [float].  The sign of zero is not tracked: no comparison the
    program makes distinguishes the two zeros. *)
Inductive float : Type :=
| Nan
| Inf (neg : bool)
| Fin (m e : Z).          (* m * 2 ^ e *)

Definition prec : Z := 53.
Definition emin : Z := -1074.
Definition emax : Z := 1024.

Definition to_Q (m e : Z) : Q := inject_Z m * Rnd.bpow 2 e.

(** The float nearest to a rational; beyond the largest finite float the
    result is an infinity. *)
Definition of_Q (x : Q) : float :=
  let '(m, e) := Rnd.round 2 prec emin x in
  if Qle_bool (Rnd.bpow 2 emax) (Qabs (to_Q m e)) then Inf (m <? 0) else Fin m e.

(** [a * b] *)
Definition mul (a b : float) : float :=
  match a, b with
  | Nan, _ | _, Nan => Nan
  | Inf s, Inf t => Inf (xorb s t)
  | Inf s, Fin m _ | Fin m _, Inf s => if m =? 0 then Nan else Inf (xorb s (m <? 0))
  | Fin m1 e1, Fin m2 e2 => of_Q (to_Q m1 e1 * to_Q m2 e2)
  end.

(** [a <= b]; false when either side is a NaN. *)
Definition leb (a b : float) : bool :=
  match a, b with
  | Nan, _ | _, Nan => false
  | Inf true, _ => true
  | _, Inf false => true
  | Inf false, _ => false
  | _, Inf true => false
  | Fin m1 e1, Fin m2 e2 => Qle_bool (to_Q m1 e1) (to_Q m2 e2)
  end.

(** [a >= n] for an [int] n: Python compares the exact values. *)
Definition ge_int (a : float) (n : Z) : bool :=
  match a with
  | Nan => false
  | Inf neg => negb neg
  | Fin m e => Qle_bool (inject_Z n) (to_Q m e)
  end.

(** [bool(a)] *)
Definition truthy (a : float) : bool :=
  match a with
  | Fin m _ => negb (m =? 0)
  | _ => true
  end.

Definition is_finite (a : float) : bool :=
  match a with
  | Fin _ _ => true
  | _ => false
  end.

(** The exact value of a finite float. *)
Definition real (a : float) : Q :=
  match a with
  | Fin m e => to_Q m e
  | _ => 0
  end.

(** A float literal of the source, written as a decimal fraction. *)
Definition lit (n : Z) (d : positive) : float := of_Q (n # d).

(** The same float in the Standard Library's description of binary64, for
    comparison with the machine's arithmetic.  A mantissa rounded up to
    2^53 is the next power of two. *)
Definition to_spec (a : float) : spec_float :=
  match a with
  | Nan => S754_nan
  | Inf s => S754_infinity s
  | Fin m e =>
      let '(m, e) := if Z.abs m =? 2 ^ prec then (m / 2, e + 1) else (m, e) in
      match m with
      | Z0 => S754_zero false
      | Zpos p => S754_finite false p e
      | Zneg p => S754_finite true p e
      end
  end.

(** The machine's product of two floats. *)
Definition hw_mul (a b : float) : spec_float :=
  Prim2SF (PrimFloat.mul (SF2Prim (to_spec a)) (SF2Prim (to_spec b))).

(** The machine's quotient of two integers below 2^53. *)
Definition hw_div (n d : Z) : spec_float :=
  Prim2SF (PrimFloat.div (SF2Prim (to_spec (Fin n 0))) (SF2Prim (to_spec (Fin d 0)))).

End F64.

(** *** Decimal *)

Module Dec.

(** A finite [Decimal]: [coef * 10 ^ exp].  The default context has 28 digits
    of precision, rounds half to even, and traps [Overflow] above
    [Emax = 999999]. *)
Record decimal : Type := mk { coef : Z; exp : Z }.

Definition prec : Z := 28.
Definition Emax : Z := 999999.
Definition Etiny : Z := -1000026.

Definition to_Q (d : decimal) : Q := inject_Z (coef d) * Rnd.bpow 10 (exp d).

(** [Decimal(n)] for an [int]: exact. *)
Definition of_int (n : Z) : decimal := mk n 0.

(** The exponent of the most significant digit. *)
Definition adjusted (d : decimal) : Z := Rnd.zlog 10 (Z.abs (coef d)) + exp d.

(** [a / b] for a non-zero [b].  The quotient is kept in normalised form;
    Python prefers the ideal exponent when the quotient is exact, which is
    another representation of the same number. *)
Definition div (a b : decimal) : res decimal :=
  let '(m, e) := Rnd.round 10 prec Etiny (to_Q a / to_Q b) in
  let q := mk m e in
  if (negb (m =? 0) && (Emax <? adjusted q))%bool then Raise DecimalOverflow
  else Return q.

(** [float(d)]: the nearest float. *)
Definition to_float (d : decimal) : F64.float := F64.of_Q (to_Q d).

End Dec.

(** ** JSON documents as Python objects *)

Module PyVal.

(** What [json.loads] / [resp.json()] can return.  A dict is the list of its
    bindings in insertion order, with distinct keys. *)
Inductive json : Type :=
| JNull
| JBool (b : bool)
| JInt (z : Z)
| JFloat (f : F64.float)
| JStr (s : string)
| JList (l : list json)
| JDict (d : list (string * json)).

Fixpoint lookup {A} (k : string) (d : list (string * A)) : option A :=
  match d with
  | [] => None
  | (k', v) :: r => if String.eqb k k' then Some v else lookup k r
  end.

(** [bool(v)], as in [if v:] and [if not v:]. *)
Definition truthy (v : json) : bool :=
  match v with
  | JNull => false
  | JBool b => b
  | JInt z => negb (z =? 0)
  | JFloat f => F64.truthy f
  | JStr s => negb (String.eqb s EmptyString)
  | JList l => match l with [] => false | _ => true end
  | JDict d => match d with [] => false | _ => true end
  end.

(** [v == s] for a string constant [s]. *)
Definition eq_str (v : json) (s : string) : bool :=
  match v with
  | JStr t => String.eqb t s
  | _ => false
  end.

(** [o.get(k, dflt)]: only a dict has the method. *)
Definition get (o : json) (k : string) (dflt : json) : res json :=
  match o with
  | JDict d => Return (match lookup k d with Some v => v | None => dflt end)
  | _ => Raise AttributeError
  end.

(** [len(v)] *)
Definition len (v : json) : res Z :=
  match v with
  | JStr s => Return (Z.of_nat (String.length s))
  | JList l => Return (Z.of_nat (List.length l))
  | JDict d => Return (Z.of_nat (List.length d))
  | _ => Raise TypeError
  end.

(** [v[i]] for a constant index [i >= 0].  A dict born from JSON has string
    keys only. *)
Definition index (v : json) (i : nat) : res json :=
  match v with
  | JList l => match nth_error l i with Some x => Return x | None => Raise IndexError end
  | JStr s => match String.get i s with Some c => Return (JStr (String c EmptyString)) | None => Raise IndexError end
  | JDict _ => Raise KeyError
  | _ => Raise TypeError
  end.

(** [v[-k:]] *)
Definition slice_last (k : nat) (v : json) : res json :=
  match v with
  | JStr s => Return (JStr (PyStr.last_chars k s))
  | JList l => Return (JList (skipn (List.length l - k) l))
  | _ => Raise TypeError
  end.

(** [v[:k]] *)
Definition slice_first (k : nat) (v : json) : res json :=
  match v with
  | JStr s => Return (JStr (PyStr.first_chars k s))
  | JList l => Return (JList (firstn k l))
  | _ => Raise TypeError
  end.

(** [s + v] for a string constant [s]. *)
Definition str_add (s : string) (v : json) : res string :=
  match v with
  | JStr t => Return (s ++ t)
  | _ => Raise TypeError
  end.

(** [v.lower()] *)
Definition lower (v : json) : res string :=
  match v with
  | JStr s => Return (PyStr.lower s)
  | _ => Raise AttributeError
  end.

(** [int(v, 16)]: with an explicit base only a string is accepted. *)
Definition int16 (v : json) : res Z :=
  match v with
  | JStr s => PyStr.int16 s
  | _ => Raise TypeError
  end.

(** [k in v] for a string constant [k]. *)
Definition contains (k : string) (v : json) : res bool :=
  match v with
  | JDict d => Return (match lookup k d with Some _ => true | None => false end)
  | JList l => Return (existsb (fun x => eq_str x k) l)
  | JStr s => Return (PyStr.contains k s)
  | _ => Raise TypeError
  end.

(** [v[k]] for a string key [k]. *)
Definition item (v : json) (k : string) : res json :=
  match v with
  | JDict d => match lookup k d with Some x => Return x | None => Raise KeyError end
  | _ => Raise TypeError
  end.

(** [float(n)] for an [int]: the nearest float, an [OverflowError] when that
    is beyond the largest finite one. *)
Definition float_of_int (n : Z) : res F64.float :=
  match F64.of_Q (inject_Z n) with
  | F64.Inf _ => Raise OverflowError
  | f => Return f
  end.

(** [x * v] for a float [x]: [v] is a float, or an [int] or [bool] that is
    converted first; no other JSON value can be multiplied by a float. *)
Definition float_mul (x : F64.float) (v : json) : res F64.float :=
  match v with
  | JFloat f => Return (F64.mul x f)
  | JInt n => f <- float_of_int n ;; Return (F64.mul x f)
  | JBool b => f <- float_of_int (if b then 1 else 0) ;; Return (F64.mul x f)
  | _ => Raise TypeError
  end.

End PyVal.

Import PyVal.

(** ** Observable actions *)

Module Trace.

(** A value interpolated into a printed line. *)
Inductive arg : Type :=
| AStr (s : string)
| AInt (z : Z)
| AFloat (f : F64.float)
| AJson (j : json)
| ANum (q : Q)
| AExc (e : exc).

(** What a session does to the outside world. *)
Inductive event : Type :=
| Print (template : string) (args : list arg)
| Sleep (seconds : Q)
| Post (url : string) (body : json) (timeout : Z)
| Connect (url : string)
| WsSend (body : json)
| WsRecv.

(** An effectful block: what it did and how it ended. *)
Definition io (A : Type) : Type := (list event * res A)%type.

Definition ret {A} (a : A) : io A := ([], Return a).
Definition emit (e : event) : io unit := ([e], Return tt).
Definition lift {A} (r : res A) : io A := ([], r).

Definition bind {A B} (c : io A) (k : A -> io B) : io B :=
  match c with
  | (t, Return a) => let '(t', r) := k a in ((t ++ t')%list, r)
  | (t, Raise e) => (t, Raise e)
  end.

(** [try: body except Exception as e: handler e] *)
Definition try_except {A} (body : io A) (handler : exc -> io A) : io A :=
  match body with
  | (t, Return a) => (t, Return a)
  | (t, Raise e) => let '(t', r) := handler e in ((t ++ t')%list, r)
  end.

Definition is_post (e : event) : bool :=
  match e with
  | Post _ _ _ => true
  | _ => false
  end.

Definition is_sleep (e : event) : bool :=
  match e with
  | Sleep _ => true
  | _ => false
  end.

Definition is_print (e : event) : bool :=
  match e with
  | Print _ _ => true
  | _ => false
  end.

End Trace.

Import Trace.

Notation "x <~ c ;; k" := (Trace.bind c (fun x => k))
  (at level 61, c at next level, right associativity).
Notation "c ;;; k" := (Trace.bind c (fun _ => k))
  (at level 61, right associativity).

(** ** Shared data *)

(** The decoded transfer: the dict [decode_transfer_log] returns. *)
Record transfer : Type := mkTransfer {
  sender : string;
  recipient : string;
  contract : string;
  amount_raw : Z;
  tx_hash : json;
  block_number : json
}.

(** One entry of a token table as the source writes it,
    [{"symbol", "decimals", "price_usd"}], with a float literal as price. *)
Record token_info : Type := mkToken {
  symbol : string;
  decimals : N;
  price_usd : F64.float
}.

Definition token_table : Type := list (string * token_info).

Definition TRANSFER_TOPIC : string :=
  "0xddf252ad1be2c89b69c2b068fc378daa952ba7f163c4a11628f55a4df523b3ef".

Definition WEBHOOK_URLS : list string :=
  [ "http://64.247.196.44:3000/webhook";
    "https://webhook.site/d2fb592f-72ac-458b-872c-acfa3c76b607" ].

(** The answer of a peer to one HTTP request. *)
Inductive post_outcome : Type :=
| Responded (status : Z) (body : res json)   (* body: what [resp.json()] gives *)
| Failed (e : exc).                          (* timeout, refused, reset, ... *)

(** [reply.json()] inside [async with session.post(...) as reply]. *)
Definition reply_json (o : post_outcome) : res json :=
  match o with
  | Responded _ body => body
  | Failed e => Raise e
  end.

(** [url.split("/")[-1]] *)
Fixpoint last_segment (s acc : string) : string :=
  match s with
  | EmptyString => acc
  | String c r => if Ascii.eqb c "/" then last_segment r EmptyString else last_segment r (acc ++ String c EmptyString)
  end.

(** ** multi_chain_monitor.py *)

Module Multi.

Definition MIN_USD_VALUE : Z := 100000.

Record ChainConfig : Type := mkChain {
  name : string;
  chain_id : Z;
  rpc_url : string;
  tokens : token_table;
  wss : option string;
  poll_interval : Q
}.

(** [decode_transfer_log], the block under [try]. *)
Definition decode_body (log : json) : res (option transfer) :=
  topics <- get log "topics" (JList []) ;;
  n <- len topics ;;
  if n <? 3 then Return None
  else
    t1 <- index topics 1 ;;
    t1' <- slice_last 40 t1 ;;
    sender <- str_add "0x" t1' ;;
    t2 <- index topics 2 ;;
    t2' <- slice_last 40 t2 ;;
    recipient <- str_add "0x" t2' ;;
    data <- get log "data" (JStr "0x0") ;;
    amount_raw <- (if (truthy data && negb (eq_str data "0x"))%bool
                   then int16 data else Return 0) ;;
    address <- get log "address" (JStr EmptyString) ;;
    contract <- lower address ;;
    tx <- get log "transactionHash" JNull ;;
    bn <- get log "blockNumber" JNull ;;
    Return (Some (mkTransfer (PyStr.lower sender) (PyStr.lower recipient)
                             contract amount_raw tx bn)).

(** [decode_transfer_log]: any exception of the body is swallowed. *)
Definition decode_transfer_log (log : json) : io (option transfer) :=
  Trace.try_except (lift (decode_body log)) (fun _ => ret None).

(** [calculate_usd_value] *)
Definition calculate_usd_value (tokens : token_table) (contract : string)
    (amount_raw : Z) : res (option (F64.float * string)) :=
  let contract_lower := PyStr.lower contract in
  match lookup contract_lower tokens with
  | None => Return None
  | Some token_info =>
      let decimals := decimals token_info in
      let price := price_usd token_info in
      amount <- Dec.div (Dec.of_int amount_raw) (Dec.of_int (10 ^ Z.of_N decimals)) ;;
      let usd_value := F64.mul (Dec.to_float amount) price in
      Return (Some (usd_value, symbol token_info))
  end.

Definition payload (chain : ChainConfig) (t : transfer) : json :=
  JDict [ ("r", JStr (recipient t));
          ("s", JStr (sender t));
          ("contract", JStr (contract t));
          ("chain_id", JInt (chain_id chain));
          ("wss", JStr (match wss chain with
                        | Some w => w        (* [chain.wss or empty]: an empty [w] stays empty *)
                        | None => EmptyString
                        end));
          ("rpc_url", JStr (rpc_url chain)) ].

Definition dest (url : string) : string :=
  if PyStr.contains "webhook.site" url then "webhook.site" else "local".

(** The [for url in WEBHOOK_URLS] loop; [sink i] is what the [i]-th sink of
    the list answers to this delivery. *)
Fixpoint send_loop (urls : list string) (i : nat) (body : json)
    (sink : nat -> post_outcome) : io unit :=
  match urls with
  | [] => ret tt
  | url :: rest =>
      Trace.try_except
        (emit (Post url body 5) ;;;
         match sink i with
         | Responded status _ => emit (Print "  -> {dest}: HTTP {status}" [AStr (dest url); AInt status])
         | Failed e => ([], Raise e)
         end)
        (fun e => emit (Print "  -> {dest}: ERROR {e}" [AStr (dest url); AExc e])) ;;;
      send_loop rest (S i) body sink
  end.

(** [send_to_webhook] *)
Definition send_to_webhook (chain : ChainConfig) (t : transfer)
    (usd_value : F64.float) (symbol : string) (sink : nat -> post_outcome) : io unit :=
  let payload := payload chain t in
  emit (Print "\n[{chain.name}] {symbol} ${usd_value:,.2f}" [AStr (name chain); AStr symbol; AFloat usd_value]) ;;;
  emit (Print "  TX: {tx_hash}" [AJson (tx_hash t)]) ;;;
  emit (Print "  JSON: {payload}" [AJson payload]) ;;;
  send_loop WEBHOOK_URLS 0 payload sink.

(** [d[k] = v] on a dict *)
Fixpoint dict_set {A} (k : string) (v : A) (d : list (string * A)) : list (string * A) :=
  match d with
  | [] => [(k, v)]
  | (k', v') :: r => if String.eqb k k' then (k, v) :: r else (k', v') :: dict_set k v r
  end.

(** [{k.lower(): v for k, v in chain.tokens.items()}] *)
Definition normalize_tokens (t : token_table) : token_table :=
  fold_left (fun acc kv => dict_set (PyStr.lower (fst kv)) (snd kv) acc) t [].

(** Decode, value, filter and dispatch one log: the body both loops share.
    [sink] answers the deliveries of this log. *)
Definition process_log (chain : ChainConfig) (tokens : token_table) (log : json)
    (sink : nat -> post_outcome) : io unit :=
  t <~ decode_transfer_log log ;;
  match t with
  | None => ret tt
  | Some t =>
      val <~ lift (calculate_usd_value tokens (contract t) (amount_raw t)) ;;
      match val with
      | None => ret tt
      | Some (usd_value, symbol) =>
          if F64.ge_int usd_value MIN_USD_VALUE
          then send_to_webhook chain t usd_value symbol sink
          else ret tt
      end
  end.

(** *** The polling session, [monitor_chain_http] *)

(** What the network answers during one pass of the polling loop. *)
Record poll_input : Type := mkPoll {
  height_reply : post_outcome;             (* to eth_blockNumber *)
  logs_reply : post_outcome;               (* to eth_getLogs, if it is sent *)
  sinks : nat -> nat -> post_outcome       (* log index, sink index *)
}.

Definition block_req : json :=
  JDict [ ("jsonrpc", JStr "2.0"); ("id", JInt 1);
          ("method", JStr "eth_blockNumber"); ("params", JList []) ].

Definition token_addresses (tokens : token_table) : json :=
  JList (map (fun kv => JStr (fst kv)) tokens).

Definition log_req (tokens : token_table) (from_block : string) (current_block : json) : json :=
  JDict [ ("jsonrpc", JStr "2.0"); ("id", JInt 2);
          ("method", JStr "eth_getLogs");
          ("params", JList [ JDict [ ("fromBlock", JStr from_block);
                                     ("toBlock", current_block);
                                     ("address", token_addresses tokens);
                                     ("topics", JList [JStr TRANSFER_TOPIC]) ] ]) ].

(** [for log in logs: ...] *)
Fixpoint process_logs (chain : ChainConfig) (tokens : token_table) (logs : list json)
    (i : nat) (sinks : nat -> nat -> post_outcome) : io unit :=
  match logs with
  | [] => ret tt
  | log :: rest =>
      process_log chain tokens log (sinks i) ;;;
      process_logs chain tokens rest (S i) sinks
  end.

(** The block under [try] of one pass; the result is [last_block] as the pass
    leaves it. *)
Definition poll_body (chain : ChainConfig) (tokens : token_table)
    (last_block : option json) (inp : poll_input) : io (option json) :=
  emit (Post (rpc_url chain) block_req 10) ;;;
  block_result <~ lift (reply_json (height_reply inp)) ;;
  current_block <~ lift (get block_result "result" JNull) ;;
  if negb (truthy current_block) then
    emit (Sleep (poll_interval chain)) ;;;
    ret last_block
  else
    match last_block with
    | None =>
        emit (Print "[{chain.name}] HTTP poll started at block {current_block}"
                [AStr (name chain); AJson current_block]) ;;;
        emit (Sleep (poll_interval chain)) ;;;
        ret (Some current_block)
    | Some last =>
        n <~ lift (int16 last) ;;
        let from_block := PyStr.hex (n + 1) in
        f <~ lift (PyStr.int16 from_block) ;;
        c <~ lift (int16 current_block) ;;
        if f >? c then
          emit (Sleep (poll_interval chain)) ;;;
          ret last_block
        else
          emit (Post (rpc_url chain) (log_req tokens from_block current_block) 30) ;;;
          log_result <~ lift (reply_json (logs_reply inp)) ;;
          logs <~ lift (get log_result "result" (JList [])) ;;
          match logs with
          | JList l => process_logs chain tokens l 0 (sinks inp)
          | _ => ret tt
          end ;;;
          emit (Sleep (poll_interval chain)) ;;;
          ret (Some current_block)
    end.

(** One pass of [while True]: the body, and the handler that keeps the loop
    alive. *)
Definition poll_iteration (chain : ChainConfig) (tokens : token_table)
    (last_block : option json) (inp : poll_input) : io (option json) :=
  Trace.try_except (poll_body chain tokens last_block inp)
    (fun e =>
       emit (Print "[{chain.name}] HTTP poll error: {e}. Retrying in 10s..."
               [AStr (name chain); AExc e]) ;;;
       emit (Sleep 10) ;;;
       ret last_block).

(** The loop, for as many passes as there are inputs. *)
Fixpoint poll_loop (chain : ChainConfig) (tokens : token_table)
    (last_block : option json) (inputs : list poll_input) : io (option json) :=
  match inputs with
  | [] => ret last_block
  | inp :: rest =>
      last_block' <~ poll_iteration chain tokens last_block inp ;;
      poll_loop chain tokens last_block' rest
  end.

(** [monitor_chain_http], observed for [length inputs] passes. *)
Definition monitor_chain_http (chain : ChainConfig) (inputs : list poll_input)
    : io (option json) :=
  let tokens := normalize_tokens (tokens chain) in
  emit (Print "[{chain.name}] Starting HTTP polling (interval: {chain.poll_interval}s)..."
          [AStr (name chain); ANum (poll_interval chain)]) ;;;
  poll_loop chain tokens None inputs.

(** *** The streaming session, [monitor_chain] *)

(** What the network does during one pass of the streaming loop. *)
Record stream_input : Type := mkStream {
  connect_result : res unit;               (* websockets.connect *)
  send_result : res unit;                  (* ws.send *)
  sub_reply : res json;                    (* json.loads(await ws.recv()) *)
  messages : list (res json);              (* json.loads(message), per message *)
  closing : option exc;                    (* how [async for] ends *)
  msg_sinks : nat -> nat -> post_outcome   (* message index, sink index *)
}.

Definition subscribe_request (tokens : token_table) : json :=
  JDict [ ("jsonrpc", JStr "2.0"); ("id", JInt 1);
          ("method", JStr "eth_subscribe");
          ("params", JList [ JStr "logs";
                             JDict [ ("address", token_addresses tokens);
                                     ("topics", JList [JStr TRANSFER_TOPIC]) ] ]) ].

(** The body of [async for message in ws], with its two handlers. *)
Definition handle_message (chain : ChainConfig) (tokens : token_table)
    (message : res json) (sink : nat -> post_outcome) : io unit :=
  Trace.try_except
    (data <~ lift message ;;
     has <~ lift (contains "params" data) ;;
     if negb has then ret tt
     else
       params <~ lift (item data "params") ;;
       log <~ lift (item params "result") ;;
       process_log chain tokens log sink)
    (fun _ => ret tt).

Fixpoint handle_messages (chain : ChainConfig) (tokens : token_table)
    (msgs : list (res json)) (i : nat) (sinks : nat -> nat -> post_outcome) : io unit :=
  match msgs with
  | [] => ret tt
  | m :: rest =>
      handle_message chain tokens m (sinks i) ;;;
      handle_messages chain tokens rest (S i) sinks
  end.

(** The block under [try] of one pass. *)
Definition stream_body (chain : ChainConfig) (tokens : token_table)
    (inp : stream_input) : io unit :=
  w <~ lift (match wss chain with Some w => Return w | None => Raise TypeError end) ;;
  emit (Print "[{chain.name}] Connecting to {chain.wss[:50]}..."
          [AStr (name chain); AStr (PyStr.first_chars 50 w)]) ;;;
  emit (Connect w) ;;;
  lift (connect_result inp) ;;;
  emit (Print "[{chain.name}] Connected! Subscribing to {len(tokens)} tokens..."
          [AStr (name chain); AInt (Z.of_nat (List.length tokens))]) ;;;
  emit (WsSend (subscribe_request tokens)) ;;;
  lift (send_result inp) ;;;
  emit WsRecv ;;;
  result <~ lift (sub_reply inp) ;;
  has <~ lift (contains "result" result) ;;
  if has then
    r <~ lift (item result "result") ;;
    id <~ lift (slice_first 16 r) ;;
    emit (Print "[{chain.name}] Subscribed! ID: {result['result'][:16]}..."
            [AStr (name chain); AJson id]) ;;;
    handle_messages chain tokens (messages inp) 0 (msg_sinks inp) ;;;
    match closing inp with
    | Some e => lift (Raise e)
    | None => ret tt
    end
  else
    emit (Print "[{chain.name}] Subscription failed: {result}"
            [AStr (name chain); AJson result]) ;;;
    emit (Sleep 10) ;;;
    ret tt.

(** One pass of [while True]. *)
Definition stream_iteration (chain : ChainConfig) (tokens : token_table)
    (inp : stream_input) : io unit :=
  Trace.try_except (stream_body chain tokens inp)
    (fun e =>
       match e with
       | ConnectionClosed =>
           emit (Print "[{chain.name}] Connection closed: {e}. Reconnecting in 5s..."
                   [AStr (name chain); AExc e]) ;;;
           emit (Sleep 5)
       | _ =>
           emit (Print "[{chain.name}] Error: {e}. Reconnecting in 10s..."
                   [AStr (name chain); AExc e]) ;;;
           emit (Sleep 10)
       end).

Fixpoint stream_loop (chain : ChainConfig) (tokens : token_table)
    (inputs : list stream_input) : io unit :=
  match inputs with
  | [] => ret tt
  | inp :: rest =>
      stream_iteration chain tokens inp ;;;
      stream_loop chain tokens rest
  end.

(** [monitor_chain], observed for [length inputs] passes. *)
Definition monitor_chain (chain : ChainConfig) (inputs : list stream_input) : io unit :=
  stream_loop chain (normalize_tokens (tokens chain)) inputs.

(** *** The entry point, [main] *)

(** [bool(chain.wss)]: a streaming endpoint is configured and is not the
    empty string. *)
Definition has_wss (chain : ChainConfig) : bool :=
  match wss chain with
  | Some w => negb (String.eqb w EmptyString)
  | None => false
  end.

(** A monitor handed to [asyncio.gather]. *)
Inductive task : Type :=
| Streaming (chain : ChainConfig)      (* monitor_chain(chain) *)
| Polling (chain : ChainConfig).       (* monitor_chain_http(chain) *)

Definition task_chain (t : task) : ChainConfig :=
  match t with
  | Streaming chain => chain
  | Polling chain => chain
  end.

(** [[c for c in CHAINS if c.wss]] and [[c for c in CHAINS if not c.wss]] *)
Definition wss_chains (CHAINS : list ChainConfig) : list ChainConfig :=
  filter has_wss CHAINS.

Definition http_chains (CHAINS : list ChainConfig) : list ChainConfig :=
  filter (fun c => negb (has_wss c)) CHAINS.

(** [for chain in CHAINS: tasks.append(...)] *)
Fixpoint start_tasks (CHAINS : list ChainConfig) (tasks : list task) : list task :=
  match CHAINS with
  | [] => tasks
  | chain :: rest =>
      start_tasks rest
        (tasks ++ [if has_wss chain then Streaming chain else Polling chain])%list
  end.

(** [main], up to the call of [asyncio.gather]: the banner it prints and the
    monitors it starts. *)
Definition main (CHAINS : list ChainConfig) : list event * list task :=
  ([ Print "======================================================================" [];
     Print "Multi-Chain Token Transfer Monitor" [];
     Print "Webhooks: {len(WEBHOOK_URLS)}" [AInt (Z.of_nat (List.length WEBHOOK_URLS))];
     Print "Min Value: ${MIN_USD_VALUE}" [AInt MIN_USD_VALUE];
     Print "Chains: {len(CHAINS)} ({len(wss_chains)} WSS + {len(http_chains)} HTTP)"
       [ AInt (Z.of_nat (List.length CHAINS));
         AInt (Z.of_nat (List.length (wss_chains CHAINS)));
         AInt (Z.of_nat (List.length (http_chains CHAINS))) ];
     Print "======================================================================" [] ],
   start_tasks CHAINS []).

End Multi.

(** ** base_transfer_monitor.py *)

Module Base.

Definition WSS_URL : string :=
  "wss://api-base-mainnet-archive.n.dwellir.com/e5433693-bdd2-4168-851b-acaf16f10400".

Definition RPC_URL : string :=
  "https://api-base-mainnet-archive.n.dwellir.com/e5433693-bdd2-4168-851b-acaf16f10400".

Definition MIN_USD_VALUE : Z := 500.

(** [TOP_TOKENS] as the source writes it; [initial_table] below is the table
    the program starts with, whose prices the refresh overwrites. *)
Definition TOP_TOKENS : token_table :=
  [ ("0x4200000000000000000000000000000000000006", mkToken "WETH" 18 (F64.lit 2500 1));
    ("0x833589fcd6edb6e08f4c7c32d4f71b54bda02913", mkToken "USDC" 6 (F64.lit 1 1));
    ("0xd9aaec86b65d86f6a7b5b1b0c42ffa531710b6ca", mkToken "USDbC" 6 (F64.lit 1 1));
    ("0x50c5725949a6f0c72e6c4a641f24049a917db0cb", mkToken "DAI" 18 (F64.lit 1 1));
    ("0x2ae3f1ec7f1f5012cfeab0185bfc7aa3cf0dec22", mkToken "cbETH" 18 (F64.lit 2650 1));
    ("0x940181a94a35a4569e4529a3cdfb74e38fd98631", mkToken "AERO" 18 (F64.lit 150 100));
    ("0x532f27101965dd16442e59d40670faf5ebb142e4", mkToken "BRETT" 18 (F64.lit 15 100));
    ("0x4ed4e862860bed51a9570b96d89af5e1b0efefed", mkToken "DEGEN" 18 (F64.lit 1 100));
    ("0xac1bd2486aaf3b5c0fc3fd868558b082a531b2b4", mkToken "TOSHI" 18 (F64.lit 3 10000));
    ("0xa88594d404727625a9437c3f886c7643872296ae", mkToken "WELL" 18 (F64.lit 5 100)) ].

(** [decode_transfer_log], the block under [try]. *)
Definition decode_body (log : json) : res (option transfer) :=
  topics <- get log "topics" (JList []) ;;
  n <- len topics ;;
  if n <? 3 then Return None
  else
    t1 <- index topics 1 ;;
    t1' <- slice_last 40 t1 ;;
    sender <- str_add "0x" t1' ;;
    t2 <- index topics 2 ;;
    t2' <- slice_last 40 t2 ;;
    recipient <- str_add "0x" t2' ;;
    data <- get log "data" (JStr "0x0") ;;
    amount_raw <- (if negb (eq_str data "0x") then int16 data else Return 0) ;;
    address <- get log "address" (JStr EmptyString) ;;
    contract <- lower address ;;
    tx <- get log "transactionHash" JNull ;;
    bn <- get log "blockNumber" JNull ;;
    Return (Some (mkTransfer (PyStr.lower sender) (PyStr.lower recipient)
                             contract amount_raw tx bn)).

(** [decode_transfer_log]: an exception of the body is reported on the
    console and swallowed. *)
Definition decode_transfer_log (log : json) : io (option transfer) :=
  Trace.try_except (lift (decode_body log))
    (fun e => emit (Print "Error decoding log: {e}" [AExc e]) ;;; ret None).

(** One entry of [TOP_TOKENS] while the program runs: [price_usd] holds
    whatever the last refresh stored, which is any JSON value. *)
Record live_token : Type := mkLive {
  live_symbol : string;
  live_decimals : N;
  live_price : json
}.

Definition live_table : Type := list (string * live_token).

(** A table whose prices are floats, as a running table. *)
Definition live (t : token_table) : live_table :=
  map (fun kv => (fst kv, mkLive (symbol (snd kv)) (decimals (snd kv))
                                 (JFloat (price_usd (snd kv)))))
      t.

(** [TOP_TOKENS] as the module creates it. *)
Definition initial_table : live_table := live TOP_TOKENS.

(** [calculate_usd_value], over the table [TOP_TOKENS] holds at the call. *)
Definition calculate_usd_value (TOP_TOKENS : live_table) (contract : string)
    (amount_raw : Z) : res (option F64.float) :=
  let contract_lower := PyStr.lower contract in
  match lookup contract_lower TOP_TOKENS with
  | None => Return None
  | Some token_info =>
      let decimals := live_decimals token_info in
      let price := live_price token_info in
      amount <- Dec.div (Dec.of_int amount_raw) (Dec.of_int (10 ^ Z.of_N decimals)) ;;
      usd_value <- float_mul (Dec.to_float amount) price ;;
      Return (Some usd_value)
  end.

Definition payload (t : transfer) : json :=
  JDict [ ("r", JStr (recipient t));
          ("s", JStr (sender t));
          ("contract", JStr (contract t));
          ("chain_id", JInt 8453);
          ("wss", JStr WSS_URL);
          ("rpc_url", JStr RPC_URL) ].

Definition short_url (url : string) : string :=
  if PyStr.contains "webhook.site" url
  then PyStr.first_chars 12 (last_segment url EmptyString)
  else "local".

(** The [for url in WEBHOOK_URLS] loop. *)
Fixpoint send_loop (urls : list string) (i : nat) (body : json) (t : transfer)
    (usd_value : F64.float) (symbol : string) (sink : nat -> post_outcome) : io unit :=
  match urls with
  | [] => ret tt
  | url :: rest =>
      Trace.try_except
        (emit (Post url body 5) ;;;
         match sink i with
         | Responded status _ =>
             emit (Print "[{short_url}] {symbol} ${usd_value:,.2f} | {sender[:10]}... -> {recipient[:10]}... | HTTP {status}"
                     [AStr (short_url url); AStr symbol; AFloat usd_value;
                      AStr (PyStr.first_chars 10 (sender t));
                      AStr (PyStr.first_chars 10 (recipient t)); AInt status])
         | Failed e => ([], Raise e)
         end)
        (fun e => emit (Print "[{short_url}] ERROR: {e}" [AStr (short_url url); AExc e])) ;;;
      send_loop rest (S i) body t usd_value symbol sink
  end.

(** [send_to_webhook] *)
Definition send_to_webhook (t : transfer) (usd_value : F64.float) (symbol : string)
    (sink : nat -> post_outcome) : io unit :=
  send_loop WEBHOOK_URLS 0 (payload t) t usd_value symbol sink.

(** *** The streaming session, [monitor_transfers] *)

(** What the network does during one pass of the loop.  [table i] is
    [TOP_TOKENS] as the price updater has left it when message [i] is
    handled. *)
Record stream_input : Type := mkStream {
  connect_result : res unit;
  send_result : res unit;
  sub_reply : res json;
  messages : list (res json);
  closing : option exc;
  table : nat -> live_table;
  msg_sinks : nat -> nat -> post_outcome
}.

Definition subscribe_request : json :=
  JDict [ ("jsonrpc", JStr "2.0"); ("id", JInt 1);
          ("method", JStr "eth_subscribe");
          ("params", JList [ JStr "logs";
                             JDict [ ("address", JList (map (fun kv => JStr (fst kv)) TOP_TOKENS));
                                     ("topics", JList [JStr TRANSFER_TOPIC]) ] ]) ].

(** The body of [async for message in ws], with its two handlers. *)
Definition handle_message (tokens : live_table) (message : res json)
    (sink : nat -> post_outcome) : io unit :=
  Trace.try_except
    (data <~ lift message ;;
     has <~ lift (contains "params" data) ;;
     if negb has then ret tt
     else
       params <~ lift (item data "params") ;;
       log <~ lift (item params "result") ;;
       t <~ decode_transfer_log log ;;
       match t with
       | None => ret tt
       | Some t =>
           usd_value <~ lift (calculate_usd_value tokens (contract t) (amount_raw t)) ;;
           match usd_value with
           | None => ret tt
           | Some usd_value =>
               let symbol := match lookup (PyStr.lower (contract t)) tokens with
                             | Some info => live_symbol info
                             | None => "???"
                             end in
               if F64.ge_int usd_value MIN_USD_VALUE then
                 emit (Print "[TRANSFER] {symbol}: ${usd_value:,.2f} | TX: {transfer['tx_hash']}"
                         [AStr symbol; AFloat usd_value; AJson (tx_hash t)]) ;;;
                 send_to_webhook t usd_value symbol sink
               else ret tt
           end
       end)
    (fun e =>
       match e with
       | JSONDecodeError => ret tt
       | _ => emit (Print "Error processing message: {e}" [AExc e])
       end).

Fixpoint handle_messages (msgs : list (res json)) (i : nat)
    (table : nat -> live_table) (sinks : nat -> nat -> post_outcome) : io unit :=
  match msgs with
  | [] => ret tt
  | m :: rest =>
      handle_message (table i) m (sinks i) ;;;
      handle_messages rest (S i) table sinks
  end.

(** The block under [try] of one pass. *)
Definition stream_body (inp : stream_input) : io unit :=
  emit (Print "Connecting to {WSS_URL}..." [AStr WSS_URL]) ;;;
  emit (Connect WSS_URL) ;;;
  lift (connect_result inp) ;;;
  emit (Print "Connected! Subscribing to Transfer events..." []) ;;;
  emit (WsSend subscribe_request) ;;;
  lift (send_result inp) ;;;
  emit WsRecv ;;;
  result <~ lift (sub_reply inp) ;;
  has <~ lift (contains "result" result) ;;
  if has then
    r <~ lift (item result "result") ;;
    emit (Print "Subscribed! Subscription ID: {result['result']}" [AJson r]) ;;;
    emit (Print "Monitoring {len(TOP_TOKENS)} tokens for transfers > ${MIN_USD_VALUE}"
            [AInt (Z.of_nat (List.length TOP_TOKENS)); AInt MIN_USD_VALUE]) ;;;
    emit (Print "------------------------------------------------------------" []) ;;;
    handle_messages (messages inp) 0 (table inp) (msg_sinks inp) ;;;
    match closing inp with
    | Some e => lift (Raise e)
    | None => ret tt
    end
  else
    emit (Print "Subscription failed: {result}" [AJson result]) ;;;
    ret tt.

(** One pass of [while True]. *)
Definition stream_iteration (inp : stream_input) : io unit :=
  Trace.try_except (stream_body inp)
    (fun e =>
       match e with
       | ConnectionClosed =>
           emit (Print "Connection closed: {e}. Reconnecting in 5 seconds..." [AExc e]) ;;;
           emit (Sleep 5)
       | _ =>
           emit (Print "Error: {e}. Reconnecting in 5 seconds..." [AExc e]) ;;;
           emit (Sleep 5)
       end).

(** The reconnect loop of [monitor_transfers], observed for
    [length inputs] passes. *)
Fixpoint stream_loop (inputs : list stream_input) : io unit :=
  match inputs with
  | [] => ret tt
  | inp :: rest =>
      stream_iteration inp ;;;
      stream_loop rest
  end.

(** *** The price refresh, [fetch_prices] *)

Definition COINGECKO_IDS : list (string * string) :=
  [ ("WETH", "weth");
    ("cbETH", "coinbase-wrapped-staked-eth");
    ("AERO", "aerodrome-finance");
    ("BRETT", "brett");
    ("DEGEN", "degen-base");
    ("TOSHI", "toshi");
    ("WELL", "moonwell") ].

Definition price_url : string :=
  "https://api.coingecko.com/api/v3/simple/price?ids="
  ++ String.concat "," (map snd COINGECKO_IDS)
  ++ "&vs_currencies=usd".

(** What the price refresh does to the outside world: its request, and the
    events of the other sessions (its printed lines and its sleep). *)
Inductive price_event : Type :=
| Get (url : string) (timeout : Z)
| Out (e : event).

(** [data[cg_id]["usd"]] when [cg_id in data and "usd" in data[cg_id]]. *)
Definition quoted (data : json) (cg_id : string) : res (option json) :=
  has <- contains cg_id data ;;
  if has then
    entry <- item data cg_id ;;
    has_usd <- contains "usd" entry ;;
    if has_usd then
      entry' <- item data cg_id ;;
      usd <- item entry' "usd" ;;
      Return (Some usd)
    else Return None
  else Return None.

(** [for address, token_info in TOP_TOKENS.items(): ...]: the entries are
    updated in place, so what was stored before an exception stays stored. *)
Fixpoint update_prices (TOP_TOKENS : live_table) (data : json) : live_table * io unit :=
  match TOP_TOKENS with
  | [] => ([], ret tt)
  | (address, token_info) :: rest =>
      let symbol := live_symbol token_info in
      match lookup symbol COINGECKO_IDS with
      | None =>
          let '(rest', r) := update_prices rest data in
          ((address, token_info) :: rest', r)
      | Some cg_id =>
          match quoted data cg_id with
          | Raise e => (TOP_TOKENS, lift (Raise e))
          | Return None =>
              let '(rest', r) := update_prices rest data in
              ((address, token_info) :: rest', r)
          | Return (Some usd) =>
              let '(rest', r) := update_prices rest data in
              ((address, mkLive symbol (live_decimals token_info) usd) :: rest',
               emit (Print "Updated {symbol} price: ${token_info['price_usd']}"
                       [AStr symbol; AJson usd]) ;;; r)
          end
      end
  end.

(** [fetch_prices]; [reply] is what the GET gives.  The result is
    [TOP_TOKENS] as the call leaves it. *)
Definition fetch_prices (TOP_TOKENS : live_table) (reply : post_outcome)
    : live_table * list price_event :=
  let failed e := [ Print "Error fetching prices: {e}" [AExc e];
                    Print "Using default/cached prices" [] ] in
  let '(after, t) :=
    match reply with
    | Failed e => (TOP_TOKENS, failed e)
    | Responded status body =>
        if status =? 200 then
          match body with
          | Raise e => (TOP_TOKENS, failed e)
          | Return data =>
              let '(after, (t, r)) := update_prices TOP_TOKENS data in
              match r with
              | Return _ => (after, t)
              | Raise e => (after, (t ++ failed e)%list)
              end
          end
        else (TOP_TOKENS, [Print "Failed to fetch prices: HTTP {response.status}" [AInt status]])
    end in
  (after, Get price_url 10 :: map Out t).

(** [update_prices_periodically], observed for [length replies] rounds. *)
Fixpoint update_prices_periodically (TOP_TOKENS : live_table)
    (replies : list post_outcome) : live_table * list price_event :=
  match replies with
  | [] => (TOP_TOKENS, [])
  | reply :: rest =>
      let '(after, t) := fetch_prices TOP_TOKENS reply in
      let '(final, t') := update_prices_periodically after rest in
      (final, (t ++ Out (Sleep 300) :: t')%list)
  end.

End Base.

(** ** Reading a trace *)

(** The requests a block sent to the webhooks or to the RPC endpoint. *)
Definition posts (t : list event) : list event := filter is_post t.

(** The sleeps of a block, in order. *)
Definition sleeps (t : list event) : list event := filter is_sleep t.

(** The keys of a JSON object, in order. *)
Definition dict_keys (v : json) : list string :=
  match v with
  | JDict d => map fst d
  | _ => []
  end.

(** [v.get(k)] read off a JSON object. *)
Definition field (k : string) (v : json) : json :=
  match v with
  | JDict d => match lookup k d with Some x => x | None => JNull end
  | _ => JNull
  end.

(** The block range of an [eth_getLogs] request: [(fromBlock, toBlock)]. *)
Definition log_query (e : event) : option (json * json) :=
  match e with
  | Post _ body _ =>
      if eq_str (field "method" body) "eth_getLogs" then
        match field "params" body with
        | JList [flt] => Some (field "fromBlock" flt, field "toBlock" flt)
        | _ => None
        end
      else None
  | _ => None
  end.

(** The ranges a block asked logs for, in order. *)
Fixpoint log_queries (t : list event) : list (json * json) :=
  match t with
  | [] => []
  | e :: r => match log_query e with
              | Some q => q :: log_queries r
              | None => log_queries r
              end
  end.

(** The cursor as a block number. *)
Definition block_number_of (cursor : json) : option Z :=
  match int16 cursor with
  | Return n => Some n
  | Raise _ => None
  end.

(** ** Sample inputs *)

Module Sample.

Definition topic_a : json :=
  JStr "0x000000000000000000000000aaaaaaaaaaaaaaaaaaaaaaaaaaaaaaaaaaaaaaaa".
Definition topic_b : json :=
  JStr "0x000000000000000000000000bbbbbbbbbbbbbbbbbbbbbbbbbbbbbbbbbbbbbbbb".
Definition usdc : string := "0x833589fcd6edb6e08f4c7c32d4f71b54bda02913".

(** A Transfer log of the USDC contract with the given data field. *)
Definition log_with (data : json) : json :=
  JDict [ ("topics", JList [JStr TRANSFER_TOPIC; topic_a; topic_b]);
          ("data", data);
          ("address", JStr usdc);
          ("transactionHash", JStr "0xabc");
          ("blockNumber", JStr "0x11") ].

Definition a_transfer : transfer :=
  mkTransfer "0xaaaaaaaaaaaaaaaaaaaaaaaaaaaaaaaaaaaaaaaa"
             "0xbbbbbbbbbbbbbbbbbbbbbbbbbbbbbbbbbbbbbbbb"
             usdc 600000000 (JStr "0xabc") (JStr "0x11").

(** A polled chain, as the source configures Boba. *)
Definition boba : Multi.ChainConfig :=
  Multi.mkChain "Boba" 288
    "https://api-boba-mainnet.n.dwellir.com/e5433693-bdd2-4168-851b-acaf16f10400"
    [ ("0xdeaddeaddeaddeaddeaddeaddeaddeaddead0000", mkToken "WETH" 18 (F64.lit 2500 1));
      ("0x66a2a913e447d6b4bf33efbec43aaef87890fbbc", mkToken "USDC" 6 (F64.lit 1 1));
      ("0x5de1677344d3cb0d7d465c10b72a8f60699c062d", mkToken "USDT" 6 (F64.lit 1 1));
      ("0xa18bf3994c0cc6e3b63ac420308e5383f53120d7", mkToken "BOBA" 18 (F64.lit 3 10));
      ("0xf74195bb8a5cf652411867c5c2c5b8c2a402be35", mkToken "DAI" 18 (F64.lit 1 1)) ]
    None 5.

(** A table listing USDC at the given price in dollars. *)
Definition usdc_at (dollars : Z) : token_table :=
  [(usdc, mkToken "USDC" 6 (F64.lit dollars 1))].

Definition ok (j : json) : post_outcome := Responded 200 (Return j).
Definition height (h : string) : post_outcome := ok (JDict [("result", JStr h)]).
Definition no_sink : nat -> post_outcome := fun _ => Failed (TransportError "timeout").


(** A streamed chain. *)
Definition ethereum : Multi.ChainConfig :=
  Multi.mkChain "Ethereum" 1
    "https://api-ethereum-mainnet.n.dwellir.com/e5433693-bdd2-4168-851b-acaf16f10400"
    [ ("0xa0b86991c6218b36c1d19d4a2e9eb0ce3606eb48", mkToken "USDC" 6 (F64.lit 1 1)) ]
    (Some "wss://api-ethereum-mainnet.n.dwellir.com/e5433693-bdd2-4168-851b-acaf16f10400")
    2.

(** The node's answer to a subscription it refuses. *)
Definition rpc_error : json :=
  JDict [ ("jsonrpc", JStr "2.0"); ("id", JInt 1);
          ("error", JDict [ ("code", JInt (-32601));
                            ("message", JStr "method not found") ]) ].

Definition refused_multi : Multi.stream_input :=
  Multi.mkStream (Return tt) (Return tt) (Return rpc_error) [] None (fun _ => no_sink).

Definition refused_base : Base.stream_input :=
  Base.mkStream (Return tt) (Return tt) (Return rpc_error) [] None
    (fun _ => Base.initial_table) (fun _ => no_sink).

End Sample.

(** ** Shapes the statements use *)

(** A request whose body is the six-field payload with these values. *)
Definition payload_shape (recipient sender contract : string) (chain_id : Z)
    (stream rpc : string) (e : event) : Prop :=
  exists url body,
    e = Post url body 5
    /\ dict_keys body = ["r"; "s"; "contract"; "chain_id"; "wss"; "rpc_url"]
    /\ field "r" body = JStr recipient
    /\ field "s" body = JStr sender
    /\ field "contract" body = JStr contract
    /\ field "chain_id" body = JInt chain_id
    /\ field "wss" body = JStr stream
    /\ field "rpc_url" body = JStr rpc.

(** A log with three string topics and a string address, the shape nodes
    send. *)
Definition well_formed_log (log : json) : Prop :=
  exists d sig a b more,
    log = JDict d
    /\ lookup "topics" d = Some (JList (sig :: JStr a :: JStr b :: more))
    /\ (lookup "address" d = None \/ exists c, lookup "address" d = Some (JStr c)).

(** ** Reading a polling session *)

(** The height a pass was told: the [result] of a reply that is a JSON
    object. *)
Definition reported_height (inp : Multi.poll_input) : option json :=
  match reply_json (Multi.height_reply inp) with
  | Return (JDict d) => Some (field "result" (JDict d))
  | _ => None
  end.

Definition is_poll_error (e : event) : bool :=
  match e with
  | Print template _ =>
      String.eqb template "[{chain.name}] HTTP poll error: {e}. Retrying in 10s..."
  | _ => false
  end.

(** A pass failed when it ended in the handler of the loop. *)
Definition pass_failed (t : list event) : bool := existsb is_poll_error t.

(** [b] is [a], or a later block. *)
Definition cursor_le (a b : json) : Prop :=
  b = a
  \/ exists x y, block_number_of a = Some x /\ block_number_of b = Some y /\ x < y.

Definition range_of (q : json * json) : option (Z * Z) :=
  match block_number_of (fst q), block_number_of (snd q) with
  | Some f, Some t => Some (f, t)
  | _, _ => None
  end.

(** The block ranges of the passes that queried logs and did not fail, in
    order, for a session whose cursor is [last]. *)
Fixpoint closed_ranges (chain : Multi.ChainConfig) (tokens : token_table)
    (last : option json) (inputs : list Multi.poll_input) : list (option (Z * Z)) :=
  match inputs with
  | [] => []
  | inp :: rest =>
      let '(t, r) := Multi.poll_iteration chain tokens last inp in
      let last' := match r with Return l => l | Raise _ => last end in
      if pass_failed t then closed_ranges chain tokens last' rest
      else (map range_of (log_queries t) ++ closed_ranges chain tokens last' rest)%list
  end.

(** Each range starts one block after the previous one ends, the first one
    after [start], and none is empty. *)
Fixpoint chained (start : option Z) (ranges : list (option (Z * Z))) : Prop :=
  match ranges with
  | [] => True
  | Some (f, t) :: rest => start = Some (f - 1) /\ f <= t /\ chained (Some t) rest
  | None :: _ => False
  end.

(** The log query a pass sends, read off the cursor and the height it is
    told: none when the height is missing or not ahead of the cursor. *)
Definition planned_query (last : json) (height : option json) : list (json * json) :=
  match height with
  | Some cur =>
      if truthy cur then
        match int16 last, int16 cur with
        | Return n, Return c =>
            if n + 1 >? c then [] else [(JStr (PyStr.hex (n + 1)), cur)]
        | _, _ => []
        end
      else []
  | None => []
  end.

(** The log request of a pass raises: the transport fails, the body is not
    JSON, or it is not a JSON object. *)
Definition logs_query_raises (inp : Multi.poll_input) : Prop :=
  exists e, (r <- reply_json (Multi.logs_reply inp) ;; get r "result" (JList [])) = Raise e.

(** A block that neither asks for logs nor reports a poll error. *)
Definition quiet (t : list event) : Prop := log_queries t = [] /\ pass_failed t = false.

(** ** Reading a valuation *)

(** [rawAmount / 10 ^ decimals], exactly. *)
Definition exact_amount (a : Z) (d : N) : Q := inject_Z a / inject_Z (10 ^ Z.of_N d).

(** A rational that is a finite binary64 value. *)
Definition representable (x : Q) : Prop :=
  exists m e,
    Z.abs m < 2 ^ F64.prec /\ F64.emin <= e
    /\ (x == inject_Z m * Rnd.bpow 2 e)%Q
    /\ (Qabs x < Rnd.bpow 2 F64.emax)%Q.

(** A finite float above zero. *)
Definition positive_price (p : F64.float) : Prop :=
  exists m e, p = F64.Fin m e /\ 0 < m.

(** ** Reading two sessions side by side *)

(** Two passes that are told the same by the node; the sinks may answer
    differently. *)
Definition same_node_replies (a b : Multi.poll_input) : Prop :=
  Multi.height_reply a = Multi.height_reply b
  /\ Multi.logs_reply a = Multi.logs_reply b.

(** A pass that is told no height: the reply has no truthy [result], or is
    not a JSON object at all. *)
Definition no_height (inp : Multi.poll_input) : Prop :=
  match reported_height inp with
  | Some h => truthy h = false
  | None => True
  end.

(** ** Reading a price table *)

(** What Python multiplies a float by: a float, an [int] or a [bool]. *)
Definition is_number (v : json) : bool :=
  match v with
  | JFloat _ | JInt _ | JBool _ => true
  | _ => false
  end.

(** What a refresh has no business changing: the addresses, symbols and
    decimals of the table, in order. *)
Definition listing (t : Base.live_table) : list (string * string * N) :=
  map (fun kv => (fst kv, Base.live_symbol (snd kv), Base.live_decimals (snd kv))) t.

(** A row whose symbol has no CoinGecko id. *)
Definition untracked (kv : string * Base.live_token) : bool :=
  match lookup (Base.live_symbol (snd kv)) Base.COINGECKO_IDS with
  | Some _ => false
  | None => true
  end.

(** The price of a row after a refresh: the one it had, or the [usd] field
    of the reply's entry for the row's id. *)
Definition price_from (data : json) (old new : string * Base.live_token) : Prop :=
  Base.live_price (snd new) = Base.live_price (snd old)
  \/ exists cg_id entry,
       lookup (Base.live_symbol (snd old)) Base.COINGECKO_IDS = Some cg_id
       /\ item data cg_id = Return entry
       /\ item entry "usd" = Return (Base.live_price (snd new)).

(** A reply the refresh cannot use: no answer, a status other than 200, or a
    body that is not JSON. *)
Definition unusable (reply : post_outcome) : Prop :=
  match reply with
  | Failed _ => True
  | Responded status (Raise _) => True
  | Responded status (Return _) => status <> 200
  end.

(** The lines the refresh prints when it fails. *)
Definition is_fetch_error (e : Base.price_event) : bool :=
  match e with
  | Base.Out (Print template _) => String.eqb template "Error fetching prices: {e}"
  | _ => false
  end.

(** A row after a refresh that used the quotes [quotes], a JSON object of
    JSON objects. *)
Definition requoted (quotes : list (string * json)) (kv : string * Base.live_token)
    : string * Base.live_token :=
  match lookup (Base.live_symbol (snd kv)) Base.COINGECKO_IDS with
  | Some cg_id =>
      match lookup cg_id quotes with
      | Some (JDict entry) =>
          match lookup "usd" entry with
          | Some usd => (fst kv, Base.mkLive (Base.live_symbol (snd kv))
                                            (Base.live_decimals (snd kv)) usd)
          | None => kv
          end
      | _ => kv
      end
  | None => kv
  end.

(** ** The claims as the specification words them, where the code differs *)

Module AsStated.

(** A JSON object has exactly the fields [ks]. *)
Definition has_exactly_fields (v : json) (ks : list string) : Prop :=
  forall k, In k (dict_keys v) <-> In k ks.

(** The decoder is total and silent on [log]. *)
Definition decodes_purely (decode : json -> io (option transfer)) (log : json) : Prop :=
  exists r, decode log = ([], Return r).

(** After a pass whose log query failed, the cursor is unchanged and the next
    pass asks for the identical range. *)
Definition retry_identical (chain : Multi.ChainConfig) (tokens : token_table) : Prop :=
  forall last inp1 inp2 tr1 last1,
    Multi.poll_iteration chain tokens (Some last) inp1 = (tr1, Return last1) ->
    log_queries tr1 <> [] ->
    logs_query_raises inp1 ->
    last1 = Some last
    /\ log_queries (fst (Multi.poll_iteration chain tokens last1 inp2)) = log_queries tr1.

(** The value of a transfer is the exact product. *)
Definition valuation_exact (tokens : token_table) : Prop :=
  forall c a info,
    lookup (PyStr.lower c) tokens = Some info ->
    exists v,
      Multi.calculate_usd_value tokens c a = Return (Some (v, symbol info))
      /\ F64.is_finite v = true
      /\ (F64.real v == exact_amount a (decimals info) * F64.real (price_usd info))%Q.

(** The value grows with the price, whatever the amount. *)
Definition monotone_in_price : Prop :=
  forall tokens tokens' c a info info' v v' s s',
    lookup (PyStr.lower c) tokens = Some info ->
    lookup (PyStr.lower c) tokens' = Some info' ->
    decimals info = decimals info' ->
    F64.leb (price_usd info) (price_usd info') = true ->
    Multi.calculate_usd_value tokens c a = Return (Some (v, s)) ->
    Multi.calculate_usd_value tokens' c a = Return (Some (v', s')) ->
    F64.leb v v' = true.

(** A pass whose height request succeeds and whose reply lacks a truthy
    [result] leaves the cursor where it was, asks for no logs and sleeps the
    poll interval. *)
Definition no_height_waits_interval (chain : Multi.ChainConfig) (tokens : token_table)
    : Prop :=
  forall last_block inp status body,
    Multi.height_reply inp = Responded status (Return body) ->
    truthy (field "result" body) = false ->
    exists tr,
      Multi.poll_iteration chain tokens last_block inp = (tr, Return last_block)
      /\ log_queries tr = []
      /\ sleeps tr = [Sleep (Multi.poll_interval chain)].

End AsStated.

(** * Properties *)

(** ** Hexadecimal block numbers *)

Section Hex.

Lemma hex_value_digit (d : Z) :
  0 <= d < 16 -> PyStr.hex_value (PyStr.hex_digit d) = Some d.
Proof.
  intros H.
  assert (C : d = 0 \/ d = 1 \/ d = 2 \/ d = 3 \/ d = 4 \/ d = 5 \/ d = 6 \/ d = 7
              \/ d = 8 \/ d = 9 \/ d = 10 \/ d = 11 \/ d = 12 \/ d = 13 \/ d = 14 \/ d = 15)
    by lia.
  repeat (destruct C as [->|C]; [reflexivity|]). subst d. reflexivity.
Qed.

Lemma hex_digit_plain (d : Z) :
  0 <= d < 16 ->
  PyStr.is_space (PyStr.hex_digit d) = false
  /\ Ascii.eqb (PyStr.hex_digit d) "_" = false
  /\ Ascii.eqb (PyStr.hex_digit d) "-" = false
  /\ Ascii.eqb (PyStr.hex_digit d) "+" = false.
Proof.
  intros H.
  assert (C : d = 0 \/ d = 1 \/ d = 2 \/ d = 3 \/ d = 4 \/ d = 5 \/ d = 6 \/ d = 7
              \/ d = 8 \/ d = 9 \/ d = 10 \/ d = 11 \/ d = 12 \/ d = 13 \/ d = 14 \/ d = 15)
    by lia.
  repeat (destruct C as [->|C]; [repeat split|]). subst d. repeat split.
Qed.

(** The digits [hex] writes start with a digit. *)
Lemma hex_digits_head (fuel : nat) : forall n rest,
  0 <= n ->
  exists d r, 0 <= d < 16 /\ PyStr.hex_digits (S fuel) n rest = String (PyStr.hex_digit d) r.
Proof.
  induction fuel as [|f IH]; intros n rest Hn.
  - cbn [PyStr.hex_digits]. exists (n mod 16). destruct (n <? 16); eexists; split;
      try reflexivity; apply Z.mod_pos_bound; lia.
  - change (PyStr.hex_digits (S (S f)) n rest)
      with (if n <? 16 then String (PyStr.hex_digit (n mod 16)) rest
            else PyStr.hex_digits (S f) (n / 16) (String (PyStr.hex_digit (n mod 16)) rest)).
    destruct (n <? 16).
    + exists (n mod 16). eexists. split; [apply Z.mod_pos_bound; lia|reflexivity].
    + apply IH. apply Z.div_pos; lia.
Qed.

(** Reading back the digits of [n] gives [n]. *)
Lemma scan_hex_digits (fuel : nat) : forall n rest pu seen,
  0 <= n < 16 ^ Z.of_nat (S fuel) ->
  PyStr.scan_digits (PyStr.hex_digits (S fuel) n rest) 0 pu seen
  = PyStr.scan_digits rest n false true.
Proof.
  induction fuel as [|f IH]; intros n rest pu seen Hn.
  - assert (Hlt : n < 16) by (cbn in Hn; lia).
    cbn [PyStr.hex_digits]. apply Z.ltb_lt in Hlt. rewrite Hlt.
    apply Z.ltb_lt in Hlt.
    cbn [PyStr.scan_digits]. rewrite Z.mod_small by lia.
    rewrite hex_value_digit by lia. f_equal.
  - change (PyStr.hex_digits (S (S f)) n rest)
      with (if n <? 16 then String (PyStr.hex_digit (n mod 16)) rest
            else PyStr.hex_digits (S f) (n / 16) (String (PyStr.hex_digit (n mod 16)) rest)).
    assert (Hm : 0 <= n mod 16 < 16) by (apply Z.mod_pos_bound; lia).
    destruct (Z.ltb_spec n 16) as [Hlt|Hge].
    + cbn [PyStr.scan_digits]. rewrite Z.mod_small by lia.
      rewrite hex_value_digit by lia. f_equal.
    + rewrite IH.
      * cbn [PyStr.scan_digits]. rewrite hex_value_digit by exact Hm.
        f_equal. rewrite (Z.div_mod n 16) at 3 by lia. reflexivity.
      * split; [apply Z.div_pos; lia|].
        apply Z.div_lt_upper_bound; [lia|].
        rewrite (Nat2Z.inj_succ (S f)), Z.pow_succ_r in Hn by lia. lia.
Qed.

Lemma hex_fuel_enough (a : Z) :
  0 <= a -> a < 16 ^ Z.of_nat (S (Z.to_nat (Z.log2 a))).
Proof.
  intros Ha.
  rewrite Nat2Z.inj_succ, Z2Nat.id by apply Z.log2_nonneg.
  destruct (Z.eq_dec a 0) as [->|Hnz]; [cbn; lia|].
  assert (H2 : a < 2 ^ Z.succ (Z.log2 a)) by (apply Z.log2_spec; lia).
  assert (H3 : 2 ^ Z.succ (Z.log2 a) <= 16 ^ Z.succ (Z.log2 a)).
  { apply Z.pow_le_mono_l. lia. }
  lia.
Qed.

(** [int] on a signed, prefixed literal is the scan of its digits. *)
Lemma int16_literal (neg : bool) (c : ascii) (r : string) :
  Ascii.eqb c "_" = false ->
  PyStr.int16 ((if neg then "-" else EmptyString) ++ "0x" ++ String c r)
  = v <- PyStr.scan_digits (String c r) 0 false false ;;
    Return (if neg then - v else v).
Proof.
  intros Hus.
  destruct neg; unfold PyStr.int16; cbn [append PyStr.lstrip];
    destruct c as [[] [] [] [] [] [] [] []]; try discriminate Hus; reflexivity.
Qed.

(** [int(hex(n), 16) == n] *)
Lemma int16_hex (n : Z) : PyStr.int16 (PyStr.hex n) = Return n.
Proof.
  unfold PyStr.hex.
  set (a := Z.abs n). set (fuel := Z.to_nat (Z.log2 a)).
  assert (Ha : 0 <= a) by apply Z.abs_nonneg.
  assert (Hscan : PyStr.scan_digits (PyStr.hex_digits (S fuel) a EmptyString) 0 false false
                  = Return a).
  { rewrite scan_hex_digits by (split; [exact Ha|apply hex_fuel_enough; exact Ha]).
    reflexivity. }
  destruct (hex_digits_head fuel a EmptyString Ha) as (d & r & Hd & Hhead).
  destruct (hex_digit_plain d Hd) as (_ & Hus & _).
  rewrite Hhead in *.
  destruct (Z.ltb_spec n 0) as [Hneg|Hpos].
  - pose proof (int16_literal true _ r Hus) as E. cbn [append] in E |- *.
    rewrite E, Hscan. cbn [Py.bind]. f_equal. unfold a. lia.
  - pose proof (int16_literal false _ r Hus) as E. cbn [append] in E |- *.
    rewrite E, Hscan. cbn [Py.bind]. f_equal. unfold a. lia.
Qed.

End Hex.
(** ** The dispatcher *)

Section Dispatcher.

Lemma posts_app (a b : list event) : posts (a ++ b)%list = (posts a ++ posts b)%list.
Proof. apply filter_app. Qed.

Lemma multi_send_loop_posts urls : forall i body sink,
  posts (fst (Multi.send_loop urls i body sink)) = map (fun u => Post u body 5) urls
  /\ snd (Multi.send_loop urls i body sink) = Return tt.
Proof.
  induction urls as [|u rest IH]; intros i body sink; [split; reflexivity|].
  specialize (IH (S i) body sink). destruct IH as [IHp IHr].
  cbn [Multi.send_loop]. destruct (sink i) as [status b|e]; cbn;
    destruct (Multi.send_loop rest (S i) body sink) as [t r]; cbn in *;
    subst r; rewrite IHp; split; reflexivity.
Qed.

Lemma base_send_loop_posts urls : forall i body t usd sym sink,
  posts (fst (Base.send_loop urls i body t usd sym sink)) = map (fun u => Post u body 5) urls
  /\ snd (Base.send_loop urls i body t usd sym sink) = Return tt.
Proof.
  induction urls as [|u rest IH]; intros i body t usd sym sink; [split; reflexivity|].
  specialize (IH (S i) body t usd sym sink). destruct IH as [IHp IHr].
  cbn [Base.send_loop]. destruct (sink i) as [status b|e]; cbn;
    destruct (Base.send_loop rest (S i) body t usd sym sink) as [tr r]; cbn in *;
    subst r; rewrite IHp; split; reflexivity.
Qed.

(** What a dispatch sends, for both monitors. *)
Lemma dispatch_posts (chain : Multi.ChainConfig) (t : transfer) (usd : F64.float)
    (sym : string) (sink : nat -> post_outcome) :
  posts (fst (Multi.send_to_webhook chain t usd sym sink))
    = map (fun u => Post u (Multi.payload chain t) 5) WEBHOOK_URLS
  /\ snd (Multi.send_to_webhook chain t usd sym sink) = Return tt
  /\ posts (fst (Base.send_to_webhook t usd sym sink))
    = map (fun u => Post u (Base.payload t) 5) WEBHOOK_URLS
  /\ snd (Base.send_to_webhook t usd sym sink) = Return tt.
Proof.
  destruct (multi_send_loop_posts WEBHOOK_URLS 0 (Multi.payload chain t) sink) as [Mp Mr].
  destruct (base_send_loop_posts WEBHOOK_URLS 0 (Base.payload t) t usd sym sink) as [Bp Br].
  unfold Multi.send_to_webhook, Base.send_to_webhook.
  destruct (Multi.send_loop WEBHOOK_URLS 0 (Multi.payload chain t) sink) as [mt mr].
  cbn in Mp, Mr. subst mr.
  repeat split; try assumption; cbn; assumption.
Qed.

(** C3.  Whatever the sinks answer (a status, a timeout, a transport error),
    a dispatch sends exactly one request to each configured sink, in the
    order of [WEBHOOK_URLS], all with the same payload, and ends normally:
    no failure stops the loop or is retried.  This holds for the dispatcher
    of both monitors. *)
Theorem C3_every_sink_attempted_once :
  forall (chain : Multi.ChainConfig) (t : transfer) (usd : F64.float) (sym : string)
         (sink : nat -> post_outcome),
    posts (fst (Multi.send_to_webhook chain t usd sym sink))
      = map (fun u => Post u (Multi.payload chain t) 5) WEBHOOK_URLS
    /\ snd (Multi.send_to_webhook chain t usd sym sink) = Return tt
    /\ posts (fst (Base.send_to_webhook t usd sym sink))
      = map (fun u => Post u (Base.payload t) 5) WEBHOOK_URLS
    /\ snd (Base.send_to_webhook t usd sym sink) = Return tt.
Proof. exact dispatch_posts. Qed.

End Dispatcher.

(** ** The payload *)

Section Payload.

(** The field names of the specification are not the ones on the wire: the
    payload of a dispatch has no field called [recipient]. *)
Lemma C7_counterexample :
  ~ AsStated.has_exactly_fields (Multi.payload Sample.boba Sample.a_transfer)
      ["recipient"; "sender"; "contract"; "chain_id"; "stream_endpoint"; "rpc_endpoint"].
Proof.
  intros H. destruct (H "recipient") as [_ H2].
  assert (Hin : In "recipient" (dict_keys (Multi.payload Sample.boba Sample.a_transfer))).
  { apply H2. left. reflexivity. }
  cbn in Hin.
  repeat (destruct Hin as [Hin|Hin]; [discriminate Hin|]). exact Hin.
Qed.

(** C7 (amended).  Every request of a dispatch carries a JSON object with
    exactly the six fields [r], [s], [contract], [chain_id], [wss] and
    [rpc_url], holding the transfer's recipient, sender and contract, the
    chain's numeric id, its streaming endpoint (the empty string when none is
    configured) and its RPC endpoint.  In the single-chain monitor the last
    three are the constants 8453, [WSS_URL] and the Base RPC address. *)
Theorem C7_payload_fields :
  forall (chain : Multi.ChainConfig) (t : transfer) (usd : F64.float) (sym : string)
         (sink : nat -> post_outcome),
    Forall (payload_shape (recipient t) (sender t) (contract t) (Multi.chain_id chain)
              (match Multi.wss chain with Some w => w | None => EmptyString end)
              (Multi.rpc_url chain))
           (posts (fst (Multi.send_to_webhook chain t usd sym sink)))
    /\ Forall (payload_shape (recipient t) (sender t) (contract t) 8453
                 Base.WSS_URL Base.RPC_URL)
              (posts (fst (Base.send_to_webhook t usd sym sink))).
Proof.
  intros chain t usd sym sink.
  destruct (dispatch_posts chain t usd sym sink) as (Mp & _ & Bp & _).
  rewrite Mp, Bp. split; apply Forall_forall; intros e He;
    apply in_map_iff in He; destruct He as (u & <- & _);
    exists u; eexists; repeat split.
Qed.

End Payload.

(** ** The decoder *)

Section Decoder.

(** The multi-chain decoder never raises and prints nothing. *)
Lemma multi_decode_total (log : json) :
  exists r, Multi.decode_transfer_log log = ([], Return r).
Proof.
  unfold Multi.decode_transfer_log, Trace.try_except, lift.
  destruct (Multi.decode_body log) as [r|e]; eexists; reflexivity.
Qed.

(** The single-chain decoder never raises; when its body raises it prints one
    line and answers [None]. *)
Lemma base_decode_total (log : json) :
  (exists r, Base.decode_transfer_log log = ([], Return r))
  \/ (exists e, Base.decode_body log = Raise e
        /\ Base.decode_transfer_log log
           = ([Print "Error decoding log: {e}" [AExc e]], Return None)).
Proof.
  unfold Base.decode_transfer_log, Trace.try_except, lift.
  destruct (Base.decode_body log) as [r|e].
  - left. eexists; reflexivity.
  - right. exists e. split; reflexivity.
Qed.

(** On a log whose data field is not a number the single-chain decoder
    writes to the console: it is not free of I/O. *)
Lemma C4_counterexample :
  ~ AsStated.decodes_purely Base.decode_transfer_log (Sample.log_with (JStr "0xzz")).
Proof.
  intros [r H]. vm_compute in H. discriminate H.
Qed.

(** C4 (amended).  On every input, dictionary or not, both decoders return a
    transfer or [None] and never raise.  The multi-chain decoder has no
    effect at all; the single-chain decoder has none either, except that it
    prints one diagnostic line when it answers [None] because its body
    raised. *)
Theorem C4_decoder_total :
  forall log : json,
    (exists r, Multi.decode_transfer_log log = ([], Return r))
    /\ ((exists r, Base.decode_transfer_log log = ([], Return r))
        \/ (exists e, Base.decode_transfer_log log
                      = ([Print "Error decoding log: {e}" [AExc e]], Return None))).
Proof.
  intros log. split; [apply multi_decode_total|].
  destruct (base_decode_total log) as [H|(e & _ & H)]; [left|right; exists e]; exact H.
Qed.

(** The multi-chain decoder does what C8 says: empty data and ["0x"] both
    decode to amount zero. *)
Lemma multi_decode_empty_data (log : json) :
  well_formed_log log ->
  field "data" log = JStr "0x" \/ field "data" log = JStr EmptyString ->
  exists t, Multi.decode_transfer_log log = ([], Return (Some t)) /\ amount_raw t = 0.
Proof.
  intros (d & sig & a & b & more & -> & Ht & Ha) Hd.
  unfold Multi.decode_transfer_log, Multi.decode_body.
  cbn [get Py.bind]. rewrite Ht. cbn [len Py.bind].
  replace (Z.of_nat (Datatypes.length (sig :: JStr a :: JStr b :: more)) <? 3) with false
    by (symmetry; apply Z.ltb_ge; cbn [Datatypes.length]; lia).
  cbn [index nth_error slice_last str_add Py.bind].
  assert (Hdata : exists s, (s = "0x" \/ s = EmptyString) /\ lookup "data" d = Some (JStr s)).
  { unfold field in Hd. destruct (lookup "data" d) as [x|].
    - destruct Hd as [Hd|Hd]; subst x.
      + exists "0x". split; [left|]; reflexivity.
      + exists EmptyString. split; [right|]; reflexivity.
    - destruct Hd; discriminate. }
  destruct Hdata as (s & Hs & ->).
  assert (Hg : (truthy (JStr s) && negb (eq_str (JStr s) "0x"))%bool = false)
    by (destruct Hs; subst s; reflexivity).
  rewrite Hg. cbn [Py.bind].
  destruct Ha as [->|[c ->]]; cbn [lower Py.bind Trace.try_except lift];
    eexists; split; reflexivity.
Qed.

(** C8, on the code.  With data ["0x"] both decoders return amount zero; with
    empty data the multi-chain decoder does too, but the single-chain one
    passes the empty string to [int(data, 16)], which raises: the log is
    reported and dropped. *)
Theorem C8_base_empty_data_dropped :
  Base.decode_transfer_log (Sample.log_with (JStr EmptyString))
    = ([Print "Error decoding log: {e}" [AExc ValueError]], Return None)
  /\ (exists t, Multi.decode_transfer_log (Sample.log_with (JStr EmptyString))
                = ([], Return (Some t)) /\ amount_raw t = 0)
  /\ (exists t, Base.decode_transfer_log (Sample.log_with (JStr "0x"))
                = ([], Return (Some t)) /\ amount_raw t = 0).
Proof.
  split; [vm_compute; reflexivity|].
  split; eexists; (split; [vm_compute; reflexivity|reflexivity]).
Qed.

End Decoder.

(** ** The subscription handshake *)

Section Handshake.

(** The multi-chain session, refused: it logs, sleeps ten seconds and the pass
    ends normally, so the loop connects again. *)
Lemma multi_subscription_refused (chain : Multi.ChainConfig) (tokens : token_table)
    (inp : Multi.stream_input) (w : string) (result : json) :
  Multi.wss chain = Some w ->
  Multi.connect_result inp = Return tt ->
  Multi.send_result inp = Return tt ->
  Multi.sub_reply inp = Return result ->
  contains "result" result = Return false ->
  Multi.stream_iteration chain tokens inp
  = ([ Print "[{chain.name}] Connecting to {chain.wss[:50]}..."
         [AStr (Multi.name chain); AStr (PyStr.first_chars 50 w)];
       Connect w;
       Print "[{chain.name}] Connected! Subscribing to {len(tokens)} tokens..."
         [AStr (Multi.name chain); AInt (Z.of_nat (List.length tokens))];
       WsSend (Multi.subscribe_request tokens);
       WsRecv;
       Print "[{chain.name}] Subscription failed: {result}"
         [AStr (Multi.name chain); AJson result];
       Sleep 10 ],
     Return tt).
Proof.
  intros Hw Hc Hs Hr Hin.
  unfold Multi.stream_iteration, Multi.stream_body.
  rewrite Hw, Hc, Hs, Hr. cbn [Trace.bind lift emit ret app].
  rewrite Hin. reflexivity.
Qed.

(** The single-chain session, refused: it logs and the pass ends at once,
    with no sleep before the loop connects again. *)
Lemma base_subscription_refused (inp : Base.stream_input) (result : json) :
  Base.connect_result inp = Return tt ->
  Base.send_result inp = Return tt ->
  Base.sub_reply inp = Return result ->
  contains "result" result = Return false ->
  Base.stream_iteration inp
  = ([ Print "Connecting to {WSS_URL}..." [AStr Base.WSS_URL];
       Connect Base.WSS_URL;
       Print "Connected! Subscribing to Transfer events..." [];
       WsSend Base.subscribe_request;
       WsRecv;
       Print "Subscription failed: {result}" [AJson result] ],
     Return tt).
Proof.
  intros Hc Hs Hr Hin.
  unfold Base.stream_iteration, Base.stream_body.
  rewrite Hc, Hs, Hr. cbn [Trace.bind lift emit ret app].
  rewrite Hin. reflexivity.
Qed.

(** The multi-chain session, when the reply cannot be read (it is not JSON,
    or reading it fails with anything but a closed connection): the generic
    handler also sleeps ten seconds before the next pass. *)
Lemma multi_subscription_unreadable (chain : Multi.ChainConfig) (tokens : token_table)
    (inp : Multi.stream_input) (w : string) (e : exc) :
  Multi.wss chain = Some w ->
  Multi.connect_result inp = Return tt ->
  Multi.send_result inp = Return tt ->
  Multi.sub_reply inp = Raise e ->
  e <> ConnectionClosed ->
  sleeps (fst (Multi.stream_iteration chain tokens inp)) = [Sleep 10]
  /\ snd (Multi.stream_iteration chain tokens inp) = Return tt.
Proof.
  intros Hw Hc Hs Hr He.
  unfold Multi.stream_iteration, Multi.stream_body.
  rewrite Hw, Hc, Hs, Hr. cbn [Trace.bind lift emit ret app Trace.try_except].
  destruct e; try (split; reflexivity). exfalso. apply He. reflexivity.
Qed.

(** C9, on the code.  The node answers the subscription with an error
    object.  The multi-chain session logs, sleeps 10 seconds and goes on to
    the next pass; the single-chain session logs and goes on to the next pass
    without sleeping at all. *)
Theorem C9_base_retries_without_delay :
  sleeps (fst (Base.stream_iteration Sample.refused_base)) = []
  /\ snd (Base.stream_iteration Sample.refused_base) = Return tt
  /\ sleeps (fst (Multi.stream_iteration Sample.ethereum [] Sample.refused_multi)) = [Sleep 10]
  /\ snd (Multi.stream_iteration Sample.ethereum [] Sample.refused_multi) = Return tt.
Proof. repeat split. Qed.

End Handshake.

(** ** The polling session *)

Section Polling.

Lemma log_queries_app (a b : list event) :
  log_queries (a ++ b)%list = (log_queries a ++ log_queries b)%list.
Proof.
  induction a as [|e a IH]; [reflexivity|].
  cbn [app log_queries]. destruct (log_query e); rewrite IH; reflexivity.
Qed.

Lemma pass_failed_app (a b : list event) :
  pass_failed (a ++ b)%list = (pass_failed a || pass_failed b)%bool.
Proof. apply existsb_app. Qed.

Lemma quiet_app (a b : list event) : quiet a -> quiet b -> quiet (a ++ b)%list.
Proof.
  intros [Ha1 Ha2] [Hb1 Hb2]. split.
  - rewrite log_queries_app, Ha1, Hb1. reflexivity.
  - rewrite pass_failed_app, Ha2, Hb2. reflexivity.
Qed.

Lemma quiet_nil : quiet [].
Proof. split; reflexivity. Qed.

Lemma quiet_bind {A B} (c : io A) (k : A -> io B) :
  quiet (fst c) -> (forall a, quiet (fst (k a))) -> quiet (fst (Trace.bind c k)).
Proof.
  intros Hc Hk. destruct c as [t [a|e]]; cbn [Trace.bind fst] in *.
  - specialize (Hk a). destruct (k a) as [t' r]. cbn [fst] in *.
    apply quiet_app; assumption.
  - exact Hc.
Qed.

Lemma multi_send_loop_quiet (chain : Multi.ChainConfig) (t : transfer) urls :
  forall i sink, quiet (fst (Multi.send_loop urls i (Multi.payload chain t) sink)).
Proof.
  induction urls as [|u rest IH]; intros i sink; [apply quiet_nil|].
  cbn [Multi.send_loop]. apply quiet_bind; [|intros _; apply IH].
  destruct (sink i) as [status b|e]; split; reflexivity.
Qed.

Lemma multi_process_log_quiet chain tokens log sink :
  quiet (fst (Multi.process_log chain tokens log sink)).
Proof.
  unfold Multi.process_log. apply quiet_bind.
  { destruct (multi_decode_total log) as [r ->]. apply quiet_nil. }
  intros [t|]; [|apply quiet_nil].
  apply quiet_bind; [apply quiet_nil|].
  intros [[usd sym]|]; [|apply quiet_nil].
  destruct (F64.ge_int usd Multi.MIN_USD_VALUE); [|apply quiet_nil].
  unfold Multi.send_to_webhook.
  repeat (apply quiet_bind; [split; reflexivity|intros _]).
  apply multi_send_loop_quiet.
Qed.

Lemma multi_process_logs_quiet chain tokens logs :
  forall i sinks, quiet (fst (Multi.process_logs chain tokens logs i sinks)).
Proof.
  induction logs as [|log rest IH]; intros i sinks; [apply quiet_nil|].
  cbn [Multi.process_logs]. apply quiet_bind; [apply multi_process_log_quiet|].
  intros _. apply IH.
Qed.

(** What one pass does to a set cursor.  Either it asks for no logs and the
    cursor stays, or it asks once, for the blocks from the one after the
    cursor up to the height it was told; then the cursor moves to that height
    if the pass went through and stays if it failed. *)
Lemma poll_pass_spec (chain : Multi.ChainConfig) (tokens : token_table)
    (last : json) (inp : Multi.poll_input) :
  exists tr last',
    Multi.poll_iteration chain tokens (Some last) inp = (tr, Return (Some last'))
    /\ ((log_queries tr = [] /\ last' = last)
        \/ exists n cur c,
             block_number_of last = Some n
             /\ reported_height inp = Some cur
             /\ block_number_of cur = Some c
             /\ n + 1 <= c
             /\ log_queries tr = [(JStr (PyStr.hex (n + 1)), cur)]
             /\ ((pass_failed tr = true /\ last' = last)
                 \/ (pass_failed tr = false /\ last' = cur))).
Proof.
  unfold Multi.poll_iteration, Multi.poll_body, reported_height.
  destruct (reply_json (Multi.height_reply inp)) as [block_result|e];
    [|do 2 eexists; split; [reflexivity|left; split; reflexivity]].
  destruct block_result as [| | | | |l|d];
    try (do 2 eexists; split; [reflexivity|left; split; reflexivity]).
  cbn [lift emit Trace.bind get app field].
  set (cur := match lookup "result" d with Some v => v | None => JNull end).
  destruct (truthy cur) eqn:Htruthy; cbn [negb];
    [|do 2 eexists; split; [reflexivity|left; split; reflexivity]].
  unfold block_number_of.
  destruct (int16 last) as [n|e] eqn:Hlast; cbn [lift Trace.bind app];
    [|do 2 eexists; split; [reflexivity|left; split; reflexivity]].
  rewrite int16_hex. cbn [lift Trace.bind app].
  destruct (int16 cur) as [c|e] eqn:Hcur; cbn [lift Trace.bind app];
    [|do 2 eexists; split; [reflexivity|left; split; reflexivity]].
  destruct (Z.gtb_spec (n + 1) c) as [Hgt|Hle];
    [do 2 eexists; split; [reflexivity|left; split; reflexivity]|].
  cbn [emit Trace.bind app].
  assert (Hq : log_query (Post (Multi.rpc_url chain)
                 (Multi.log_req tokens (PyStr.hex (n + 1)) cur) 30)
               = Some (JStr (PyStr.hex (n + 1)), cur)) by reflexivity.
  assert (Hb : log_query (Post (Multi.rpc_url chain) Multi.block_req 10) = None)
    by reflexivity.
  assert (Hcore : forall tr last',
            log_queries tr = [] ->
            (pass_failed tr = true /\ last' = last) \/ (pass_failed tr = false /\ last' = cur) ->
            exists n0 cur0 c0,
              Some n = Some n0
              /\ Some cur = Some cur0
              /\ match int16 cur0 with Return k => Some k | Raise _ => None end = Some c0
              /\ n0 + 1 <= c0
              /\ log_queries
                   (Post (Multi.rpc_url chain) Multi.block_req 10
                    :: Post (Multi.rpc_url chain)
                         (Multi.log_req tokens (PyStr.hex (n + 1)) cur) 30 :: tr)
                 = [(JStr (PyStr.hex (n0 + 1)), cur0)]
              /\ ((pass_failed
                     (Post (Multi.rpc_url chain) Multi.block_req 10
                      :: Post (Multi.rpc_url chain)
                           (Multi.log_req tokens (PyStr.hex (n + 1)) cur) 30 :: tr) = true
                   /\ last' = last)
                  \/ (pass_failed
                        (Post (Multi.rpc_url chain) Multi.block_req 10
                         :: Post (Multi.rpc_url chain)
                              (Multi.log_req tokens (PyStr.hex (n + 1)) cur) 30 :: tr) = false
                      /\ last' = cur0))).
  { intros tr last' Hquiet Hres. exists n, cur, c. rewrite Hcur.
    split; [reflexivity|]. split; [reflexivity|]. split; [reflexivity|].
    split; [exact Hle|]. split.
    - cbn [log_queries]. rewrite Hb, Hq, Hquiet. reflexivity.
    - exact Hres. }
  destruct (reply_json (Multi.logs_reply inp)) as [log_result|e]; cbn [lift Trace.bind app].
  2:{ do 2 eexists; split; [reflexivity|right].
      cbn [app]. apply Hcore; [reflexivity|left; split; reflexivity]. }
  destruct (get log_result "result" (JList [])) as [logs|e]; cbn [lift Trace.bind app].
  2:{ do 2 eexists; split; [reflexivity|right].
      cbn [app]. apply Hcore; [reflexivity|left; split; reflexivity]. }
  set (run := match logs with
              | JList l => Multi.process_logs chain tokens l 0 (Multi.sinks inp)
              | _ => ret tt
              end).
  assert (Hrun : quiet (fst run)).
  { unfold run. destruct logs; try apply quiet_nil. apply multi_process_logs_quiet. }
  destruct run as [pt [[]|e]]; cbn [fst] in Hrun; destruct Hrun as [Hrq Hrf];
    cbn [Trace.bind emit ret app Trace.try_except].
  - do 2 eexists; split; [reflexivity|right]. cbn [app]. apply Hcore.
    + rewrite log_queries_app, Hrq. reflexivity.
    + right. split; [|reflexivity]. rewrite pass_failed_app, Hrf. reflexivity.
  - do 2 eexists; split; [reflexivity|right]. cbn [app]. apply Hcore.
    + rewrite log_queries_app, Hrq. reflexivity.
    + left. split; [|reflexivity]. rewrite pass_failed_app, Hrf. reflexivity.
Qed.

Lemma cursor_le_refl (a : json) : cursor_le a a.
Proof. left. reflexivity. Qed.

Lemma cursor_le_trans (a b c : json) : cursor_le a b -> cursor_le b c -> cursor_le a c.
Proof.
  intros [->|(x & y & Hx & Hy & Hxy)] [->|(y' & z & Hy' & Hz & Hyz)].
  - left. reflexivity.
  - right. exists y', z. auto.
  - right. exists x, y. auto.
  - right. exists x, z. repeat split; try assumption.
    rewrite Hy in Hy'. injection Hy' as <-. lia.
Qed.

(** One pass never moves a set cursor backwards. *)
Lemma poll_pass_monotone (chain : Multi.ChainConfig) (tokens : token_table)
    (last : json) (inp : Multi.poll_input) :
  exists tr last',
    Multi.poll_iteration chain tokens (Some last) inp = (tr, Return (Some last'))
    /\ cursor_le last last'.
Proof.
  destruct (poll_pass_spec chain tokens last inp) as (tr & last' & Heq & Hcases).
  exists tr, last'. split; [exact Heq|].
  destruct Hcases as [[_ ->]|(n & cur & c & Hn & _ & Hc & Hle & _ & [[_ ->]|[_ ->]])];
    try apply cursor_le_refl.
  right. exists n, c. repeat split; try assumption. lia.
Qed.

(** Nor does any number of passes. *)
Lemma poll_loop_monotone (chain : Multi.ChainConfig) (tokens : token_table)
    (inputs : list Multi.poll_input) :
  forall last, exists tr last',
    Multi.poll_loop chain tokens (Some last) inputs = (tr, Return (Some last'))
    /\ cursor_le last last'.
Proof.
  induction inputs as [|inp rest IH]; intros last.
  - exists [], last. split; [reflexivity|apply cursor_le_refl].
  - destruct (poll_pass_monotone chain tokens last inp) as (t1 & l1 & E1 & L1).
    destruct (IH l1) as (t2 & l2 & E2 & L2).
    exists (t1 ++ t2)%list, l2. split.
    + cbn [Multi.poll_loop]. rewrite E1. cbn [Trace.bind]. rewrite E2. reflexivity.
    + exact (cursor_le_trans _ _ _ L1 L2).
Qed.

(** The ranges of the passes that went through follow one another. *)
Lemma closed_ranges_chained (chain : Multi.ChainConfig) (tokens : token_table)
    (inputs : list Multi.poll_input) :
  forall last,
    chained (block_number_of last) (closed_ranges chain tokens (Some last) inputs).
Proof.
  induction inputs as [|inp rest IH]; intros last; [exact I|].
  cbn [closed_ranges].
  destruct (poll_pass_spec chain tokens last inp) as (tr & last' & -> & Hcases).
  destruct Hcases as [[Hq ->]|(n & cur & c & Hn & _ & Hc & Hle & Hq & [[Hf ->]|[Hf ->]])].
  - rewrite Hq. destruct (pass_failed tr); apply IH.
  - rewrite Hf. apply IH.
  - rewrite Hf, Hq. cbn [map app]. unfold range_of. cbn [fst snd].
    assert (Hfrom : block_number_of (JStr (PyStr.hex (n + 1))) = Some (n + 1)).
    { unfold block_number_of, PyVal.int16. rewrite int16_hex. reflexivity. }
    rewrite Hfrom, Hc, Hn. cbn [chained]. split; [f_equal; lia|]. split; [exact Hle|].
    rewrite <- Hc. apply IH.
Qed.

(** Until a height is reported the cursor stays unset, and no logs are asked
    for; the first truthy height becomes the cursor. *)
Lemma poll_pass_unset (chain : Multi.ChainConfig) (tokens : token_table)
    (inp : Multi.poll_input) :
  exists tr last',
    Multi.poll_iteration chain tokens None inp = (tr, Return last')
    /\ log_queries tr = []
    /\ (last' = None
        \/ exists cur, reported_height inp = Some cur /\ truthy cur = true
                       /\ last' = Some cur).
Proof.
  unfold Multi.poll_iteration, Multi.poll_body, reported_height.
  destruct (reply_json (Multi.height_reply inp)) as [block_result|e];
    [|do 2 eexists; split; [reflexivity|split; [reflexivity|left; reflexivity]]].
  destruct block_result as [| | | | |l|d];
    try (do 2 eexists; split; [reflexivity|split; [reflexivity|left; reflexivity]]).
  cbn [lift emit Trace.bind get app field].
  set (cur := match lookup "result" d with Some v => v | None => JNull end).
  destruct (truthy cur) eqn:Htruthy; cbn [negb];
    do 2 eexists; (split; [reflexivity|split; [reflexivity|]]).
  - right. exists cur. repeat split. exact Htruthy.
  - left. reflexivity.
Qed.

(** C1.  In a polling session, for any replies of the network:
    - over any number of passes a set cursor stays set and is afterwards
      the same block or a later one;
    - a pass sends at most one log query, and that query asks for the
      blocks from cursor + 1 up to the height the pass was told, which is
      not below cursor + 1; the pass leaves the cursor where it was when it
      fails and moves it to that height when it goes through;
    - hence the ranges of the passes that went through are chained: each
      starts one block after the previous one ends, the first one block after
      the cursor the session started from. *)
Theorem C1_cursor_monotone_ranges_contiguous :
  forall (chain : Multi.ChainConfig) (tokens : token_table) (last : json),
    (forall inputs, exists tr last',
        Multi.poll_loop chain tokens (Some last) inputs = (tr, Return (Some last'))
        /\ cursor_le last last')
    /\ (forall inp, exists tr last',
          Multi.poll_iteration chain tokens (Some last) inp = (tr, Return (Some last'))
          /\ ((log_queries tr = [] /\ last' = last)
              \/ exists n cur c,
                   block_number_of last = Some n
                   /\ reported_height inp = Some cur
                   /\ block_number_of cur = Some c
                   /\ n + 1 <= c
                   /\ log_queries tr = [(JStr (PyStr.hex (n + 1)), cur)]
                   /\ ((pass_failed tr = true /\ last' = last)
                       \/ (pass_failed tr = false /\ last' = cur))))
    /\ (forall inputs,
          chained (block_number_of last) (closed_ranges chain tokens (Some last) inputs)).
Proof.
  intros chain tokens last. split; [|split].
  - intros inputs. apply poll_loop_monotone.
  - intros inp. apply poll_pass_spec.
  - intros inputs. apply closed_ranges_chained.
Qed.

(** Three passes from block 0x10: the second query fails, the third covers
    what it missed. *)
Example closed_ranges_sample :
  closed_ranges Sample.boba [] (Some (JStr "0x10"))
    [ Multi.mkPoll (Sample.height "0x12") (Sample.ok (JDict [("result", JList [])]))
        (fun _ => Sample.no_sink);
      Multi.mkPoll (Sample.height "0x15") (Failed (TransportError "timeout"))
        (fun _ => Sample.no_sink);
      Multi.mkPoll (Sample.height "0x16") (Sample.ok (JDict [("result", JList [])]))
        (fun _ => Sample.no_sink) ]
  = [Some (17, 18); Some (19, 22)].
Proof. vm_compute. reflexivity. Qed.

(** The log query of a pass depends on the cursor and on the height the pass
    is told, on nothing else. *)
Lemma poll_pass_queries (chain : Multi.ChainConfig) (tokens : token_table)
    (last : json) (inp : Multi.poll_input) :
  log_queries (fst (Multi.poll_iteration chain tokens (Some last) inp))
  = planned_query last (reported_height inp).
Proof.
  unfold Multi.poll_iteration, Multi.poll_body, reported_height, planned_query.
  destruct (reply_json (Multi.height_reply inp)) as [block_result|e]; [|reflexivity].
  destruct block_result as [| | | | |l|d]; try reflexivity.
  cbn [lift emit Trace.bind get app field].
  set (cur := match lookup "result" d with Some v => v | None => JNull end).
  destruct (truthy cur) eqn:Htruthy; cbn [negb]; [|reflexivity].
  destruct (int16 last) as [n|e] eqn:Hlast; cbn [lift Trace.bind app]; [|reflexivity].
  rewrite int16_hex. cbn [lift Trace.bind app].
  destruct (int16 cur) as [c|e] eqn:Hcur; cbn [lift Trace.bind app]; [|reflexivity].
  destruct (n + 1 >? c); [reflexivity|].
  cbn [emit Trace.bind app].
  destruct (reply_json (Multi.logs_reply inp)) as [log_result|e];
    cbn [lift Trace.bind app]; [|reflexivity].
  destruct (get log_result "result" (JList [])) as [logs|e];
    cbn [lift Trace.bind app]; [|reflexivity].
  set (run := match logs with
              | JList l => Multi.process_logs chain tokens l 0 (Multi.sinks inp)
              | _ => ret tt
              end).
  assert (Hrun : quiet (fst run)).
  { unfold run. destruct logs; try apply quiet_nil. apply multi_process_logs_quiet. }
  destruct run as [pt [[]|e]]; cbn [fst] in Hrun; destruct Hrun as [Hrq _];
    cbn [Trace.bind emit ret app Trace.try_except fst].
  - change (log_queries (Post (Multi.rpc_url chain) Multi.block_req 10
              :: Post (Multi.rpc_url chain)
                   (Multi.log_req tokens (PyStr.hex (n + 1)) cur) 30
              :: (pt ++ [Sleep (Multi.poll_interval chain)])%list)
            = [(JStr (PyStr.hex (n + 1)), cur)]).
    cbn [log_queries].
    change (log_query (Post (Multi.rpc_url chain) Multi.block_req 10)) with (@None (json * json)).
    change (log_query (Post (Multi.rpc_url chain)
                         (Multi.log_req tokens (PyStr.hex (n + 1)) cur) 30))
      with (Some (JStr (PyStr.hex (n + 1)), cur)).
    cbv iota. rewrite log_queries_app, Hrq. reflexivity.
  - cbn [log_queries].
    change (log_query (Post (Multi.rpc_url chain) Multi.block_req 10)) with (@None (json * json)).
    change (log_query (Post (Multi.rpc_url chain)
                         (Multi.log_req tokens (PyStr.hex (n + 1)) cur) 30))
      with (Some (JStr (PyStr.hex (n + 1)), cur)).
    cbv iota. rewrite log_queries_app, Hrq. reflexivity.
Qed.

(** A pass whose log request raises leaves a set cursor where it was. *)
Lemma poll_pass_raise_keeps (chain : Multi.ChainConfig) (tokens : token_table)
    (last : json) (inp : Multi.poll_input) :
  logs_query_raises inp ->
  snd (Multi.poll_iteration chain tokens (Some last) inp) = Return (Some last).
Proof.
  intros [e0 Hraise].
  unfold Multi.poll_iteration, Multi.poll_body.
  destruct (reply_json (Multi.height_reply inp)) as [block_result|e]; [|reflexivity].
  destruct block_result as [| | | | |l|d]; try reflexivity.
  cbn [lift emit Trace.bind get app].
  set (cur := match lookup "result" d with Some v => v | None => JNull end).
  destruct (truthy cur); cbn [negb]; [|reflexivity].
  destruct (int16 last) as [n|e]; cbn [lift Trace.bind app]; [|reflexivity].
  rewrite int16_hex. cbn [lift Trace.bind app].
  destruct (int16 cur) as [c|e]; cbn [lift Trace.bind app]; [|reflexivity].
  destruct (n + 1 >? c); [reflexivity|].
  cbn [emit Trace.bind app].
  destruct (reply_json (Multi.logs_reply inp)) as [log_result|e];
    cbn [lift Trace.bind app Py.bind] in *; [|reflexivity].
  rewrite Hraise. reflexivity.
Qed.

Lemma planned_query_shape (last : json) (h : option json) (q : json * json) :
  In q (planned_query last h) ->
  exists n, block_number_of last = Some n
            /\ fst q = JStr (PyStr.hex (n + 1)) /\ h = Some (snd q).
Proof.
  unfold planned_query, block_number_of. destruct h as [cur|]; [|intros []].
  destruct (truthy cur); [|intros []].
  destruct (int16 last) as [n|]; [|intros []].
  destruct (int16 cur) as [c|]; [|intros []].
  destruct (n + 1 >? c); intros Hin; [destruct Hin|].
  destruct Hin as [<-|[]]. exists n. repeat split.
Qed.

(** The block range of a retry is not the one that failed when the chain has
    grown in between: after a failed query for 0x11..0x12 the next pass, told
    height 0x15, asks for 0x11..0x15. *)
Lemma C2_counterexample : ~ AsStated.retry_identical Sample.boba [].
Proof.
  intros H.
  destruct (H (JStr "0x10")
              (Multi.mkPoll (Sample.height "0x12") (Failed (TransportError "timeout"))
                 (fun _ => Sample.no_sink))
              (Multi.mkPoll (Sample.height "0x15") (Failed (TransportError "timeout"))
                 (fun _ => Sample.no_sink))
              _ _ eq_refl) as [_ Hq].
  - vm_compute. discriminate.
  - exists (TransportError "timeout"). reflexivity.
  - vm_compute in Hq. discriminate Hq.
Qed.

(** C2 (amended).  When the log request of a pass raises (transport error,
    timeout, a body that is not JSON or not a JSON object), the pass leaves
    the cursor unchanged.  The next pass asks the height again: a log query
    it sends starts at the same block, cursor + 1, and ends at the height it
    is told; it is the identical range when that height is the same. *)
Theorem C2_failed_query_retried_from_same_block :
  forall (chain : Multi.ChainConfig) (tokens : token_table) (last : json)
         (inp : Multi.poll_input) (tr : list event) (last' : option json)
         (q : json * json),
    Multi.poll_iteration chain tokens (Some last) inp = (tr, Return last') ->
    log_queries tr = [q] ->
    logs_query_raises inp ->
    last' = Some last
    /\ (forall inp2 q2,
          In q2 (log_queries (fst (Multi.poll_iteration chain tokens last' inp2))) ->
          fst q2 = fst q /\ reported_height inp2 = Some (snd q2))
    /\ (forall inp2,
          reported_height inp2 = reported_height inp ->
          log_queries (fst (Multi.poll_iteration chain tokens last' inp2)) = [q]).
Proof.
  intros chain tokens last inp tr last' q Heq Hq Hraise.
  pose proof (poll_pass_raise_keeps chain tokens last inp Hraise) as Hkeep.
  rewrite Heq in Hkeep. cbn [snd] in Hkeep. injection Hkeep as ->.
  pose proof (poll_pass_queries chain tokens last inp) as Hplan.
  rewrite Heq in Hplan. cbn [fst] in Hplan. rewrite Hq in Hplan.
  split; [reflexivity|]. split.
  - intros inp2 q2 Hin. rewrite poll_pass_queries in Hin.
    destruct (planned_query_shape _ _ _ Hin) as (n2 & Hn2 & Hf2 & Hh2).
    assert (Hin1 : In q (planned_query last (reported_height inp)))
      by (rewrite <- Hplan; left; reflexivity).
    destruct (planned_query_shape _ _ _ Hin1) as (n1 & Hn1 & Hf1 & _).
    rewrite Hn1 in Hn2. injection Hn2 as <-.
    split; [congruence|exact Hh2].
  - intros inp2 Hsame. rewrite poll_pass_queries, Hsame. symmetry. exact Hplan.
Qed.

(** A timed-out query for 0x11..0x12, retried while the height is still
    0x12. *)
Lemma C2_witness :
  Some (JStr "0x10") = Some (JStr "0x10")
  /\ (forall inp2 q2,
        In q2 (log_queries (fst (Multi.poll_iteration Sample.boba []
                                   (Some (JStr "0x10")) inp2))) ->
        fst q2 = fst (JStr "0x11", JStr "0x12")
        /\ reported_height inp2 = Some (snd q2))
  /\ (forall inp2,
        reported_height inp2
        = reported_height (Multi.mkPoll (Sample.height "0x12")
                             (Failed (TransportError "timeout")) (fun _ => Sample.no_sink)) ->
        log_queries (fst (Multi.poll_iteration Sample.boba [] (Some (JStr "0x10")) inp2))
        = [(JStr "0x11", JStr "0x12")]).
Proof.
  eapply (C2_failed_query_retried_from_same_block Sample.boba [] (JStr "0x10")
            (Multi.mkPoll (Sample.height "0x12") (Failed (TransportError "timeout"))
               (fun _ => Sample.no_sink))).
  - reflexivity.
  - reflexivity.
  - exists (TransportError "timeout"). reflexivity.
Defined.

(** A node may also refuse a log query in the body of its reply.  Such a
    reply raises nothing: the pass reads an empty list of logs out of it and
    moves the cursor past the range. *)
Example error_reply_moves_cursor :
  snd (Multi.poll_iteration Sample.boba [] (Some (JStr "0x10"))
         (Multi.mkPoll (Sample.height "0x12") (Sample.ok Sample.rpc_error)
            (fun _ => Sample.no_sink)))
  = Return (Some (JStr "0x12")).
Proof. vm_compute. reflexivity. Qed.

(** A height reply whose body is not a JSON object has no [result] either,
    but reading it raises: on the body [null] the pass prints the poll error
    and sleeps ten seconds, not the five of the chain's poll interval. *)
Lemma C10_counterexample : ~ AsStated.no_height_waits_interval Sample.boba [].
Proof.
  intros H.
  destruct (H (Some (JStr "0x10"))
              (Multi.mkPoll (Sample.ok JNull) (Failed ConnectionClosed)
                 (fun _ => Sample.no_sink))
              200 JNull eq_refl eq_refl) as (tr & Heq & _ & Hs).
  vm_compute in Heq. injection Heq as <-. vm_compute in Hs. discriminate Hs.
Qed.

(** C10 (amended).  When the height request succeeds and its body has no
    truthy [result], the pass sends no log query and leaves the cursor where
    it was.  When the body is a JSON object the pass consists of that one
    request and one sleep of the poll interval.  When the body is any other
    JSON value (null, a list, a string, a number), reading the field raises
    [AttributeError]: the pass prints the poll error line and sleeps ten
    seconds instead. *)
Theorem C10_no_height_no_query :
  forall (chain : Multi.ChainConfig) (tokens : token_table) (last_block : option json)
         (inp : Multi.poll_input) (status : Z) (body : json),
    Multi.height_reply inp = Responded status (Return body) ->
    truthy (field "result" body) = false ->
    Multi.poll_iteration chain tokens last_block inp
    = match body with
      | JDict _ =>
          ([ Post (Multi.rpc_url chain) Multi.block_req 10;
             Sleep (Multi.poll_interval chain) ],
           Return last_block)
      | _ =>
          ([ Post (Multi.rpc_url chain) Multi.block_req 10;
             Print "[{chain.name}] HTTP poll error: {e}. Retrying in 10s..."
               [AStr (Multi.name chain); AExc AttributeError];
             Sleep 10 ],
           Return last_block)
      end.
Proof.
  intros chain tokens last_block inp status body Hh Ht.
  unfold Multi.poll_iteration, Multi.poll_body.
  rewrite Hh. cbn [reply_json lift Trace.bind emit get].
  destruct body as [| | | | | |reply]; try reflexivity.
  cbn [lift Trace.bind emit get]. unfold field in Ht. rewrite Ht. reflexivity.
Qed.

(** A reply whose [result] is null, as a node answers while it is syncing. *)
Lemma C10_witness :
  Multi.poll_iteration Sample.boba [] (Some (JStr "0x10"))
    (Multi.mkPoll (Sample.ok (JDict [("jsonrpc", JStr "2.0"); ("result", JNull)]))
                  (Failed ConnectionClosed) (fun _ => Sample.no_sink))
  = ([ Post (Multi.rpc_url Sample.boba) Multi.block_req 10;
       Sleep (Multi.poll_interval Sample.boba) ],
     Return (Some (JStr "0x10"))).
Proof.
  apply (C10_no_height_no_query Sample.boba [] (Some (JStr "0x10")) _ 200
           (JDict [("jsonrpc", JStr "2.0"); ("result", JNull)])); reflexivity.
Defined.

End Polling.

(** ** Powers and logarithms *)

Section Powers.

Local Open Scope Q_scope.

Variable beta : Z.
Hypothesis beta_ge_2 : (2 <= beta)%Z.

Let B : Q := inject_Z beta.

Lemma B_gt_1 : 1 < B.
Proof. unfold B. change 1 with (inject_Z 1). rewrite <- Zlt_Qlt. lia. Qed.

Lemma B_pos : 0 < B.
Proof. apply Qlt_trans with 1; [reflexivity|apply B_gt_1]. Qed.

Lemma B_nz : ~ B == 0.
Proof. intros H. pose proof B_pos as P. rewrite H in P. discriminate P. Qed.

Lemma bpow_pos (e : Z) : 0 < Rnd.bpow beta e.
Proof. apply Qpower_0_lt, B_pos. Qed.

Lemma bpow_nz (e : Z) : ~ Rnd.bpow beta e == 0.
Proof. intros H. pose proof (bpow_pos e) as P. rewrite H in P. discriminate P. Qed.

Lemma bpow_add (a b : Z) : Rnd.bpow beta (a + b) == Rnd.bpow beta a * Rnd.bpow beta b.
Proof. apply Qpower_plus, B_nz. Qed.

Lemma bpow_le (a b : Z) : (a <= b)%Z -> Rnd.bpow beta a <= Rnd.bpow beta b.
Proof. intros H. apply Qpower_le_compat_l; [exact H|apply Qlt_le_weak, B_gt_1]. Qed.

Lemma bpow_lt (a b : Z) : (a < b)%Z -> Rnd.bpow beta a < Rnd.bpow beta b.
Proof. intros H. apply Qpower_lt_compat_l; [exact H|apply B_gt_1]. Qed.

Lemma bpow_lt_inv (a b : Z) : Rnd.bpow beta a < Rnd.bpow beta b -> (a < b)%Z.
Proof. intros H. apply (Qpower_lt_compat_l_inv B); [exact H|apply B_gt_1]. Qed.

Lemma bpow_Z (n : Z) : (0 <= n)%Z -> Rnd.bpow beta n == inject_Z (beta ^ n).
Proof. intros H. unfold Rnd.bpow. symmetry. apply Zpower_Qpower, H. Qed.

(** The integer logarithm brackets its argument. *)
Lemma log_aux_spec (fuel : nat) : forall n : Z,
  (1 <= n < beta ^ Z.of_nat fuel)%Z ->
  (0 <= Rnd.log_aux fuel beta n
   /\ beta ^ Rnd.log_aux fuel beta n <= n < beta ^ (Rnd.log_aux fuel beta n + 1))%Z.
Proof.
  induction fuel as [|f IH]; intros n Hn.
  - cbn in Hn. lia.
  - cbn [Rnd.log_aux]. destruct (Z.ltb_spec n beta) as [Hlt|Hge].
    + change (0 + 1)%Z with 1%Z. rewrite Z.pow_0_r, Z.pow_1_r. lia.
    + assert (Hq : (1 <= n / beta < beta ^ Z.of_nat f)%Z).
      { split.
        - apply Z.div_le_lower_bound; lia.
        - apply Z.div_lt_upper_bound; [lia|].
          rewrite Nat2Z.inj_succ, Z.pow_succ_r in Hn by lia. lia. }
      destruct (IH _ Hq) as (H0 & Hlo & Hhi).
      set (l := Rnd.log_aux f beta (n / beta)) in *.
      pose proof (Z.mul_div_le n beta ltac:(lia)) as Hd1.
      pose proof (Z.mul_succ_div_gt n beta ltac:(lia)) as Hd2.
      split; [lia|].
      replace (1 + l + 1)%Z with (Z.succ (l + 1)) by lia.
      replace (1 + l)%Z with (Z.succ l) by lia.
      rewrite !Z.pow_succ_r by lia. split; nia.
Qed.

Lemma zlog_spec (n : Z) :
  (1 <= n)%Z ->
  (0 <= Rnd.zlog beta n
   /\ beta ^ Rnd.zlog beta n <= n < beta ^ (Rnd.zlog beta n + 1))%Z.
Proof.
  intros Hn. apply log_aux_spec. split; [exact Hn|].
  rewrite Nat2Z.inj_succ, Z2Nat.id by apply Z.log2_nonneg.
  assert (H2 : (n < 2 ^ Z.succ (Z.log2 n))%Z) by (apply Z.log2_spec; lia).
  assert (H3 : (2 ^ Z.succ (Z.log2 n) <= beta ^ Z.succ (Z.log2 n))%Z).
  { apply Z.pow_le_mono_l. lia. }
  lia.
Qed.

Lemma frac_ge (q : Q) (N : Z) (d : positive) :
  q * inject_Z (Zpos d) <= inject_Z N -> q <= N # d.
Proof.
  intros H. rewrite (Qmake_Qdiv N d). apply Qle_shift_div_l; [reflexivity|exact H].
Qed.

Lemma frac_lt (q : Q) (N : Z) (d : positive) :
  inject_Z N < q * inject_Z (Zpos d) -> N # d < q.
Proof.
  intros H. rewrite (Qmake_Qdiv N d). apply Qlt_shift_div_r; [reflexivity|exact H].
Qed.

(** The logarithm of a rational brackets its magnitude. *)
Lemma ilog_spec (x : Q) :
  ~ x == 0 ->
  Rnd.bpow beta (Rnd.ilog beta x) <= Qabs x < Rnd.bpow beta (Rnd.ilog beta x + 1).
Proof.
  intros Hx. destruct x as [n d].
  assert (HN : (1 <= Z.abs n)%Z).
  { destruct (Z.eq_dec n 0) as [->|]; [exfalso; apply Hx; reflexivity|lia]. }
  unfold Rnd.ilog. cbn [Qnum Qden Qabs].
  destruct (zlog_spec (Z.abs n) HN) as (Hn0 & Hnlo & Hnhi).
  destruct (zlog_spec (Zpos d) ltac:(lia)) as (Hd0 & Hdlo & Hdhi).
  set (ln := Rnd.zlog beta (Z.abs n)) in *. set (ld := Rnd.zlog beta (Zpos d)) in *.
  set (k := (ln - ld)%Z).
  assert (Qnlo : Rnd.bpow beta ln <= inject_Z (Z.abs n))
    by (rewrite bpow_Z by lia; rewrite <- Zle_Qle; exact Hnlo).
  assert (Qnhi : inject_Z (Z.abs n) < Rnd.bpow beta (ln + 1))
    by (rewrite bpow_Z by lia; rewrite <- Zlt_Qlt; exact Hnhi).
  assert (Qdlo : Rnd.bpow beta ld <= inject_Z (Zpos d))
    by (rewrite bpow_Z by lia; rewrite <- Zle_Qle; exact Hdlo).
  assert (Qdhi : inject_Z (Zpos d) <= Rnd.bpow beta (ld + 1))
    by (rewrite bpow_Z by lia; rewrite <- Zle_Qle; lia).
  assert (Hlow : Rnd.bpow beta (k - 1) <= Z.abs n # d).
  { apply frac_ge.
    apply Qle_trans with (Rnd.bpow beta (k - 1) * Rnd.bpow beta (ld + 1)).
    - apply Qmult_le_l; [apply bpow_pos|exact Qdhi].
    - rewrite <- bpow_add. replace (k - 1 + (ld + 1))%Z with ln by (unfold k; lia).
      exact Qnlo. }
  assert (Hhigh : Z.abs n # d < Rnd.bpow beta (k + 1)).
  { apply frac_lt.
    apply Qlt_le_trans with (Rnd.bpow beta (k + 1) * Rnd.bpow beta ld).
    - rewrite <- bpow_add. replace (k + 1 + ld)%Z with (ln + 1)%Z by (unfold k; lia).
      exact Qnhi.
    - apply Qmult_le_l; [apply bpow_pos|exact Qdlo]. }
  fold k.
  destruct (Qle_bool (Rnd.bpow beta k) (Z.abs n # d)) eqn:Hb.
  - apply Qle_bool_iff in Hb. split; assumption.
  - assert (Hlt : Z.abs n # d < Rnd.bpow beta k).
    { apply Qnot_le_lt. intros Hle. apply Qle_bool_iff in Hle. congruence. }
    replace (k - 1 + 1)%Z with k by lia. split; assumption.
Qed.

End Powers.

(** ** The nearest integer *)

Section NearestInteger.

Local Open Scope Q_scope.

Lemma rne_range (x : Q) : (Qfloor x <= Rnd.rne x <= Qfloor x + 1)%Z.
Proof.
  unfold Rnd.rne. destruct (x - inject_Z (Qfloor x) ?= 1 # 2); [|lia|lia].
  destruct (Z.even (Qfloor x)); lia.
Qed.

(** An integer rounds to itself. *)
Lemma rne_Z (z : Z) : Rnd.rne (inject_Z z) = z.
Proof.
  unfold Rnd.rne. rewrite Qfloor_Z.
  destruct (Qcompare_spec (inject_Z z - inject_Z z) (1 # 2)) as [H|H|H];
    [exfalso; lra|reflexivity|exfalso; lra].
Qed.

(** Rounding to the nearest integer keeps the order. *)
Lemma rne_mono (x y : Q) : x <= y -> (Rnd.rne x <= Rnd.rne y)%Z.
Proof.
  intros Hxy.
  pose proof (Qfloor_resp_le x y Hxy) as Hf.
  destruct (Z.eq_dec (Qfloor x) (Qfloor y)) as [Heq|Hne].
  - unfold Rnd.rne. rewrite <- Heq.
    destruct (Qcompare_spec (x - inject_Z (Qfloor x)) (1 # 2)) as [Hx|Hx|Hx];
      destruct (Qcompare_spec (y - inject_Z (Qfloor x)) (1 # 2)) as [Hy|Hy|Hy];
      try (destruct (Z.even (Qfloor x))); try lia; exfalso; lra.
  - pose proof (rne_range x). pose proof (rne_range y). lia.
Qed.

(** The nearest integer is within one half. *)
Lemma rne_near (x : Q) :
  inject_Z (Rnd.rne x) - (1 # 2) <= x <= inject_Z (Rnd.rne x) + (1 # 2).
Proof.
  pose proof (Qfloor_le x) as Hlo. pose proof (Qlt_floor x) as Hhi.
  rewrite inject_Z_plus in Hhi. change (inject_Z 1) with 1 in Hhi.
  unfold Rnd.rne.
  destruct (Qcompare_spec (x - inject_Z (Qfloor x)) (1 # 2)) as [H|H|H].
  - destruct (Z.even (Qfloor x));
      [|rewrite inject_Z_plus; change (inject_Z 1) with 1]; split; lra.
  - split; lra.
  - rewrite inject_Z_plus. change (inject_Z 1) with 1. split; lra.
Qed.

Lemma rne_comp (x y : Q) : x == y -> Rnd.rne x = Rnd.rne y.
Proof.
  intros H. unfold Rnd.rne. rewrite (Qfloor_comp x y H).
  assert (E : (x - inject_Z (Qfloor y) ?= 1 # 2) = (y - inject_Z (Qfloor y) ?= 1 # 2)).
  { apply Qcompare_comp; [rewrite H; reflexivity|reflexivity]. }
  rewrite E. reflexivity.
Qed.

Lemma floor_unique (x : Q) (z : Z) :
  inject_Z z <= x -> x < inject_Z z + 1 -> Qfloor x = z.
Proof.
  intros Hlo Hhi.
  pose proof (Qfloor_le x) as H1. pose proof (Qlt_floor x) as H2.
  rewrite inject_Z_plus in H2. change (inject_Z 1) with 1 in H2.
  assert (A : inject_Z z < inject_Z (Qfloor x) + 1) by lra.
  assert (C : inject_Z (Qfloor x) < inject_Z z + 1) by lra.
  change 1 with (inject_Z 1) in A, C. rewrite <- inject_Z_plus in A, C.
  rewrite <- Zlt_Qlt in A, C. lia.
Qed.

(** Ties to even is symmetric. *)
Lemma rne_opp (x : Q) : Rnd.rne (- x) = (- Rnd.rne x)%Z.
Proof.
  pose proof (Qfloor_le x) as H1. pose proof (Qlt_floor x) as H2.
  rewrite inject_Z_plus in H2. change (inject_Z 1) with 1 in H2.
  destruct (Qeq_dec x (inject_Z (Qfloor x))) as [Hint|Hfrac].
  - rewrite (rne_comp x _ Hint), rne_Z.
    rewrite (rne_comp (- x) (inject_Z (- Qfloor x))); [apply rne_Z|].
    rewrite inject_Z_opp, <- Hint. reflexivity.
  - assert (Hlt : inject_Z (Qfloor x) < x).
    { destruct (Qlt_le_dec (inject_Z (Qfloor x)) x) as [H|H]; [exact H|].
      exfalso. apply Hfrac. lra. }
    assert (Hf : Qfloor (- x) = (- Qfloor x - 1)%Z).
    { apply floor_unique; unfold Z.sub; rewrite inject_Z_plus, inject_Z_opp;
        change (inject_Z (- (1))) with (- (1)); lra. }
    unfold Rnd.rne. rewrite Hf.
    assert (E : - x - inject_Z (- Qfloor x - 1) == 1 - (x - inject_Z (Qfloor x))).
    { unfold Z.sub. rewrite inject_Z_plus, inject_Z_opp.
      change (inject_Z (- (1))) with (- (1)). ring. }
    assert (Ev : Z.even (- Qfloor x - 1) = negb (Z.even (Qfloor x))).
    { rewrite Z.even_sub, Z.even_opp. cbn. destruct (Z.even (Qfloor x)); reflexivity. }
    rewrite Ev.
    destruct (Qcompare_spec (x - inject_Z (Qfloor x)) (1 # 2)) as [Hx|Hx|Hx];
      destruct (Qcompare_spec (- x - inject_Z (- Qfloor x - 1)) (1 # 2)) as [Hy|Hy|Hy];
      rewrite E in Hy; try (exfalso; lra); try lia.
    destruct (Z.even (Qfloor x)); cbn [negb]; lia.
Qed.

End NearestInteger.

(** ** Rounding to a format *)

Section Rounding.

Local Open Scope Q_scope.

Variable beta : Z.
Hypothesis beta_ge_2 : (2 <= beta)%Z.
Variables prec emin : Z.
Hypothesis prec_pos : (0 < prec)%Z.

Local Abbreviation bpow := (Rnd.bpow beta).
Local Abbreviation cexp := (Rnd.cexp beta prec emin).
Local Abbreviation round := (Rnd.round beta prec emin).
Local Abbreviation value := (Rnd.value beta).

Lemma value_round (x : Q) :
  value (round x) = inject_Z (Rnd.rne (x / bpow (cexp x))) * bpow (cexp x).
Proof. reflexivity. Qed.

(** Scaling by the grid. *)
Lemma scaled_le (x y : Q) (e : Z) : x <= y -> x / bpow e <= y / bpow e.
Proof.
  intros H. unfold Qdiv. apply Qmult_le_compat_r; [exact H|].
  apply Qlt_le_weak, Qinv_lt_0_compat, bpow_pos, beta_ge_2.
Qed.

Lemma scaled_bpow (a e : Z) : bpow a / bpow e == bpow (a - e).
Proof.
  unfold Qdiv. replace (a - e)%Z with (a + - e)%Z by lia.
  rewrite (bpow_add beta beta_ge_2). unfold Rnd.bpow. rewrite Qpower_opp. reflexivity.
Qed.

Lemma cexp_ge_emin (x : Q) : (emin <= cexp x)%Z.
Proof. unfold Rnd.cexp. lia. Qed.

Lemma cexp_ge_ilog (x : Q) : (Rnd.ilog beta x + 1 - prec <= cexp x)%Z.
Proof. unfold Rnd.cexp. lia. Qed.

(** The scaled argument stays below [beta ^ prec] in magnitude. *)
Lemma scaled_lt_prec (x : Q) : Qabs (x / bpow (cexp x)) < bpow prec.
Proof.
  pose proof (bpow_pos beta beta_ge_2 (cexp x)) as Hc.
  unfold Qdiv. rewrite Qabs_Qmult, Qabs_Qinv, (Qabs_pos (bpow (cexp x))) by lra.
  apply Qlt_shift_div_r; [exact Hc|].
  rewrite <- (bpow_add beta beta_ge_2).
  destruct (Qeq_dec x 0) as [H0|Hn0].
  - assert (Ha : Qabs x == 0) by (rewrite H0; reflexivity).
    apply Qle_lt_trans with 0; [rewrite Ha; apply Qle_refl|].
    apply (bpow_pos beta beta_ge_2).
  - destruct (ilog_spec beta beta_ge_2 x Hn0) as [_ Hhi].
    apply Qlt_le_trans with (1 := Hhi). apply (bpow_le beta beta_ge_2).
    pose proof (cexp_ge_ilog x). lia.
Qed.

Lemma mantissa_bound (x : Q) :
  (Z.abs (Rnd.rne (x / bpow (cexp x))) <= beta ^ prec)%Z.
Proof.
  pose proof (scaled_lt_prec x) as H.
  rewrite (bpow_Z beta prec) in H by lia.
  apply Qabs_Qlt_condition in H. destruct H as [Hlo Hhi].
  assert (H1 : (Rnd.rne (x / bpow (cexp x)) <= beta ^ prec)%Z).
  { rewrite <- (rne_Z (beta ^ prec)). apply rne_mono. lra. }
  assert (H2 : (- beta ^ prec <= Rnd.rne (x / bpow (cexp x)))%Z).
  { rewrite <- (rne_Z (- beta ^ prec)). apply rne_mono.
    rewrite inject_Z_opp. lra. }
  lia.
Qed.

(** A number of the format rounds to itself. *)
Lemma round_exact (x : Q) (m e : Z) :
  x == inject_Z m * bpow e ->
  (Z.abs m < beta ^ prec)%Z ->
  (emin <= e)%Z ->
  value (round x) == x.
Proof.
  intros Hx Hm He. rewrite value_round.
  pose proof (bpow_pos beta beta_ge_2 (cexp x)) as Hc.
  pose proof (bpow_pos beta beta_ge_2 e) as Hepos.
  destruct (Z.eq_dec m 0) as [->|Hm0].
  - assert (Hz : x == 0) by (rewrite Hx; ring).
    rewrite (rne_comp (x / bpow (cexp x)) (inject_Z 0)).
    + rewrite rne_Z. change (inject_Z 0) with 0. rewrite Qmult_0_l.
      symmetry. exact Hz.
    + unfold Qdiv. transitivity (0 * / bpow (cexp x)); [|ring].
      apply Qmult_comp; [exact Hz|reflexivity].
  - assert (Hxn : ~ x == 0).
    { rewrite Hx. intros H0. apply Qmult_integral in H0. destruct H0 as [H0|H0].
      - apply Hm0. unfold Qeq in H0. cbn in H0. lia.
      - lra. }
    assert (Hle : (cexp x <= e)%Z).
    { destruct (ilog_spec beta beta_ge_2 x Hxn) as [Hlo _].
      assert (Habs : Qabs x < bpow (prec + e)).
      { rewrite Hx, Qabs_Qmult, (Qabs_pos (bpow e)) by lra.
        rewrite (bpow_add beta beta_ge_2).
        apply Qmult_lt_compat_r; [exact Hepos|].
        rewrite (bpow_Z beta prec) by lia.
        assert (E : Qabs (inject_Z m) == inject_Z (Z.abs m)) by reflexivity.
        rewrite E. rewrite <- Zlt_Qlt. exact Hm. }
      assert (Hil : (Rnd.ilog beta x < prec + e)%Z).
      { apply (bpow_lt_inv beta beta_ge_2). apply Qle_lt_trans with (1 := Hlo). exact Habs. }
      unfold Rnd.cexp. lia. }
    assert (Hsc : x / bpow (cexp x) == inject_Z (m * beta ^ (e - cexp x))).
    { rewrite inject_Z_mult, <- (bpow_Z beta) by lia.
      unfold Qdiv.
      transitivity (inject_Z m * bpow e * / bpow (cexp x));
        [apply Qmult_comp; [exact Hx|reflexivity]|].
      rewrite <- Qmult_assoc.
      apply Qmult_comp; [reflexivity|].
      fold (Qdiv (bpow e) (bpow (cexp x))). apply scaled_bpow. }
    rewrite (rne_comp _ _ Hsc), rne_Z.
    rewrite inject_Z_mult, <- (bpow_Z beta) by lia.
    rewrite <- Qmult_assoc, <- (bpow_add beta beta_ge_2).
    replace (e - cexp x + cexp x)%Z with e by lia.
    symmetry. exact Hx.
Qed.

Lemma ilog_mono_pos (x y : Q) : 0 < x -> x <= y -> (Rnd.ilog beta x <= Rnd.ilog beta y)%Z.
Proof.
  intros Hx Hxy.
  assert (Hxn : ~ x == 0) by (intros H; rewrite H in Hx; discriminate Hx).
  assert (Hy : 0 < y) by (apply Qlt_le_trans with x; assumption).
  assert (Hyn : ~ y == 0) by (intros H; rewrite H in Hy; discriminate Hy).
  destruct (ilog_spec beta beta_ge_2 x Hxn) as [Hlo _].
  destruct (ilog_spec beta beta_ge_2 y Hyn) as [_ Hhi].
  rewrite Qabs_pos in Hlo by lra. rewrite Qabs_pos in Hhi by lra.
  assert (H : (Rnd.ilog beta x < Rnd.ilog beta y + 1)%Z).
  { apply (bpow_lt_inv beta beta_ge_2). lra. }
  lia.
Qed.

Lemma scaled_nonneg (x : Q) (e : Z) : 0 <= x -> 0 <= x / bpow e.
Proof.
  intros H. pose proof (scaled_le 0 x e H) as H'.
  assert (E : 0 / bpow e == 0) by (unfold Qdiv; ring). rewrite E in H'. exact H'.
Qed.

(** A non-negative number rounds to a non-negative mantissa. *)
Lemma round_mantissa_nonneg (x : Q) : 0 <= x -> (0 <= fst (round x))%Z.
Proof.
  intros H. cbn [Rnd.round fst]. rewrite <- (rne_Z 0). apply rne_mono.
  apply scaled_nonneg, H.
Qed.

Lemma value_scaled (m e : Z) (q : Q) :
  q <= inject_Z m -> q * bpow e <= inject_Z m * bpow e.
Proof.
  intros H. apply Qmult_le_compat_r; [exact H|].
  apply Qlt_le_weak, (bpow_pos beta beta_ge_2).
Qed.

(** Rounding keeps the order of non-negative numbers. *)
Lemma round_mono_nonneg (x y : Q) :
  0 <= x -> x <= y -> value (round x) <= value (round y).
Proof.
  intros Hx Hxy. rewrite !value_round.
  pose proof (bpow_pos beta beta_ge_2 (cexp x)) as Hcx.
  pose proof (bpow_pos beta beta_ge_2 (cexp y)) as Hcy.
  assert (Hy : 0 <= y) by lra.
  pose proof (round_mantissa_nonneg y Hy) as Hmy. cbn [Rnd.round fst] in Hmy.
  destruct (Qeq_dec x 0) as [Hx0|Hxn].
  - assert (E : x / bpow (cexp x) == inject_Z 0).
    { unfold Qdiv. transitivity (0 * / bpow (cexp x)); [|ring].
      apply Qmult_comp; [exact Hx0|reflexivity]. }
    rewrite (rne_comp _ _ E), rne_Z. change (inject_Z 0) with 0. rewrite Qmult_0_l.
    apply Qmult_le_0_compat; [|lra].
    change 0 with (inject_Z 0). rewrite <- Zle_Qle. exact Hmy.
  - assert (Hxpos : 0 < x).
    { destruct (Qlt_le_dec 0 x) as [H|H]; [exact H|].
      exfalso. apply Hxn. lra. }
    pose proof (ilog_mono_pos x y Hxpos Hxy) as Hil.
    assert (Hce : (cexp x <= cexp y)%Z) by (unfold Rnd.cexp; lia).
    destruct (Z.eq_dec (cexp x) (cexp y)) as [Heq|Hne].
    + rewrite Heq. apply Qmult_le_compat_r; [|lra].
      rewrite <- Zle_Qle. apply rne_mono, scaled_le, Hxy.
    + assert (Hlt : (cexp x + 1 <= cexp y)%Z) by lia.
      assert (Hcy' : cexp y = (Rnd.ilog beta y + 1 - prec)%Z).
      { pose proof (cexp_ge_emin x). unfold Rnd.cexp in *. lia. }
      apply Qle_trans with (bpow (prec + cexp x)).
      * (* the rounded x stays within beta ^ prec grid steps *)
        rewrite (bpow_add beta beta_ge_2). apply Qmult_le_compat_r; [|lra].
        rewrite (bpow_Z beta prec) by lia. rewrite <- Zle_Qle.
        pose proof (mantissa_bound x). lia.
      * apply Qle_trans with (bpow (prec - 1 + cexp y)).
        { apply (bpow_le beta beta_ge_2). lia. }
        rewrite (bpow_add beta beta_ge_2). apply Qmult_le_compat_r; [|lra].
        rewrite (bpow_Z beta (prec - 1)) by lia. rewrite <- Zle_Qle.
        rewrite <- (rne_Z (beta ^ (prec - 1))). apply rne_mono.
        rewrite <- (bpow_Z beta (prec - 1)) by lia.
        apply Qle_shift_div_l; [exact Hcy|].
        rewrite <- (bpow_add beta beta_ge_2).
        assert (Hypos : 0 < y) by lra.
        assert (Hyn : ~ y == 0) by (intros H; rewrite H in Hypos; discriminate Hypos).
        destruct (ilog_spec beta beta_ge_2 y Hyn) as [Hlo _].
        rewrite Qabs_pos in Hlo by lra.
        replace (prec - 1 + cexp y)%Z with (Rnd.ilog beta y) by lia. exact Hlo.
Qed.

Lemma ilog_opp (x : Q) : Rnd.ilog beta (- x) = Rnd.ilog beta x.
Proof.
  destruct x as [n d]. unfold Rnd.ilog. cbn [Qopp Qnum Qden Qabs].
  rewrite Z.abs_opp. reflexivity.
Qed.

Lemma cexp_opp (x : Q) : cexp (- x) = cexp x.
Proof. unfold Rnd.cexp. rewrite ilog_opp. reflexivity. Qed.

(** Rounding is symmetric. *)
Lemma round_opp (x : Q) : round (- x) = ((- fst (round x))%Z, snd (round x)).
Proof.
  unfold Rnd.round. rewrite cexp_opp. cbn [fst snd]. f_equal.
  rewrite <- rne_opp. apply rne_comp. unfold Qdiv. ring.
Qed.

Lemma value_round_opp (x : Q) : value (round (- x)) == - value (round x).
Proof.
  rewrite round_opp. unfold Rnd.value. cbn [fst snd]. rewrite inject_Z_opp. ring.
Qed.

(** A non-positive number rounds to a non-positive mantissa. *)
Lemma round_mantissa_nonpos (x : Q) : x <= 0 -> (fst (round x) <= 0)%Z.
Proof.
  intros H. assert (Hn : 0 <= - x) by lra.
  pose proof (round_mantissa_nonneg (- x) Hn) as Hm.
  rewrite round_opp in Hm. cbn [fst] in Hm. lia.
Qed.

Lemma value_sign_nonneg (x : Q) : (0 <= fst (round x))%Z -> 0 <= value (round x).
Proof.
  intros H. unfold Rnd.value. apply Qmult_le_0_compat.
  - change 0 with (inject_Z 0). rewrite <- Zle_Qle. exact H.
  - apply Qlt_le_weak, (bpow_pos beta beta_ge_2).
Qed.

(** Rounding keeps the order. *)
Lemma round_mono (x y : Q) : x <= y -> value (round x) <= value (round y).
Proof.
  intros Hxy.
  destruct (Qlt_le_dec x 0) as [Hx|Hx]; [|apply round_mono_nonneg; assumption].
  destruct (Qlt_le_dec y 0) as [Hy|Hy].
  - assert (H : value (round (- y)) <= value (round (- x)))
      by (apply round_mono_nonneg; lra).
    rewrite !value_round_opp in H. lra.
  - assert (H1 : 0 <= value (round y))
      by (apply value_sign_nonneg, round_mantissa_nonneg, Hy).
    assert (H2 : 0 <= value (round (- x)))
      by (apply value_sign_nonneg, round_mantissa_nonneg; lra).
    rewrite value_round_opp in H2. lra.
Qed.

(** In the normal range a positive number is rounded with a relative error of
    at most half a unit in the last place. *)
Lemma round_near_pos (x : Q) :
  0 < x ->
  (emin <= Rnd.ilog beta x + 1 - prec)%Z ->
  x - (1 # 2) * bpow (1 - prec) * x <= value (round x)
  /\ value (round x) <= x + (1 # 2) * bpow (1 - prec) * x.
Proof.
  intros Hx Hn. rewrite value_round.
  assert (Hc : cexp x = (Rnd.ilog beta x + 1 - prec)%Z) by (unfold Rnd.cexp; lia).
  set (s := x / bpow (cexp x)). set (m := inject_Z (Rnd.rne s)).
  set (W := bpow (cexp x)). set (G := bpow (1 - prec)).
  assert (HW : 0 < W) by apply (bpow_pos beta beta_ge_2).
  assert (HG : 0 < G) by apply (bpow_pos beta beta_ge_2).
  assert (Hxn : ~ x == 0) by (intros H; rewrite H in Hx; discriminate Hx).
  destruct (ilog_spec beta beta_ge_2 x Hxn) as [Hlo _].
  rewrite Qabs_pos in Hlo by lra.
  assert (HWG : W == bpow (Rnd.ilog beta x) * G).
  { unfold W, G. rewrite Hc, <- (bpow_add beta beta_ge_2).
    replace (Rnd.ilog beta x + (1 - prec))%Z with (Rnd.ilog beta x + 1 - prec)%Z by lia.
    reflexivity. }
  assert (HWx : W <= G * x).
  { rewrite HWG, (Qmult_comm G x). apply Qmult_le_compat_r; lra. }
  assert (Hsx : s * W == x).
  { unfold s, W, Qdiv. rewrite <- Qmult_assoc, (Qmult_comm (/ _)), Qmult_inv_r.
    - ring.
    - apply (bpow_nz beta beta_ge_2). }
  destruct (rne_near s) as [N1 N2]. fold m in N1, N2.
  assert (M1 : (m - (1 # 2)) * W <= s * W) by (apply Qmult_le_compat_r; lra).
  assert (M2 : s * W <= (m + (1 # 2)) * W) by (apply Qmult_le_compat_r; lra).
  rewrite Hsx in M1, M2.
  assert (E1 : (m - (1 # 2)) * W == m * W - (1 # 2) * W) by ring.
  assert (E2 : (m + (1 # 2)) * W == m * W + (1 # 2) * W) by ring.
  rewrite E1 in M1. rewrite E2 in M2.
  assert (E3 : (1 # 2) * G * x == (1 # 2) * (G * x)) by ring.
  rewrite !E3. split; lra.
Qed.

End Rounding.


(** ** binary64 *)

Section Binary64.

Local Open Scope Q_scope.

Lemma two_ge_2 : (2 <= 2)%Z.
Proof. lia. Qed.

Lemma ten_ge_2 : (2 <= 10)%Z.
Proof. lia. Qed.

Lemma prec64_pos : (0 < F64.prec)%Z.
Proof. reflexivity. Qed.

Lemma of_Q_cases (x : Q) :
  let r := Rnd.round 2 F64.prec F64.emin x in
  (Rnd.bpow 2 F64.emax <= Qabs (Rnd.value 2 r) /\ F64.of_Q x = F64.Inf (fst r <? 0)%Z)
  \/ (Qabs (Rnd.value 2 r) < Rnd.bpow 2 F64.emax /\ F64.of_Q x = F64.Fin (fst r) (snd r)).
Proof.
  cbv zeta. unfold F64.of_Q.
  change (F64.to_Q ?m ?e) with (Rnd.value 2 (m, e)).
  destruct (Rnd.round 2 F64.prec F64.emin x) as [m e]. cbn [fst snd].
  destruct (Qle_bool (Rnd.bpow 2 F64.emax) (Qabs (Rnd.value 2 (m, e)))) eqn:Hb.
  - left. split; [apply Qle_bool_iff, Hb|reflexivity].
  - right. split; [|reflexivity].
    apply Qnot_le_lt. intros H. apply Qle_bool_iff in H. congruence.
Qed.

Lemma value_neg_mantissa (m e : Z) : (m < 0)%Z -> Rnd.value 2 (m, e) < 0.
Proof.
  intros H. unfold Rnd.value. cbn [fst snd].
  pose proof (bpow_pos 2 two_ge_2 e) as Hp.
  assert (Hm : inject_Z m < 0) by (change 0 with (inject_Z 0); rewrite <- Zlt_Qlt; exact H).
  setoid_replace (inject_Z m * Rnd.bpow 2 e) with (- ((- inject_Z m) * Rnd.bpow 2 e)) by ring.
  assert (0 < - inject_Z m * Rnd.bpow 2 e) by (apply Qmult_lt_0_compat; lra).
  lra.
Qed.

Lemma value_nonneg_mantissa (m e : Z) : (0 <= m)%Z -> 0 <= Rnd.value 2 (m, e).
Proof.
  intros H. unfold Rnd.value. cbn [fst snd]. apply Qmult_le_0_compat.
  - change 0 with (inject_Z 0). rewrite <- Zle_Qle. exact H.
  - apply Qlt_le_weak, (bpow_pos 2 two_ge_2).
Qed.

(** Conversion to binary64 keeps the order. *)
Lemma of_Q_mono (x y : Q) : x <= y -> F64.leb (F64.of_Q x) (F64.of_Q y) = true.
Proof.
  intros Hxy.
  pose proof (round_mono 2 two_ge_2 F64.prec F64.emin prec64_pos x y Hxy) as Hv.
  pose proof (bpow_pos 2 two_ge_2 F64.emax) as Hmax.
  destruct (of_Q_cases x) as [[Hx ->]|[Hx ->]]; destruct (of_Q_cases y) as [[Hy ->]|[Hy ->]];
    destruct (Rnd.round 2 F64.prec F64.emin x) as [mx ex];
    destruct (Rnd.round 2 F64.prec F64.emin y) as [my ey]; cbn [fst snd] in *.
  - destruct (Z.ltb_spec mx 0) as [Hmx|Hmx]; [reflexivity|].
    destruct (Z.ltb_spec my 0) as [Hmy|Hmy]; [|reflexivity].
    exfalso. pose proof (value_neg_mantissa my ey Hmy).
    pose proof (value_nonneg_mantissa mx ex Hmx). lra.
  - destruct (Z.ltb_spec mx 0) as [Hmx|Hmx]; [reflexivity|].
    exfalso. pose proof (value_nonneg_mantissa mx ex Hmx) as Hn.
    rewrite Qabs_pos in Hx by exact Hn.
    apply Qabs_Qlt_condition in Hy. lra.
  - destruct (Z.ltb_spec my 0) as [Hmy|Hmy]; [|reflexivity].
    exfalso. pose proof (value_neg_mantissa my ey Hmy) as Hn.
    rewrite Qabs_neg in Hy by lra.
    apply Qabs_Qlt_condition in Hx. lra.
  - cbn [F64.leb]. apply Qle_bool_iff. exact Hv.
Qed.

Lemma of_Q_not_nan (x : Q) : F64.of_Q x <> F64.Nan.
Proof. destruct (of_Q_cases x) as [[_ ->]|[_ ->]]; discriminate. Qed.

Lemma leb_neg_inf (b : F64.float) : b <> F64.Nan -> F64.leb (F64.Inf true) b = true.
Proof. destruct b as [|[]|]; intros H; try reflexivity; exfalso; apply H; reflexivity. Qed.

Lemma leb_pos_inf (a : F64.float) : a <> F64.Nan -> F64.leb a (F64.Inf false) = true.
Proof. destruct a as [|[]|]; intros H; try reflexivity; exfalso; apply H; reflexivity. Qed.

(** A non-negative rational converts to a non-negative float. *)
Lemma of_Q_nonneg (x : Q) :
  0 <= x ->
  F64.of_Q x = F64.Inf false \/ exists m e, F64.of_Q x = F64.Fin m e /\ (0 <= m)%Z.
Proof.
  intros Hx.
  pose proof (round_mantissa_nonneg 2 two_ge_2 F64.prec F64.emin x Hx) as Hm.
  destruct (of_Q_cases x) as [[_ ->]|[_ ->]].
  - left. destruct (Z.ltb_spec (fst (Rnd.round 2 F64.prec F64.emin x)) 0); [lia|reflexivity].
  - right. do 2 eexists. split; [reflexivity|exact Hm].
Qed.

(** A binary64 value converts to itself. *)
Lemma of_Q_exact (x y : Q) :
  x == y -> representable y ->
  exists m e, F64.of_Q x = F64.Fin m e /\ F64.to_Q m e == y.
Proof.
  intros Hxy (m0 & e0 & Hm0 & He0 & Hy & Hmax).
  assert (Hx : x == inject_Z m0 * Rnd.bpow 2 e0) by (rewrite Hxy; exact Hy).
  pose proof (round_exact 2 two_ge_2 F64.prec F64.emin prec64_pos x m0 e0 Hx Hm0 He0) as Hv.
  destruct (of_Q_cases x) as [[Hov _]|[_ ->]].
  - exfalso. rewrite Hv, Hxy in Hov. lra.
  - do 2 eexists. split; [reflexivity|].
    change (F64.to_Q ?m ?e) with (Rnd.value 2 (m, e)).
    rewrite <- surjective_pairing. rewrite Hv. exact Hxy.
Qed.

(** Multiplying by a positive price keeps the order. *)
Lemma mul_mono_l (a b : F64.float) (pm pe : Z) :
  (0 < pm)%Z ->
  F64.leb a b = true ->
  F64.leb (F64.mul a (F64.Fin pm pe)) (F64.mul b (F64.Fin pm pe)) = true.
Proof.
  intros Hp Hab.
  assert (Hz : (pm =? 0)%Z = false) by (apply Z.eqb_neq; lia).
  assert (Hs : (pm <? 0)%Z = false) by (apply Z.ltb_ge; lia).
  assert (Hpv : 0 < F64.to_Q pm pe).
  { unfold F64.to_Q. apply Qmult_lt_0_compat; [|apply (bpow_pos 2 two_ge_2)].
    change 0 with (inject_Z 0). rewrite <- Zlt_Qlt. exact Hp. }
  destruct a as [|[]|ma ea]; destruct b as [|[]|mb eb]; try discriminate Hab;
    cbn [F64.mul]; rewrite ?Hz, ?Hs; cbn [xorb]; try reflexivity.
  - apply leb_neg_inf, of_Q_not_nan.
  - apply leb_pos_inf, of_Q_not_nan.
  - apply of_Q_mono. cbn [F64.leb] in Hab. apply Qle_bool_iff in Hab.
    apply Qmult_le_compat_r; [exact Hab|lra].
Qed.

(** A non-negative amount is worth more at a higher price. *)
Lemma mul_mono_r (a : F64.float) (pm pe pm' pe' : Z) :
  (a = F64.Inf false \/ exists m e, a = F64.Fin m e /\ (0 <= m)%Z) ->
  (0 < pm)%Z ->
  F64.leb (F64.Fin pm pe) (F64.Fin pm' pe') = true ->
  F64.leb (F64.mul a (F64.Fin pm pe)) (F64.mul a (F64.Fin pm' pe')) = true.
Proof.
  intros Ha Hp Hle. cbn [F64.leb] in Hle. apply Qle_bool_iff in Hle.
  assert (Hpv : 0 < F64.to_Q pm pe).
  { unfold F64.to_Q. apply Qmult_lt_0_compat; [|apply (bpow_pos 2 two_ge_2)].
    change 0 with (inject_Z 0). rewrite <- Zlt_Qlt. exact Hp. }
  assert (Hp' : (0 < pm')%Z).
  { destruct (Z.ltb_spec 0 pm') as [H|H]; [exact H|]. exfalso.
    assert (Hn : F64.to_Q pm' pe' <= 0).
    { unfold F64.to_Q. pose proof (bpow_pos 2 two_ge_2 pe') as Hb.
      assert (Hm : inject_Z pm' <= 0)
        by (change 0 with (inject_Z 0); rewrite <- Zle_Qle; exact H).
      setoid_replace (inject_Z pm' * Rnd.bpow 2 pe')
        with (- ((- inject_Z pm') * Rnd.bpow 2 pe')) by ring.
      assert (0 <= - inject_Z pm' * Rnd.bpow 2 pe') by (apply Qmult_le_0_compat; lra).
      lra. }
    lra. }
  destruct Ha as [->|(m & e & -> & Hm)].
  - cbn [F64.mul].
    replace (pm =? 0)%Z with false by (symmetry; apply Z.eqb_neq; lia).
    replace (pm' =? 0)%Z with false by (symmetry; apply Z.eqb_neq; lia).
    replace (pm <? 0)%Z with false by (symmetry; apply Z.ltb_ge; lia).
    replace (pm' <? 0)%Z with false by (symmetry; apply Z.ltb_ge; lia).
    reflexivity.
  - cbn [F64.mul]. apply of_Q_mono.
    pose proof (value_nonneg_mantissa m e Hm) as Hv.
    change (Rnd.value 2 (m, e)) with (F64.to_Q m e) in Hv.
    rewrite (Qmult_comm _ (F64.to_Q pm pe)), (Qmult_comm _ (F64.to_Q pm' pe')).
    apply Qmult_le_compat_r; assumption.
Qed.

Lemma ilog_ge_pos (beta : Z) (Hb : (2 <= beta)%Z) (x : Q) (k : Z) :
  Rnd.bpow beta k <= x -> (k <= Rnd.ilog beta x)%Z.
Proof.
  intros H. pose proof (bpow_pos beta Hb k) as Hk.
  assert (Hxn : ~ x == 0) by (intros E; rewrite E in H; lra).
  destruct (ilog_spec beta Hb x Hxn) as [_ Hhi].
  rewrite Qabs_pos in Hhi by lra.
  assert (Hlt : (k < Rnd.ilog beta x + 1)%Z) by (apply (bpow_lt_inv beta Hb); lra).
  lia.
Qed.

(** In the normal range conversion to binary64 has a relative error of at
    most 2^-53. *)
Lemma of_Q_near_pos (x : Q) :
  Rnd.bpow 2 (-1022) <= x -> x <= Rnd.bpow 2 1000 ->
  exists m e,
    F64.of_Q x = F64.Fin m e
    /\ x - (1 # 2 ^ 53) * x <= F64.to_Q m e
    /\ F64.to_Q m e <= x + (1 # 2 ^ 53) * x.
Proof.
  intros Hlo Hhi.
  pose proof (bpow_pos 2 two_ge_2 (-1022)) as Hp.
  assert (Hx : 0 < x) by lra.
  pose proof (ilog_ge_pos 2 two_ge_2 x (-1022) Hlo) as Hil.
  destruct (round_near_pos 2 two_ge_2 F64.prec F64.emin x Hx
              ltac:(unfold F64.prec, F64.emin; lia)) as [N1 N2].
  assert (Eu : (1 # 2) * Rnd.bpow 2 (1 - F64.prec) == 1 # 2 ^ 53) by reflexivity.
  rewrite Eu in N1, N2.
  assert (Hbig : Rnd.bpow 2 1001 < Rnd.bpow 2 F64.emax)
    by (apply (bpow_lt 2 two_ge_2); reflexivity).
  assert (E2 : Rnd.bpow 2 1001 == 2 * Rnd.bpow 2 1000)
    by (rewrite <- (bpow_add 2 two_ge_2 1 1000); reflexivity).
  assert (Hu : (1 # 2 ^ 53) * x <= x).
  { setoid_replace x with (1 * x) at 2 by ring.
    apply Qmult_le_compat_r; [|lra]. discriminate. }
  assert (Hu0 : 0 <= (1 # 2 ^ 53) * x) by (apply Qmult_le_0_compat; [discriminate|lra]).
  destruct (of_Q_cases x) as [[Hov _]|[_ E]]; cbv zeta in *.
  - exfalso. rewrite Qabs_pos in Hov by lra. lra.
  - exists (fst (Rnd.round 2 F64.prec F64.emin x)), (snd (Rnd.round 2 F64.prec F64.emin x)).
    split; [exact E|].
    change (F64.to_Q ?m ?e) with (Rnd.value 2 (m, e)).
    rewrite <- surjective_pairing. split; assumption.
Qed.

End Binary64.

(** ** Agreement with the machine

    The model of binary64 against the processor's arithmetic, on values the
    monitors meet and on the corners of the format (ties, subnormal numbers,
    overflow). *)

Section Machine.

Example mul_agrees_tenth :
  F64.to_spec (F64.mul (F64.lit 1 10) (F64.lit 3 1)) = F64.hw_mul (F64.lit 1 10) (F64.lit 3 1).
Proof. vm_compute. reflexivity. Qed.

Example mul_agrees_price :
  F64.to_spec (F64.mul (F64.lit 123456789 1000) (F64.lit 15 100))
  = F64.hw_mul (F64.lit 123456789 1000) (F64.lit 15 100).
Proof. vm_compute. reflexivity. Qed.

Example mul_agrees_negative :
  F64.to_spec (F64.mul (F64.lit (-95000) 1) (F64.lit 123456789 100000000))
  = F64.hw_mul (F64.lit (-95000) 1) (F64.lit 123456789 100000000).
Proof. vm_compute. reflexivity. Qed.

Example mul_agrees_overflow :
  F64.to_spec (F64.mul (F64.of_Q (Rnd.bpow 10 308)) (F64.lit 10 1))
  = F64.hw_mul (F64.of_Q (Rnd.bpow 10 308)) (F64.lit 10 1).
Proof. vm_compute. reflexivity. Qed.

Example mul_agrees_subnormal :
  F64.to_spec (F64.mul (F64.of_Q (Rnd.bpow 10 (-320))) (F64.lit 1 3))
  = F64.hw_mul (F64.of_Q (Rnd.bpow 10 (-320))) (F64.lit 1 3).
Proof. vm_compute. reflexivity. Qed.

Example mul_agrees_tie_to_zero :
  F64.to_spec (F64.mul (F64.of_Q (Rnd.bpow 2 (-1074))) (F64.lit 1 2))
  = F64.hw_mul (F64.of_Q (Rnd.bpow 2 (-1074))) (F64.lit 1 2).
Proof. vm_compute. reflexivity. Qed.

Example mul_agrees_tie_to_even :
  F64.to_spec (F64.mul (F64.of_Q (Rnd.bpow 2 (-1074))) (F64.lit 3 2))
  = F64.hw_mul (F64.of_Q (Rnd.bpow 2 (-1074))) (F64.lit 3 2).
Proof. vm_compute. reflexivity. Qed.

Example of_Q_agrees_millionth : F64.to_spec (F64.of_Q (1 # 1000000)) = F64.hw_div 1 1000000.
Proof. vm_compute. reflexivity. Qed.

Example of_Q_agrees_price : F64.to_spec (F64.of_Q (3 # 10000)) = F64.hw_div 3 10000.
Proof. vm_compute. reflexivity. Qed.

Example of_Q_agrees_negative : F64.to_spec (F64.of_Q (-2 # 3)) = F64.hw_div (-2) 3.
Proof. vm_compute. reflexivity. Qed.

Example of_Q_agrees_round_up :
  F64.to_spec (F64.of_Q ((2 ^ 55 - 1) # 4)) = F64.hw_div (2 ^ 53) 1.
Proof. vm_compute. reflexivity. Qed.

End Machine.

(** ** The valuation *)

Section Valuation.

Local Open Scope Q_scope.

(** The quotient [Decimal(a) / Decimal(10 ** d)] before rounding. *)
Local Abbreviation quotient a d :=
  (Dec.to_Q (Dec.of_int a) / Dec.to_Q (Dec.of_int (10 ^ Z.of_N d))).

Lemma pow10_pos (d : N) : (0 < 10 ^ Z.of_N d)%Z.
Proof. apply Z.pow_pos_nonneg; lia. Qed.

Lemma quotient_exact (a : Z) (d : N) : quotient a d == exact_amount a d.
Proof.
  unfold Dec.to_Q, Dec.of_int, exact_amount. cbn [Dec.coef Dec.exp].
  change (Rnd.bpow 10 0) with 1. rewrite !Qmult_1_r. reflexivity.
Qed.

Lemma exact_amount_scaled (a : Z) (d : N) :
  exact_amount a d == inject_Z a * Rnd.bpow 10 (- Z.of_N d).
Proof.
  unfold exact_amount, Qdiv. apply Qmult_comp; [reflexivity|].
  unfold Rnd.bpow. rewrite Qpower_opp, <- Zpower_Qpower by lia. reflexivity.
Qed.

Lemma exact_amount_le (a a' : Z) (d : N) :
  (a <= a')%Z -> exact_amount a d <= exact_amount a' d.
Proof.
  intros H. unfold exact_amount, Qdiv. apply Qmult_le_compat_r.
  - rewrite <- Zle_Qle. exact H.
  - apply Qlt_le_weak, Qinv_lt_0_compat.
    change 0 with (inject_Z 0). rewrite <- Zlt_Qlt. apply pow10_pos.
Qed.

Lemma exact_amount_abs (a : Z) (d : N) : Qabs (exact_amount a d) <= inject_Z (Z.abs a).
Proof.
  unfold exact_amount, Qdiv. rewrite Qabs_Qmult, Qabs_Qinv.
  pose proof (pow10_pos d) as Hp.
  assert (H1 : 1 <= Qabs (inject_Z (10 ^ Z.of_N d))).
  { rewrite Qabs_pos.
    - change 1 with (inject_Z 1). rewrite <- Zle_Qle. lia.
    - change 0 with (inject_Z 0). rewrite <- Zle_Qle. lia. }
  assert (E : Qabs (inject_Z a) == inject_Z (Z.abs a)) by reflexivity.
  rewrite E.
  assert (H0 : 0 <= inject_Z (Z.abs a))
    by (change 0 with (inject_Z 0); rewrite <- Zle_Qle; lia).
  apply Qle_shift_div_r; [lra|].
  setoid_replace (inject_Z (Z.abs a)) with (inject_Z (Z.abs a) * 1) at 1 by ring.
  apply Qmult_le_compat_nonneg; split; lra.
Qed.

Lemma prec28_pos : (0 < Dec.prec)%Z.
Proof. reflexivity. Qed.

(** For an amount that fits 256 bits the division does not overflow. *)
Lemma div_returns (a : Z) (d : N) :
  (Z.abs a < 2 ^ 256)%Z ->
  Dec.div (Dec.of_int a) (Dec.of_int (10 ^ Z.of_N d))
  = Return (Dec.mk (fst (Rnd.round 10 Dec.prec Dec.Etiny (quotient a d)))
                   (snd (Rnd.round 10 Dec.prec Dec.Etiny (quotient a d)))).
Proof.
  intros Ha. unfold Dec.div.
  set (X := quotient a d).
  pose proof (mantissa_bound 10 ten_ge_2 Dec.prec Dec.Etiny prec28_pos X) as Hm.
  pose proof (cexp_ge_emin 10 Dec.prec Dec.Etiny X) as Hce.
  unfold Rnd.round. cbn [fst snd].
  set (m := Rnd.rne (X / Rnd.bpow 10 (Rnd.cexp 10 Dec.prec Dec.Etiny X))) in *.
  set (e := Rnd.cexp 10 Dec.prec Dec.Etiny X) in *.
  destruct (Z.eqb_spec m 0) as [Hm0|Hm0]; [reflexivity|].
  cbn [negb andb].
  assert (Hadj : (Dec.adjusted (Dec.mk m e) <= Dec.Emax)%Z); [|
    destruct (Z.ltb_spec Dec.Emax (Dec.adjusted (Dec.mk m e))); [lia|reflexivity]].
  unfold Dec.adjusted. cbn [Dec.coef Dec.exp].
  assert (Hz : (Rnd.zlog 10 (Z.abs m) <= 28)%Z).
  { destruct (zlog_spec 10 ten_ge_2 (Z.abs m) ltac:(lia)) as (H0 & Hlo & _).
    destruct (Z.le_gt_cases (Rnd.zlog 10 (Z.abs m)) 28) as [H|H]; [exact H|].
    exfalso.
    assert (H29 : (10 ^ 29 <= 10 ^ Rnd.zlog 10 (Z.abs m))%Z)
      by (apply Z.pow_le_mono_r; lia).
    unfold Dec.prec in Hm.
    assert (Hc : (10 ^ 28 < 10 ^ 29)%Z) by reflexivity. lia. }
  assert (HXn : ~ X == 0).
  { intros H0. apply Hm0. unfold m.
    rewrite (rne_comp _ (inject_Z 0)); [apply rne_Z|].
    unfold Qdiv. transitivity (0 * / Rnd.bpow 10 e); [|ring].
    apply Qmult_comp; [exact H0|reflexivity]. }
  assert (Habs : Qabs X < Rnd.bpow 10 78).
  { assert (E : Qabs X == Qabs (exact_amount a d))
      by (unfold X; rewrite quotient_exact; reflexivity).
    rewrite E. apply Qle_lt_trans with (1 := exact_amount_abs a d).
    rewrite (bpow_Z 10 78) by lia. rewrite <- Zlt_Qlt.
    assert (Hc : (2 ^ 256 < 10 ^ 78)%Z) by reflexivity. lia. }
  assert (Hil : (Rnd.ilog 10 X < 78)%Z).
  { apply (bpow_lt_inv 10 ten_ge_2).
    destruct (ilog_spec 10 ten_ge_2 X HXn) as [Hlo _].
    apply Qle_lt_trans with (1 := Hlo). exact Habs. }
  unfold e, Rnd.cexp, Dec.prec, Dec.Etiny, Dec.Emax in *. lia.
Qed.

(** A row of the running table of the single-chain monitor, when the table
    is built from float prices. *)
Lemma lookup_live (tokens : token_table) (k : string) :
  lookup k (Base.live tokens)
  = match lookup k tokens with
    | Some info => Some (Base.mkLive (symbol info) (decimals info) (JFloat (price_usd info)))
    | None => None
    end.
Proof.
  induction tokens as [|[k' v] t IH]; [reflexivity|].
  unfold Base.live in *. cbn [map lookup fst snd].
  destruct (String.eqb k k'); [reflexivity|exact IH].
Qed.

(** What the valuation returns for a listed token. *)
Lemma valuation_returns (tokens : token_table) (c : string) (a : Z) (info : token_info) :
  lookup (PyStr.lower c) tokens = Some info ->
  (Z.abs a < 2 ^ 256)%Z ->
  let usd := F64.mul (F64.of_Q (Rnd.value 10 (Rnd.round 10 Dec.prec Dec.Etiny
                                                 (quotient a (decimals info)))))
                     (price_usd info) in
  Multi.calculate_usd_value tokens c a = Return (Some (usd, symbol info))
  /\ Base.calculate_usd_value (Base.live tokens) c a = Return (Some usd).
Proof.
  intros Hl Ha. cbv zeta.
  unfold Multi.calculate_usd_value, Base.calculate_usd_value.
  rewrite lookup_live, Hl. cbn [Base.live_decimals Base.live_price].
  rewrite (div_returns a (decimals info) Ha). cbn [Py.bind float_mul].
  split; reflexivity.
Qed.

(** The valuation never decreases when the amount grows. *)
Lemma valuation_mono_amount (tokens : token_table) (c : string) (a a' : Z)
    (info : token_info) :
  lookup (PyStr.lower c) tokens = Some info ->
  positive_price (price_usd info) ->
  (Z.abs a < 2 ^ 256)%Z -> (Z.abs a' < 2 ^ 256)%Z ->
  (a <= a')%Z ->
  exists v v',
    Multi.calculate_usd_value tokens c a = Return (Some (v, symbol info))
    /\ Multi.calculate_usd_value tokens c a' = Return (Some (v', symbol info))
    /\ Base.calculate_usd_value (Base.live tokens) c a = Return (Some v)
    /\ Base.calculate_usd_value (Base.live tokens) c a' = Return (Some v')
    /\ F64.leb v v' = true.
Proof.
  intros Hl (pm & pe & Hp & Hpm) Ha Ha' Hle.
  destruct (valuation_returns tokens c a info Hl Ha) as [M B].
  destruct (valuation_returns tokens c a' info Hl Ha') as [M' B'].
  do 2 eexists. repeat (split; [eassumption|]).
  rewrite Hp. apply mul_mono_l; [exact Hpm|]. apply of_Q_mono.
  apply (round_mono 10 ten_ge_2 Dec.prec Dec.Etiny prec28_pos).
  rewrite !quotient_exact. apply exact_amount_le, Hle.
Qed.

(** Nor when the price grows, for an amount that is not negative. *)
Lemma valuation_mono_price (tokens tokens' : token_table) (c : string) (a : Z)
    (info info' : token_info) :
  lookup (PyStr.lower c) tokens = Some info ->
  lookup (PyStr.lower c) tokens' = Some info' ->
  decimals info = decimals info' ->
  positive_price (price_usd info) ->
  F64.is_finite (price_usd info') = true ->
  F64.leb (price_usd info) (price_usd info') = true ->
  (0 <= a < 2 ^ 256)%Z ->
  exists v v',
    Multi.calculate_usd_value tokens c a = Return (Some (v, symbol info))
    /\ Multi.calculate_usd_value tokens' c a = Return (Some (v', symbol info'))
    /\ Base.calculate_usd_value (Base.live tokens) c a = Return (Some v)
    /\ Base.calculate_usd_value (Base.live tokens') c a = Return (Some v')
    /\ F64.leb v v' = true.
Proof.
  intros Hl Hl' Hd (pm & pe & Hp & Hpm) Hfin Hle Ha.
  assert (Habs : (Z.abs a < 2 ^ 256)%Z) by lia.
  destruct (valuation_returns tokens c a info Hl Habs) as [M B].
  destruct (valuation_returns tokens' c a info' Hl' Habs) as [M' B'].
  do 2 eexists. repeat (split; [eassumption|]).
  rewrite <- Hd. rewrite Hp in *.
  destruct (price_usd info') as [| |pm' pe']; try discriminate Hfin.
  apply mul_mono_r; [|exact Hpm|exact Hle].
  apply of_Q_nonneg.
  apply (value_sign_nonneg 10 ten_ge_2 Dec.prec Dec.Etiny).
  apply (round_mantissa_nonneg 10 ten_ge_2 Dec.prec Dec.Etiny).
  rewrite quotient_exact. unfold exact_amount.
  apply Qle_shift_div_l.
  - change 0 with (inject_Z 0). rewrite <- Zlt_Qlt. apply pow10_pos.
  - rewrite Qmult_0_l. change 0 with (inject_Z 0). rewrite <- Zle_Qle. lia.
Qed.

(** The valuation is the exact product when nothing has to be rounded. *)
Lemma valuation_exact_product (tokens : token_table) (c : string) (a : Z)
    (info : token_info) :
  lookup (PyStr.lower c) tokens = Some info ->
  F64.is_finite (price_usd info) = true ->
  (Z.abs a < 10 ^ 28)%Z ->
  (decimals info <= 255)%N ->
  representable (exact_amount a (decimals info)) ->
  representable (exact_amount a (decimals info) * F64.real (price_usd info)) ->
  exists v,
    Multi.calculate_usd_value tokens c a = Return (Some (v, symbol info))
    /\ Base.calculate_usd_value (Base.live tokens) c a = Return (Some v)
    /\ F64.is_finite v = true
    /\ F64.real v == exact_amount a (decimals info) * F64.real (price_usd info).
Proof.
  intros Hl Hfin Ha Hd Hr1 Hr2.
  assert (Hc : (10 ^ 28 < 2 ^ 256)%Z) by reflexivity.
  destruct (valuation_returns tokens c a info Hl ltac:(lia)) as [M B].
  rewrite M, B. clear M B.
  destruct (price_usd info) as [| |pm pe]; try discriminate Hfin.
  cbn [F64.real] in *.
  assert (Hdec : Rnd.value 10 (Rnd.round 10 Dec.prec Dec.Etiny (quotient a (decimals info)))
                 == exact_amount a (decimals info)).
  { transitivity (quotient a (decimals info)); [|apply quotient_exact].
    apply (round_exact 10 ten_ge_2 Dec.prec Dec.Etiny prec28_pos _ a (- Z.of_N (decimals info))).
    - rewrite quotient_exact. apply exact_amount_scaled.
    - exact Ha.
    - unfold Dec.Etiny. lia. }
  destruct (of_Q_exact _ _ Hdec Hr1) as (m & e & -> & Hme).
  cbn [F64.mul].
  assert (Hprod : F64.to_Q m e * F64.to_Q pm pe
                  == exact_amount a (decimals info) * F64.to_Q pm pe)
    by (rewrite Hme; reflexivity).
  destruct (of_Q_exact _ _ Hprod Hr2) as (m' & e' & -> & Hme').
  eexists. repeat split. exact Hme'.
Qed.

(** Three roundings, each of a relative error of at most 2^-53, stay within
    2^-51 together. *)
Lemma three_roundings (P A Y V : Q) :
  0 <= P ->
  P - (1 # 2000000000000000000000000000) * P <= A ->
  A <= P + (1 # 2000000000000000000000000000) * P ->
  A - (1 # 9007199254740992) * A <= Y ->
  Y <= A + (1 # 9007199254740992) * A ->
  Y - (1 # 9007199254740992) * Y <= V ->
  V <= Y + (1 # 9007199254740992) * Y ->
  P - (1 # 2251799813685248) * P <= V /\ V <= P + (1 # 2251799813685248) * P.
Proof. intros. split; lra. Qed.

(** The valuation is within a relative error of 2^-51 of the exact product,
    as long as that product is in the normal range of binary64. *)
Lemma valuation_near (tokens : token_table) (c : string) (a : Z) (info : token_info) :
  lookup (PyStr.lower c) tokens = Some info ->
  positive_price (price_usd info) ->
  (1 <= a < 2 ^ 256)%Z ->
  (decimals info <= 255)%N ->
  Rnd.bpow 2 (-900) <= exact_amount a (decimals info) * F64.real (price_usd info) ->
  exact_amount a (decimals info) * F64.real (price_usd info) <= Rnd.bpow 2 900 ->
  exists v,
    Multi.calculate_usd_value tokens c a = Return (Some (v, symbol info))
    /\ Base.calculate_usd_value (Base.live tokens) c a = Return (Some v)
    /\ F64.is_finite v = true
    /\ exact_amount a (decimals info) * F64.real (price_usd info)
       - (1 # 2251799813685248) * (exact_amount a (decimals info) * F64.real (price_usd info))
       <= F64.real v
    /\ F64.real v
       <= exact_amount a (decimals info) * F64.real (price_usd info)
          + (1 # 2251799813685248) * (exact_amount a (decimals info) * F64.real (price_usd info)).
Proof.
  intros Hl (pm & pe & Hp & Hpm) Ha Hd Hlo Hhi.
  destruct (valuation_returns tokens c a info Hl ltac:(lia)) as [M B].
  rewrite M, B. clear M B. rewrite Hp in *. cbn [F64.real] in *.
  set (d := decimals info) in *. set (p := F64.to_Q pm pe) in *.
  set (X := quotient a d).
  assert (HX : X == exact_amount a d) by apply quotient_exact.
  assert (Hppos : 0 < p).
  { unfold p, F64.to_Q. apply Qmult_lt_0_compat; [|apply (bpow_pos 2 two_ge_2)].
    change 0 with (inject_Z 0). rewrite <- Zlt_Qlt. exact Hpm. }
  (* the quotient is at least 10^-255 and at most 2^256 *)
  assert (HXlo : Rnd.bpow 10 (-255) <= X).
  { rewrite HX, exact_amount_scaled.
    apply Qle_trans with (1 * Rnd.bpow 10 (- Z.of_N d)).
    - rewrite Qmult_1_l. apply (bpow_le 10 ten_ge_2). lia.
    - apply Qmult_le_compat_r; [|apply Qlt_le_weak, (bpow_pos 10 ten_ge_2)].
      change 1 with (inject_Z 1). rewrite <- Zle_Qle. lia. }
  assert (HXhi : X <= inject_Z (2 ^ 256)).
  { apply Qle_trans with (Qabs X); [apply Qle_Qabs|].
    rewrite HX. apply Qle_trans with (1 := exact_amount_abs a d).
    rewrite <- Zle_Qle. lia. }
  pose proof (bpow_pos 10 ten_ge_2 (-255)) as H255.
  assert (HXpos : 0 < X) by lra.
  (* Decimal division *)
  destruct (round_near_pos 10 ten_ge_2 Dec.prec Dec.Etiny X HXpos) as [D1 D2].
  { pose proof (ilog_ge_pos 10 ten_ge_2 X (-255) HXlo). unfold Dec.Etiny, Dec.prec. lia. }
  assert (Eu : (1 # 2) * Rnd.bpow 10 (1 - Dec.prec) == 1 # 2000000000000000000000000000)
    by reflexivity.
  rewrite Eu in D1, D2.
  set (x1 := Rnd.value 10 (Rnd.round 10 Dec.prec Dec.Etiny X)) in *.
  (* conversion to float *)
  assert (N1 : Rnd.bpow 2 (-1022) <= (1 # 2) * Rnd.bpow 10 (-255))
    by (apply Qle_bool_iff; vm_compute; reflexivity).
  assert (N2 : 2 * inject_Z (2 ^ 256) <= Rnd.bpow 2 1000)
    by (apply Qle_bool_iff; vm_compute; reflexivity).
  destruct (of_Q_near_pos x1 ltac:(lra) ltac:(lra)) as (m & e & -> & F1 & F2).
  assert (E53 : (1 # 2 ^ 53) == 1 # 9007199254740992) by reflexivity.
  rewrite E53 in F1, F2.
  cbn [F64.mul]. fold p. set (x2 := F64.to_Q m e) in *.
  (* the product *)
  assert (HP : X * p == exact_amount a d * p) by (rewrite HX; reflexivity).
  rewrite <- HP in Hlo, Hhi.
  assert (P1 : (X - (1 # 2000000000000000000000000000) * X) * p <= x1 * p)
    by (apply Qmult_le_compat_r; lra).
  assert (P2 : x1 * p <= (X + (1 # 2000000000000000000000000000) * X) * p)
    by (apply Qmult_le_compat_r; lra).
  assert (P3 : (x1 - (1 # 9007199254740992) * x1) * p <= x2 * p)
    by (apply Qmult_le_compat_r; lra).
  assert (P4 : x2 * p <= (x1 + (1 # 9007199254740992) * x1) * p)
    by (apply Qmult_le_compat_r; lra).
  assert (R1 : (X - (1 # 2000000000000000000000000000) * X) * p
               == X * p - (1 # 2000000000000000000000000000) * (X * p)) by ring.
  assert (R2 : (X + (1 # 2000000000000000000000000000) * X) * p
               == X * p + (1 # 2000000000000000000000000000) * (X * p)) by ring.
  assert (R3 : (x1 - (1 # 9007199254740992) * x1) * p
               == x1 * p - (1 # 9007199254740992) * (x1 * p)) by ring.
  assert (R4 : (x1 + (1 # 9007199254740992) * x1) * p
               == x1 * p + (1 # 9007199254740992) * (x1 * p)) by ring.
  rewrite R1 in P1. rewrite R2 in P2. rewrite R3 in P3. rewrite R4 in P4.
  assert (N3 : Rnd.bpow 2 (-1022) <= (1 # 4) * Rnd.bpow 2 (-900))
    by (apply Qle_bool_iff; vm_compute; reflexivity).
  assert (N4 : 4 * Rnd.bpow 2 900 <= Rnd.bpow 2 1000)
    by (apply Qle_bool_iff; vm_compute; reflexivity).
  pose proof (bpow_pos 2 two_ge_2 (-900)) as H900.
  destruct (of_Q_near_pos (x2 * p) ltac:(lra) ltac:(lra)) as (m' & e' & -> & G1 & G2).
  rewrite E53 in G1, G2.
  eexists. split; [reflexivity|]. split; [reflexivity|]. split; [reflexivity|].
  cbn [F64.real]. rewrite <- HP.
  apply (three_roundings (X * p) (x1 * p) (x2 * p) (F64.to_Q m' e')); try assumption.
  lra.
Qed.

(** One raw unit of USDC is a millionth of a dollar, which no binary64 value
    equals: the valuation returns the nearest one. *)
Lemma C5_counterexample : ~ AsStated.valuation_exact Base.TOP_TOKENS.
Proof.
  intros H.
  destruct (H Sample.usdc 1%Z (mkToken "USDC" 6 (F64.lit 1 1)) eq_refl)
    as (v & Hv & _ & Hreal).
  vm_compute in Hv. injection Hv as <-.
  vm_compute in Hreal. discriminate Hreal.
Qed.

(** C5 (amended).  For a listed token with a positive finite price, both
    monitors return a finite value (and the multi-chain one the token's
    symbol) that is
    - within a relative error of 2^-51 of (rawAmount / 10^decimals) * price,
      for a raw amount from 1 to 2^256 - 1, at most 255 decimals and an exact
      product between 2^-900 and 2^900: the quotient is rounded to 28
      significant digits, converted to binary64 and multiplied in binary64;
    - exactly (rawAmount / 10^decimals) * price whenever the raw amount has
      at most 28 digits and the quotient and the product are binary64 values.
    In particular 1,000,000 raw units at 6 decimals and price 1.0 are valued
    at exactly 1.0.  The single-chain monitor is taken with its running
    table holding these float prices. *)
Theorem C5_valuation_scaled_product :
  (forall (tokens : token_table) (c : string) (a : Z) (info : token_info),
      lookup (PyStr.lower c) tokens = Some info ->
      positive_price (price_usd info) ->
      (1 <= a < 2 ^ 256)%Z ->
      (decimals info <= 255)%N ->
      Rnd.bpow 2 (-900) <= exact_amount a (decimals info) * F64.real (price_usd info) ->
      exact_amount a (decimals info) * F64.real (price_usd info) <= Rnd.bpow 2 900 ->
      exists v,
        Multi.calculate_usd_value tokens c a = Return (Some (v, symbol info))
        /\ Base.calculate_usd_value (Base.live tokens) c a = Return (Some v)
        /\ F64.is_finite v = true
        /\ exact_amount a (decimals info) * F64.real (price_usd info)
           - (1 # 2251799813685248)
             * (exact_amount a (decimals info) * F64.real (price_usd info))
           <= F64.real v
        /\ F64.real v
           <= exact_amount a (decimals info) * F64.real (price_usd info)
              + (1 # 2251799813685248)
                * (exact_amount a (decimals info) * F64.real (price_usd info)))
  /\ (forall (tokens : token_table) (c : string) (a : Z) (info : token_info),
        lookup (PyStr.lower c) tokens = Some info ->
        F64.is_finite (price_usd info) = true ->
        (Z.abs a < 10 ^ 28)%Z ->
        (decimals info <= 255)%N ->
        representable (exact_amount a (decimals info)) ->
        representable (exact_amount a (decimals info) * F64.real (price_usd info)) ->
        exists v,
          Multi.calculate_usd_value tokens c a = Return (Some (v, symbol info))
          /\ Base.calculate_usd_value (Base.live tokens) c a = Return (Some v)
          /\ F64.is_finite v = true
          /\ F64.real v == exact_amount a (decimals info) * F64.real (price_usd info))
  /\ (exists v,
        Multi.calculate_usd_value (Sample.usdc_at 1) Sample.usdc 1000000
        = Return (Some (v, "USDC"))
        /\ Base.calculate_usd_value Base.initial_table Sample.usdc 1000000 = Return (Some v)
        /\ F64.is_finite v = true
        /\ F64.real v == 1).
Proof.
  split; [exact valuation_near|]. split; [exact valuation_exact_product|].
  eexists. split; [vm_compute; reflexivity|].
  split; [vm_compute; reflexivity|]. split; reflexivity.
Qed.

(** One raw unit of USDC at price 1.0, within 2^-51 of a millionth of a
    dollar; 2,500,000 raw units, exactly two and a half dollars. *)
Lemma C5_witness :
  (exists v,
      Multi.calculate_usd_value Base.TOP_TOKENS Sample.usdc 1
      = Return (Some (v, symbol (mkToken "USDC" 6 (F64.lit 1 1))))
      /\ Base.calculate_usd_value Base.initial_table Sample.usdc 1 = Return (Some v)
      /\ F64.is_finite v = true
      /\ exact_amount 1 (decimals (mkToken "USDC" 6 (F64.lit 1 1)))
         * F64.real (price_usd (mkToken "USDC" 6 (F64.lit 1 1)))
         - (1 # 2251799813685248)
           * (exact_amount 1 (decimals (mkToken "USDC" 6 (F64.lit 1 1)))
              * F64.real (price_usd (mkToken "USDC" 6 (F64.lit 1 1))))
         <= F64.real v
      /\ F64.real v
         <= exact_amount 1 (decimals (mkToken "USDC" 6 (F64.lit 1 1)))
            * F64.real (price_usd (mkToken "USDC" 6 (F64.lit 1 1)))
            + (1 # 2251799813685248)
              * (exact_amount 1 (decimals (mkToken "USDC" 6 (F64.lit 1 1)))
                 * F64.real (price_usd (mkToken "USDC" 6 (F64.lit 1 1)))))
  /\ (exists v,
        Multi.calculate_usd_value Base.TOP_TOKENS Sample.usdc 2500000
        = Return (Some (v, symbol (mkToken "USDC" 6 (F64.lit 1 1))))
        /\ Base.calculate_usd_value Base.initial_table Sample.usdc 2500000 = Return (Some v)
        /\ F64.is_finite v = true
        /\ F64.real v == exact_amount 2500000 (decimals (mkToken "USDC" 6 (F64.lit 1 1)))
                         * F64.real (price_usd (mkToken "USDC" 6 (F64.lit 1 1)))).
Proof.
  split.
  - apply (proj1 C5_valuation_scaled_product
             Base.TOP_TOKENS Sample.usdc 1%Z (mkToken "USDC" 6 (F64.lit 1 1))).
    + reflexivity.
    + exists 4503599627370496%Z, (-52)%Z. split; [vm_compute; reflexivity|lia].
    + split; [lia|vm_compute; reflexivity].
    + vm_compute. discriminate.
    + apply Qle_bool_iff. vm_compute. reflexivity.
    + apply Qle_bool_iff. vm_compute. reflexivity.
  - apply (proj1 (proj2 C5_valuation_scaled_product)
             Base.TOP_TOKENS Sample.usdc 2500000%Z (mkToken "USDC" 6 (F64.lit 1 1))).
    + reflexivity.
    + reflexivity.
    + vm_compute. reflexivity.
    + vm_compute. discriminate.
    + exists 5%Z, (-1)%Z. repeat split; vm_compute; reflexivity || discriminate.
    + exists 5%Z, (-1)%Z. repeat split; vm_compute; reflexivity || discriminate.
Defined.

(** With a negative amount, which [int(data, 16)] yields for a data field
    that starts with a minus sign, a higher price gives a lower value. *)
Lemma C6_counterexample : ~ AsStated.monotone_in_price.
Proof.
  intros H.
  assert (F := H (Sample.usdc_at 1) (Sample.usdc_at 2) Sample.usdc (-1000000)%Z
                 (mkToken "USDC" 6 (F64.lit 1 1)) (mkToken "USDC" 6 (F64.lit 2 1))
                 (F64.Fin (-4503599627370496) (-52)) (F64.Fin (-4503599627370496) (-51))
                 "USDC"%string "USDC"%string
                 eq_refl eq_refl eq_refl eq_refl eq_refl eq_refl).
  vm_compute in F. discriminate F.
Qed.

(** C6 (amended).  For a listed token whose price is finite and above zero
    and raw amounts that fit 256 bits, the valuation of both monitors is
    monotonically non-decreasing in the raw amount (decimals and price
    fixed) and, for an amount that is not negative, monotonically
    non-decreasing in the price (amount and decimals fixed).  The
    single-chain monitor is taken with its running table holding these float
    prices. *)
Theorem C6_valuation_monotone :
  (forall (tokens : token_table) (c : string) (a a' : Z) (info : token_info),
      lookup (PyStr.lower c) tokens = Some info ->
      positive_price (price_usd info) ->
      (Z.abs a < 2 ^ 256)%Z -> (Z.abs a' < 2 ^ 256)%Z ->
      (a <= a')%Z ->
      exists v v',
        Multi.calculate_usd_value tokens c a = Return (Some (v, symbol info))
        /\ Multi.calculate_usd_value tokens c a' = Return (Some (v', symbol info))
        /\ Base.calculate_usd_value (Base.live tokens) c a = Return (Some v)
        /\ Base.calculate_usd_value (Base.live tokens) c a' = Return (Some v')
        /\ F64.leb v v' = true)
  /\ (forall (tokens tokens' : token_table) (c : string) (a : Z) (info info' : token_info),
        lookup (PyStr.lower c) tokens = Some info ->
        lookup (PyStr.lower c) tokens' = Some info' ->
        decimals info = decimals info' ->
        positive_price (price_usd info) ->
        F64.is_finite (price_usd info') = true ->
        F64.leb (price_usd info) (price_usd info') = true ->
        (0 <= a < 2 ^ 256)%Z ->
        exists v v',
          Multi.calculate_usd_value tokens c a = Return (Some (v, symbol info))
          /\ Multi.calculate_usd_value tokens' c a = Return (Some (v', symbol info'))
          /\ Base.calculate_usd_value (Base.live tokens) c a = Return (Some v)
          /\ Base.calculate_usd_value (Base.live tokens') c a = Return (Some v')
          /\ F64.leb v v' = true).
Proof. split; [exact valuation_mono_amount|exact valuation_mono_price]. Qed.

(** 1000 and 2000 raw units of USDC at one dollar; 1000 raw units at one and
    at two dollars. *)
Lemma C6_witness :
  (exists v v',
      Multi.calculate_usd_value (Sample.usdc_at 1) Sample.usdc 1000
      = Return (Some (v, symbol (mkToken "USDC" 6 (F64.lit 1 1))))
      /\ Multi.calculate_usd_value (Sample.usdc_at 1) Sample.usdc 2000
         = Return (Some (v', symbol (mkToken "USDC" 6 (F64.lit 1 1))))
      /\ Base.calculate_usd_value (Base.live (Sample.usdc_at 1)) Sample.usdc 1000 = Return (Some v)
      /\ Base.calculate_usd_value (Base.live (Sample.usdc_at 1)) Sample.usdc 2000 = Return (Some v')
      /\ F64.leb v v' = true)
  /\ (exists v v',
        Multi.calculate_usd_value (Sample.usdc_at 1) Sample.usdc 1000
        = Return (Some (v, symbol (mkToken "USDC" 6 (F64.lit 1 1))))
        /\ Multi.calculate_usd_value (Sample.usdc_at 2) Sample.usdc 1000
           = Return (Some (v', symbol (mkToken "USDC" 6 (F64.lit 2 1))))
        /\ Base.calculate_usd_value (Base.live (Sample.usdc_at 1)) Sample.usdc 1000 = Return (Some v)
        /\ Base.calculate_usd_value (Base.live (Sample.usdc_at 2)) Sample.usdc 1000 = Return (Some v')
        /\ F64.leb v v' = true).
Proof.
  split.
  - apply (proj1 C6_valuation_monotone (Sample.usdc_at 1) Sample.usdc 1000%Z 2000%Z
             (mkToken "USDC" 6 (F64.lit 1 1))).
    + reflexivity.
    + exists 4503599627370496%Z, (-52)%Z. split; [vm_compute; reflexivity|lia].
    + vm_compute. reflexivity.
    + vm_compute. reflexivity.
    + lia.
  - apply (proj2 C6_valuation_monotone (Sample.usdc_at 1) (Sample.usdc_at 2) Sample.usdc
             1000%Z (mkToken "USDC" 6 (F64.lit 1 1)) (mkToken "USDC" 6 (F64.lit 2 1))).
    + reflexivity.
    + reflexivity.
    + reflexivity.
    + exists 4503599627370496%Z, (-52)%Z. split; [vm_compute; reflexivity|lia].
    + reflexivity.
    + vm_compute. reflexivity.
    + split; [lia|vm_compute; reflexivity].
Defined.

(** The order is not strict: one raw unit more can round to the same value. *)
Example valuation_plateau :
  Multi.calculate_usd_value (Sample.usdc_at 1) Sample.usdc (10 ^ 34)
  = Multi.calculate_usd_value (Sample.usdc_at 1) Sample.usdc (10 ^ 34 + 1).
Proof. vm_compute. reflexivity. Qed.

(** The decoder does produce negative amounts. *)
Example decode_negative_amount :
  exists t, Multi.decode_transfer_log (Sample.log_with (JStr "-0xf4240"))
            = ([], Return (Some t))
            /\ amount_raw t = (-1000000)%Z.
Proof. eexists. split; [vm_compute; reflexivity|reflexivity]. Qed.

End Valuation.
(** * Further properties *)

(** ** Addresses and amounts *)

Section Text.

Lemma lower_char_idem (c : ascii) :
  PyStr.lower_char (PyStr.lower_char c) = PyStr.lower_char c.
Proof. destruct c as [[] [] [] [] [] [] [] []]; reflexivity. Qed.

Lemma lower_idem (s : string) : PyStr.lower (PyStr.lower s) = PyStr.lower s.
Proof.
  induction s as [|c s IH]; [reflexivity|].
  cbn [PyStr.lower]. rewrite lower_char_idem, IH. reflexivity.
Qed.

Lemma substring_whole (s : string) : substring 0 (String.length s) s = s.
Proof. induction s as [|c s IH]; [reflexivity|]. cbn. rewrite IH. reflexivity. Qed.

Lemma length_append (p a : string) :
  String.length (p ++ a) = (String.length p + String.length a)%nat.
Proof. induction p as [|c p IH]; [reflexivity|]. cbn. rewrite IH. reflexivity. Qed.

(** The last characters of a padded word are the word. *)
Lemma last_chars_append (p a : string) :
  PyStr.last_chars (String.length a) (p ++ a) = a.
Proof.
  unfold PyStr.last_chars. rewrite length_append.
  replace (String.length p + String.length a - String.length a)%nat
    with (String.length p) by lia.
  induction p as [|c p IH]; [apply substring_whole|exact IH].
Qed.

(** [hex] never writes the empty string or a bare prefix. *)
Lemma hex_not_bare (n : Z) :
  String.eqb (PyStr.hex n) EmptyString = false /\ String.eqb (PyStr.hex n) "0x" = false.
Proof.
  unfold PyStr.hex.
  destruct (hex_digits_head (Z.to_nat (Z.log2 (Z.abs n))) (Z.abs n) EmptyString
              (Z.abs_nonneg n)) as (d & r & _ & ->).
  destruct (n <? 0); split; reflexivity.
Qed.

End Text.

(** ** More on the decoder *)

Section Decoding.

(** What both decoders return on a log with three string topics: the
    addresses are the last forty characters of topics 1 and 2, and the other
    fields are read with their defaults. *)
Lemma multi_decode_fields (d : list (string * json)) (sig : json) (x y : string)
    (more : list json) (amount : Z) (c : string) :
  lookup "topics" d = Some (JList (sig :: JStr x :: JStr y :: more)) ->
  (let data := match lookup "data" d with Some v => v | None => JStr "0x0" end in
   (if (truthy data && negb (eq_str data "0x"))%bool then int16 data else Return 0)
   = Return amount) ->
  match lookup "address" d with Some v => v | None => JStr EmptyString end = JStr c ->
  Multi.decode_transfer_log (JDict d)
  = ([], Return (Some (mkTransfer ("0x" ++ PyStr.lower (PyStr.last_chars 40 x))
                                  ("0x" ++ PyStr.lower (PyStr.last_chars 40 y))
                                  (PyStr.lower c) amount
                                  (field "transactionHash" (JDict d))
                                  (field "blockNumber" (JDict d))))).
Proof.
  intros Ht Ha Hc.
  unfold Multi.decode_transfer_log, Multi.decode_body.
  cbn [get Py.bind]. rewrite Ht. cbn [len Py.bind List.length].
  destruct (Z.ltb_spec (Z.of_nat (S (S (S (List.length more))))) 3) as [Hlt|_]; [lia|].
  cbn [index nth_error Py.bind slice_last str_add].
  cbv zeta in Ha. rewrite Ha. cbn [Py.bind]. rewrite Hc. reflexivity.
Qed.

Lemma base_decode_fields (d : list (string * json)) (sig : json) (x y : string)
    (more : list json) (amount : Z) (c : string) :
  lookup "topics" d = Some (JList (sig :: JStr x :: JStr y :: more)) ->
  (let data := match lookup "data" d with Some v => v | None => JStr "0x0" end in
   (if negb (eq_str data "0x") then int16 data else Return 0) = Return amount) ->
  match lookup "address" d with Some v => v | None => JStr EmptyString end = JStr c ->
  Base.decode_transfer_log (JDict d)
  = ([], Return (Some (mkTransfer ("0x" ++ PyStr.lower (PyStr.last_chars 40 x))
                                  ("0x" ++ PyStr.lower (PyStr.last_chars 40 y))
                                  (PyStr.lower c) amount
                                  (field "transactionHash" (JDict d))
                                  (field "blockNumber" (JDict d))))).
Proof.
  intros Ht Ha Hc.
  unfold Base.decode_transfer_log, Base.decode_body.
  cbn [get Py.bind]. rewrite Ht. cbn [len Py.bind List.length].
  destruct (Z.ltb_spec (Z.of_nat (S (S (S (List.length more))))) 3) as [Hlt|_]; [lia|].
  cbn [index nth_error Py.bind slice_last str_add].
  cbv zeta in Ha. rewrite Ha. cbn [Py.bind]. rewrite Hc. reflexivity.
Qed.

(** X1.  A log object whose [topics] (an empty list when the field is
    missing) has fewer than three entries is answered with [None] by both
    decoders, and neither prints anything: nothing else of the log is looked
    at. *)
Theorem X1_fewer_than_three_topics_is_none :
  forall (d : list (string * json)) (n : Z),
    len (match lookup "topics" d with Some v => v | None => JList [] end) = Return n ->
    n < 3 ->
    Multi.decode_transfer_log (JDict d) = ([], Return None)
    /\ Base.decode_transfer_log (JDict d) = ([], Return None).
Proof.
  intros d n Hlen Hshort.
  unfold Multi.decode_transfer_log, Multi.decode_body,
         Base.decode_transfer_log, Base.decode_body.
  cbn [get Py.bind]. rewrite Hlen. cbn [Py.bind].
  destruct (Z.ltb_spec n 3) as [_|Hge]; [|lia].
  split; reflexivity.
Qed.

Lemma X1_witness :
  Multi.decode_transfer_log (JDict [("topics", JList [JStr TRANSFER_TOPIC; Sample.topic_a])])
  = ([], Return None)
  /\ Base.decode_transfer_log (JDict [("topics", JList [JStr TRANSFER_TOPIC; Sample.topic_a])])
     = ([], Return None).
Proof.
  apply (X1_fewer_than_three_topics_is_none
           [("topics", JList [JStr TRANSFER_TOPIC; Sample.topic_a])] 2).
  - reflexivity.
  - lia.
Defined.

(** X2.  Decoding reads back what a Transfer log encodes.  When topics 1 and
    2 are forty-character addresses behind any padding, the data field is
    [hex n] and the address is a string, both decoders return the transfer
    from the first address to the second, of amount [n], on the lower-cased
    contract; the addresses are lower-cased behind [0x], whatever the
    padding was. *)
Theorem X2_decode_reads_back_transfer :
  forall (d : list (string * json)) (sig : json) (pad_from from pad_to to : string)
         (more : list json) (n : Z) (c : string),
    lookup "topics" d
      = Some (JList (sig :: JStr (pad_from ++ from) :: JStr (pad_to ++ to) :: more)) ->
    String.length from = 40%nat ->
    String.length to = 40%nat ->
    lookup "data" d = Some (JStr (PyStr.hex n)) ->
    lookup "address" d = Some (JStr c) ->
    let t := mkTransfer ("0x" ++ PyStr.lower from) ("0x" ++ PyStr.lower to)
                        (PyStr.lower c) n
                        (field "transactionHash" (JDict d))
                        (field "blockNumber" (JDict d)) in
    Multi.decode_transfer_log (JDict d) = ([], Return (Some t))
    /\ Base.decode_transfer_log (JDict d) = ([], Return (Some t)).
Proof.
  intros d sig pf from pt to more n c Ht Hf Hto Hd Hc t.
  destruct (hex_not_bare n) as [Hne Hnb].
  assert (Hfrom : PyStr.last_chars 40 (pf ++ from) = from)
    by (rewrite <- Hf; apply last_chars_append).
  assert (Hrec : PyStr.last_chars 40 (pt ++ to) = to)
    by (rewrite <- Hto; apply last_chars_append).
  split.
  - rewrite (multi_decode_fields d sig _ _ more n c Ht).
    + rewrite Hfrom, Hrec. reflexivity.
    + rewrite Hd. cbn [truthy eq_str int16]. rewrite Hne, Hnb. apply int16_hex.
    + rewrite Hc. reflexivity.
  - rewrite (base_decode_fields d sig _ _ more n c Ht).
    + rewrite Hfrom, Hrec. reflexivity.
    + rewrite Hd. cbn [eq_str int16]. rewrite Hnb. apply int16_hex.
    + rewrite Hc. reflexivity.
Qed.

Lemma X2_witness :
  Multi.decode_transfer_log (Sample.log_with (JStr "0x23c34600"))
  = ([], Return (Some Sample.a_transfer))
  /\ Base.decode_transfer_log (Sample.log_with (JStr "0x23c34600"))
     = ([], Return (Some Sample.a_transfer)).
Proof.
  apply (X2_decode_reads_back_transfer
           [ ("topics", JList [JStr TRANSFER_TOPIC; Sample.topic_a; Sample.topic_b]);
             ("data", JStr "0x23c34600");
             ("address", JStr Sample.usdc);
             ("transactionHash", JStr "0xabc");
             ("blockNumber", JStr "0x11") ]
           (JStr TRANSFER_TOPIC)
           "0x000000000000000000000000" "aaaaaaaaaaaaaaaaaaaaaaaaaaaaaaaaaaaaaaaa"
           "0x000000000000000000000000" "bbbbbbbbbbbbbbbbbbbbbbbbbbbbbbbbbbbbbbbb"
           [] 600000000 Sample.usdc); reflexivity.
Defined.

(** X3.  A log without a data field, or whose data is the bare prefix [0x],
    is a transfer of amount zero for both decoders; a log without an address
    gets the empty string as its contract. *)
Theorem X3_missing_data_is_amount_zero :
  forall (d : list (string * json)) (sig : json) (x y : string) (more : list json),
    lookup "topics" d = Some (JList (sig :: JStr x :: JStr y :: more)) ->
    (lookup "data" d = None \/ lookup "data" d = Some (JStr "0x")) ->
    lookup "address" d = None ->
    let t := mkTransfer ("0x" ++ PyStr.lower (PyStr.last_chars 40 x))
                        ("0x" ++ PyStr.lower (PyStr.last_chars 40 y))
                        EmptyString 0
                        (field "transactionHash" (JDict d))
                        (field "blockNumber" (JDict d)) in
    Multi.decode_transfer_log (JDict d) = ([], Return (Some t))
    /\ Base.decode_transfer_log (JDict d) = ([], Return (Some t)).
Proof.
  intros d sig x y more Ht Hd Hc t. split.
  - apply (multi_decode_fields d sig x y more 0 EmptyString Ht).
    + destruct Hd as [-> | ->]; reflexivity.
    + rewrite Hc. reflexivity.
  - apply (base_decode_fields d sig x y more 0 EmptyString Ht).
    + destruct Hd as [-> | ->]; reflexivity.
    + rewrite Hc. reflexivity.
Qed.

Lemma X3_witness :
  let t := mkTransfer "0xaaaaaaaaaaaaaaaaaaaaaaaaaaaaaaaaaaaaaaaa"
                      "0xbbbbbbbbbbbbbbbbbbbbbbbbbbbbbbbbbbbbbbbb"
                      EmptyString 0 JNull JNull in
  Multi.decode_transfer_log
    (JDict [("topics", JList [JStr TRANSFER_TOPIC; Sample.topic_a; Sample.topic_b])])
  = ([], Return (Some t))
  /\ Base.decode_transfer_log
       (JDict [("topics", JList [JStr TRANSFER_TOPIC; Sample.topic_a; Sample.topic_b])])
     = ([], Return (Some t)).
Proof.
  apply (X3_missing_data_is_amount_zero
           [("topics", JList [JStr TRANSFER_TOPIC; Sample.topic_a; Sample.topic_b])]
           (JStr TRANSFER_TOPIC)
           "0x000000000000000000000000aaaaaaaaaaaaaaaaaaaaaaaaaaaaaaaaaaaaaaaa"
           "0x000000000000000000000000bbbbbbbbbbbbbbbbbbbbbbbbbbbbbbbbbbbbbbbb" []).
  - reflexivity.
  - left. reflexivity.
  - reflexivity.
Defined.

(** X22.  The two decoders differ only on falsy data.  On every log whose
    data field is missing or truthy (a non-empty string in particular) the
    decoder of the multi-chain monitor and the one of the single-chain
    monitor return the same answer; they can differ only when the data is
    the empty string, null, zero, false or an empty container, which the
    first reads as amount zero and the second fails to parse. *)
Theorem X22_decoders_agree_on_truthy_data :
  forall (log : json),
    (forall d v, log = JDict d -> lookup "data" d = Some v -> truthy v = true) ->
    snd (Multi.decode_transfer_log log) = snd (Base.decode_transfer_log log).
Proof.
  intros log Hdata.
  assert (Hbody : Multi.decode_body log = Base.decode_body log).
  { unfold Multi.decode_body, Base.decode_body.
    destruct log as [| | | | | |d]; try reflexivity.
    cbn [get Py.bind].
    assert (Ht : truthy (match lookup "data" d with Some v => v | None => JStr "0x0" end)
                 = true).
    { destruct (lookup "data" d) as [v|] eqn:Hv; [|reflexivity].
      exact (Hdata d v eq_refl Hv). }
    rewrite Ht. reflexivity. }
  unfold Multi.decode_transfer_log, Base.decode_transfer_log. rewrite Hbody.
  destruct (Base.decode_body log) as [r|e]; reflexivity.
Qed.

Lemma X22_witness :
  snd (Multi.decode_transfer_log (Sample.log_with (JStr "0xzz")))
  = snd (Base.decode_transfer_log (Sample.log_with (JStr "0xzz"))).
Proof.
  apply X22_decoders_agree_on_truthy_data.
  intros d v Hd Hv. injection Hd as <-. vm_compute in Hv. injection Hv as <-. reflexivity.
Defined.

End Decoding.

(** ** The token table of a chain *)

Section Tokens.

Lemma lookup_dict_set_same {A} (k : string) (v : A) (d : list (string * A)) :
  lookup k (Multi.dict_set k v d) = Some v.
Proof.
  induction d as [|[k' v'] d IH]; cbn [Multi.dict_set lookup].
  - rewrite String.eqb_refl. reflexivity.
  - destruct (String.eqb k k') eqn:E; cbn [lookup]; rewrite ?String.eqb_refl, ?E; auto.
Qed.

Lemma lookup_dict_set_other {A} (k k' : string) (v : A) (d : list (string * A)) :
  String.eqb k' k = false ->
  lookup k' (Multi.dict_set k v d) = lookup k' d.
Proof.
  intros Hne. induction d as [|[k0 v0] d IH]; cbn [Multi.dict_set lookup].
  - rewrite Hne. reflexivity.
  - destruct (String.eqb k k0) eqn:E; cbn [lookup].
    + apply String.eqb_eq in E. subst k0. rewrite Hne. reflexivity.
    + rewrite IH. reflexivity.
Qed.

Lemma lookup_app {A} (k : string) (a b : list (string * A)) :
  lookup k (a ++ b)%list
  = match lookup k a with Some v => Some v | None => lookup k b end.
Proof.
  induction a as [|[k' v'] a IH]; [reflexivity|].
  cbn [app lookup]. destruct (String.eqb k k'); [reflexivity|exact IH].
Qed.

Lemma lookup_in {A} (k : string) (v : A) (d : list (string * A)) :
  NoDup (map fst d) -> In (k, v) d -> lookup k d = Some v.
Proof.
  induction d as [|[k' v'] d IH]; intros Hnd Hin; [destruct Hin|].
  cbn [map fst] in Hnd. inversion Hnd as [|? ? Hnotin Hnd']; subst.
  cbn [lookup]. destruct Hin as [Heq|Hin].
  - injection Heq as -> ->. rewrite String.eqb_refl. reflexivity.
  - destruct (String.eqb k k') eqn:E.
    + apply String.eqb_eq in E. subst k'. exfalso. apply Hnotin.
      apply in_map_iff. exists (k, v). split; [reflexivity|exact Hin].
    + apply IH; assumption.
Qed.

(** The table with every address lower-cased, latest entry first. *)
Lemma normalize_tokens_last_wins (t : token_table) (k : string) :
  lookup k (Multi.normalize_tokens t)
  = lookup k (rev (map (fun kv => (PyStr.lower (fst kv), snd kv)) t)).
Proof.
  unfold Multi.normalize_tokens.
  assert (H : forall acc,
             lookup k (fold_left (fun acc kv => Multi.dict_set (PyStr.lower (fst kv)) (snd kv) acc)
                         t acc)
             = match lookup k (rev (map (fun kv => (PyStr.lower (fst kv), snd kv)) t)) with
               | Some v => Some v
               | None => lookup k acc
               end).
  { induction t as [|[k0 v0] t IH]; intros acc; [reflexivity|].
    cbn [fold_left map rev fst snd]. rewrite IH, lookup_app.
    destruct (lookup k (rev (map (fun kv => (PyStr.lower (fst kv), snd kv)) t)));
      [reflexivity|].
    cbn [lookup]. destruct (String.eqb k (PyStr.lower k0)) eqn:E.
    - apply String.eqb_eq in E. subst k. apply lookup_dict_set_same.
    - apply lookup_dict_set_other. exact E. }
  rewrite H. destruct (lookup k _); reflexivity.
Qed.

Lemma dict_set_keys {A} (k : string) (v : A) (d : list (string * A)) :
  map fst (Multi.dict_set k v d) = map fst d
  \/ (~ In k (map fst d) /\ map fst (Multi.dict_set k v d) = (map fst d ++ [k])%list).
Proof.
  induction d as [|[k' v'] d IH]; cbn [Multi.dict_set map fst app].
  - right. split; [intros []|reflexivity].
  - destruct (String.eqb k k') eqn:E; cbn [map fst].
    + apply String.eqb_eq in E. subst k'. left. reflexivity.
    + destruct IH as [IH|[Hnotin IH]]; rewrite IH; [left; reflexivity|right].
      split; [|reflexivity]. intros [Heq|Hin]; [|exact (Hnotin Hin)].
      subst k'. rewrite String.eqb_refl in E. discriminate E.
Qed.

Lemma normalize_tokens_keys (t : token_table) :
  NoDup (map fst (Multi.normalize_tokens t))
  /\ Forall (fun k => PyStr.lower k = k) (map fst (Multi.normalize_tokens t)).
Proof.
  unfold Multi.normalize_tokens.
  assert (H : forall acc : token_table,
             NoDup (map fst acc) /\ Forall (fun k => PyStr.lower k = k) (map fst acc) ->
             let r := fold_left (fun acc kv => Multi.dict_set (PyStr.lower (fst kv)) (snd kv) acc)
                        t acc in
             NoDup (map fst r) /\ Forall (fun k => PyStr.lower k = k) (map fst r)).
  { induction t as [|[k0 v0] t IH]; intros acc Hacc; [exact Hacc|].
    cbn [fold_left fst snd]. apply IH. destruct Hacc as [Hnd Hlow].
    destruct (dict_set_keys (PyStr.lower k0) v0 acc) as [->|[Hnotin ->]];
      [split; assumption|].
    split.
    - apply NoDup_app; [exact Hnd|constructor; [intros []|constructor]|].
      intros x Hx [<-|[]]. exact (Hnotin Hx).
    - apply Forall_app. split; [exact Hlow|].
      constructor; [apply lower_idem|constructor]. }
  apply (H []). split; constructor.
Qed.

(** X4.  Normalising a chain's token table keeps every token reachable by its
    address in any letter case: when no two configured addresses differ only
    by case, an address [c] that equals a configured address [k] up to case
    finds the entry configured for [k]. *)
Theorem X4_normalized_table_finds_any_case :
  forall (tokens : token_table) (k : string) (info : token_info) (c : string),
    NoDup (map (fun kv => PyStr.lower (fst kv)) tokens) ->
    In (k, info) tokens ->
    PyStr.lower c = PyStr.lower k ->
    lookup (PyStr.lower c) (Multi.normalize_tokens tokens) = Some info.
Proof.
  intros tokens k info c Hnd Hin Hc.
  rewrite normalize_tokens_last_wins, Hc.
  apply lookup_in.
  - rewrite map_rev, map_map. cbn [fst]. apply NoDup_rev. exact Hnd.
  - apply in_rev. rewrite rev_involutive.
    apply in_map_iff. exists (k, info). split; [reflexivity|exact Hin].
Qed.

Lemma X4_witness :
  lookup (PyStr.lower "0x66A2A913E447D6B4BF33EFBEC43AAEF87890FBBC")
         (Multi.normalize_tokens (Multi.tokens Sample.boba))
  = Some (mkToken "USDC" 6 (F64.lit 1 1)).
Proof.
  apply (X4_normalized_table_finds_any_case (Multi.tokens Sample.boba)
           "0x66a2a913e447d6b4bf33efbec43aaef87890fbbc").
  - repeat constructor; simpl; intuition discriminate.
  - right. left. reflexivity.
  - reflexivity.
Defined.

(** X5.  Whatever a chain's configuration, the table a monitor works with
    has pairwise distinct addresses, all in lower case; of two configured
    entries whose addresses differ only by case, the later one is the one
    kept. *)
Theorem X5_normalized_table_is_lower_case_and_distinct :
  forall (tokens : token_table),
    NoDup (map fst (Multi.normalize_tokens tokens))
    /\ Forall (fun k => PyStr.lower k = k) (map fst (Multi.normalize_tokens tokens))
    /\ (forall k, lookup k (Multi.normalize_tokens tokens)
                  = lookup k (rev (map (fun kv => (PyStr.lower (fst kv), snd kv)) tokens))).
Proof.
  intros tokens. destruct (normalize_tokens_keys tokens) as [Hnd Hlow].
  split; [exact Hnd|]. split; [exact Hlow|].
  intros k. apply normalize_tokens_last_wins.
Qed.

End Tokens.

(** ** The threshold *)

Section Threshold.

(** A finite value within 2^-51 of an exact value [P] compares with a
    threshold as [P] does, one dollar away from it. *)
Lemma ge_int_of_near (v : F64.float) (P : Q) (n : Z) :
  F64.is_finite v = true ->
  (P - (1 # 2251799813685248) * P <= F64.real v)%Q ->
  (F64.real v <= P + (1 # 2251799813685248) * P)%Q ->
  0 <= n <= 1000000 ->
  ((inject_Z (n + 1) <= P)%Q -> F64.ge_int v n = true)
  /\ ((0 <= P)%Q -> (P <= inject_Z (n - 1))%Q -> F64.ge_int v n = false).
Proof.
  intros Hfin Hlo Hhi Hn.
  destruct v as [| s |m e]; try discriminate Hfin.
  cbn [F64.real F64.ge_int] in *.
  assert (Hn' : (inject_Z 0 <= inject_Z n <= inject_Z 1000000)%Q)
    by (rewrite <- !Zle_Qle; exact Hn).
  change (inject_Z 0) with 0%Q in Hn'. change (inject_Z 1000000) with 1000000%Q in Hn'.
  rewrite inject_Z_plus. unfold Z.sub. rewrite inject_Z_plus.
  change (inject_Z 1) with 1%Q. change (inject_Z (- (1))) with (- (1))%Q.
  split.
  - intros HP. apply Qle_bool_iff. lra.
  - intros HP0 HP. destruct (Qle_bool (inject_Z n) (F64.to_Q m e)) eqn:E; [|reflexivity].
    apply Qle_bool_iff in E. lra.
Qed.

(** X6.  The filter of the multi-chain monitor follows the exact dollar
    value of a transfer, [amount / 10^decimals * price], up to the rounding
    of the valuation: a listed transfer worth at least 100001 dollars is
    posted once to every sink, with its payload, and one worth at most 99999
    dollars leaves no trace at all. *)
Theorem X6_multi_filter_follows_exact_value :
  forall (chain : Multi.ChainConfig) (tokens : token_table) (log : json) (t : transfer)
         (info : token_info) (sink : nat -> post_outcome),
    Multi.decode_transfer_log log = ([], Return (Some t)) ->
    lookup (PyStr.lower (contract t)) tokens = Some info ->
    positive_price (price_usd info) ->
    1 <= amount_raw t < 2 ^ 256 ->
    (decimals info <= 255)%N ->
    (Rnd.bpow 2 (-900)
     <= exact_amount (amount_raw t) (decimals info) * F64.real (price_usd info)
     <= Rnd.bpow 2 900)%Q ->
    ((100001 <= exact_amount (amount_raw t) (decimals info) * F64.real (price_usd info))%Q ->
     posts (fst (Multi.process_log chain tokens log sink))
       = map (fun u => Post u (Multi.payload chain t) 5) WEBHOOK_URLS
     /\ snd (Multi.process_log chain tokens log sink) = Return tt)
    /\ ((exact_amount (amount_raw t) (decimals info) * F64.real (price_usd info) <= 99999)%Q ->
        Multi.process_log chain tokens log sink = ([], Return tt)).
Proof.
  intros chain tokens log t info sink Hdec Hlook Hprice Ha Hd [HPlo HPhi].
  destruct (valuation_near tokens (contract t) (amount_raw t) info Hlook Hprice Ha Hd HPlo HPhi)
    as (v & HM & _ & Hfin & Hlo & Hhi).
  set (P := (exact_amount (amount_raw t) (decimals info) * F64.real (price_usd info))%Q) in *.
  assert (HP0 : (0 <= P)%Q).
  { apply Qle_trans with (2 := HPlo). apply Qlt_le_weak. apply bpow_pos. lia. }
  destruct (ge_int_of_near v P 100000 Hfin Hlo Hhi ltac:(lia)) as [Hup Hdown].
  unfold Multi.process_log. rewrite Hdec. cbn [Trace.bind lift app].
  rewrite HM. cbn [Trace.bind lift app]. unfold Multi.MIN_USD_VALUE. split.
  - intros HP. rewrite (Hup HP).
    destruct (dispatch_posts chain t v (symbol info) sink) as (Hp & Hr & _).
    destruct (Multi.send_to_webhook chain t v (symbol info) sink) as [tr r].
    cbn [fst snd app] in *. split; assumption.
  - intros HP. rewrite (Hdown HP0 HP). reflexivity.
Qed.

(** 200000 USDC at one dollar, on Boba. *)
Lemma X6_witness :
  posts (fst (Multi.process_log Sample.boba (Sample.usdc_at 1)
                (Sample.log_with (JStr "0x2e90edd000")) Sample.no_sink))
    = map (fun u => Post u (Multi.payload Sample.boba
                              (mkTransfer "0xaaaaaaaaaaaaaaaaaaaaaaaaaaaaaaaaaaaaaaaa"
                                          "0xbbbbbbbbbbbbbbbbbbbbbbbbbbbbbbbbbbbbbbbb"
                                          Sample.usdc 200000000000 (JStr "0xabc") (JStr "0x11")))
                            5) WEBHOOK_URLS
  /\ snd (Multi.process_log Sample.boba (Sample.usdc_at 1)
            (Sample.log_with (JStr "0x2e90edd000")) Sample.no_sink) = Return tt.
Proof.
  refine (proj1 (X6_multi_filter_follows_exact_value Sample.boba (Sample.usdc_at 1)
                   (Sample.log_with (JStr "0x2e90edd000"))
                   (mkTransfer "0xaaaaaaaaaaaaaaaaaaaaaaaaaaaaaaaaaaaaaaaa"
                               "0xbbbbbbbbbbbbbbbbbbbbbbbbbbbbbbbbbbbbbbbb"
                               Sample.usdc 200000000000 (JStr "0xabc") (JStr "0x11"))
                   (mkToken "USDC" 6 (F64.lit 1 1)) Sample.no_sink _ _ _ _ _ _) _).
  - reflexivity.
  - reflexivity.
  - vm_compute. do 2 eexists. split; reflexivity.
  - simpl. lia.
  - simpl. lia.
  - split; vm_compute; discriminate.
  - vm_compute. discriminate.
Defined.

(** X7.  The filter of the single-chain monitor, on a notification that
    carries a log: a listed transfer worth at least 501 dollars is posted
    once to every sink, and one worth at most 499 dollars leaves no trace at
    all.  The running table is one that holds float prices. *)
Theorem X7_base_filter_follows_exact_value :
  forall (tokens : token_table) (data params log : json) (t : transfer)
         (info : token_info) (sink : nat -> post_outcome),
    item data "params" = Return params ->
    item params "result" = Return log ->
    Base.decode_transfer_log log = ([], Return (Some t)) ->
    lookup (PyStr.lower (contract t)) tokens = Some info ->
    positive_price (price_usd info) ->
    1 <= amount_raw t < 2 ^ 256 ->
    (decimals info <= 255)%N ->
    (Rnd.bpow 2 (-900)
     <= exact_amount (amount_raw t) (decimals info) * F64.real (price_usd info)
     <= Rnd.bpow 2 900)%Q ->
    ((501 <= exact_amount (amount_raw t) (decimals info) * F64.real (price_usd info))%Q ->
     posts (fst (Base.handle_message (Base.live tokens) (Return data) sink))
       = map (fun u => Post u (Base.payload t) 5) WEBHOOK_URLS
     /\ snd (Base.handle_message (Base.live tokens) (Return data) sink) = Return tt)
    /\ ((exact_amount (amount_raw t) (decimals info) * F64.real (price_usd info) <= 499)%Q ->
        Base.handle_message (Base.live tokens) (Return data) sink = ([], Return tt)).
Proof.
  intros tokens data params log t info sink Hparams Hlog Hdec Hlook Hprice Ha Hd [HPlo HPhi].
  destruct (valuation_near tokens (contract t) (amount_raw t) info Hlook Hprice Ha Hd HPlo HPhi)
    as (v & _ & HB & Hfin & Hlo & Hhi).
  set (P := (exact_amount (amount_raw t) (decimals info) * F64.real (price_usd info))%Q) in *.
  assert (HP0 : (0 <= P)%Q).
  { apply Qle_trans with (2 := HPlo). apply Qlt_le_weak. apply bpow_pos. lia. }
  destruct (ge_int_of_near v P 500 Hfin Hlo Hhi ltac:(lia)) as [Hup Hdown].
  assert (Hhas : contains "params" data = Return true).
  { destruct data; try discriminate Hparams. cbn [item contains] in *.
    destruct (lookup "params" d); [reflexivity|discriminate Hparams]. }
  unfold Base.handle_message. cbn [lift Trace.bind app]. rewrite Hhas.
  cbn [lift Trace.bind app negb]. rewrite Hparams. cbn [Trace.bind app].
  rewrite Hlog. cbn [Trace.bind app]. rewrite Hdec. cbn [Trace.bind app].
  rewrite HB. cbn [Trace.bind app]. unfold Base.MIN_USD_VALUE. split.
  - intros HP. rewrite (Hup HP).
    set (sym := match lookup (PyStr.lower (contract t)) (Base.live tokens) with
                | Some info0 => Base.live_symbol info0
                | None => "???"
                end).
    destruct (dispatch_posts Sample.boba t v sym sink) as (_ & _ & Hp & Hr).
    destruct (Base.send_to_webhook t v sym sink) as [tr r].
    cbn [fst snd app emit Trace.bind Trace.try_except] in *. subst r.
    cbn [fst snd]. split; [exact Hp|reflexivity].
  - intros HP. rewrite (Hdown HP0 HP). reflexivity.
Qed.

(** 600 USDC at one dollar. *)
Lemma X7_witness :
  posts (fst (Base.handle_message Base.initial_table
                (Return (JDict [("params", JDict [("result", Sample.log_with (JStr "0x23c34600"))])]))
                Sample.no_sink))
    = map (fun u => Post u (Base.payload Sample.a_transfer) 5) WEBHOOK_URLS
  /\ snd (Base.handle_message Base.initial_table
            (Return (JDict [("params", JDict [("result", Sample.log_with (JStr "0x23c34600"))])]))
            Sample.no_sink) = Return tt.
Proof.
  refine (proj1 (X7_base_filter_follows_exact_value Base.TOP_TOKENS
                   (JDict [("params", JDict [("result", Sample.log_with (JStr "0x23c34600"))])])
                   (JDict [("result", Sample.log_with (JStr "0x23c34600"))])
                   (Sample.log_with (JStr "0x23c34600"))
                   Sample.a_transfer (mkToken "USDC" 6 (F64.lit 1 1)) Sample.no_sink
                   _ _ _ _ _ _ _ _) _).
  - reflexivity.
  - reflexivity.
  - reflexivity.
  - reflexivity.
  - vm_compute. do 2 eexists. split; reflexivity.
  - simpl. lia.
  - simpl. lia.
  - split; vm_compute; discriminate.
  - vm_compute. discriminate.
Defined.

(** Dividing amount zero: the quotient is a zero. *)
Lemma zero_quotient (d : N) :
  exists amount e,
    Dec.div (Dec.of_int 0) (Dec.of_int (10 ^ Z.of_N d)) = Return amount
    /\ Dec.to_float amount = F64.Fin 0 e.
Proof.
  set (q := (Dec.to_Q (Dec.of_int 0) / Dec.to_Q (Dec.of_int (10 ^ Z.of_N d)))%Q).
  assert (Hq : (q == 0)%Q).
  { unfold q. rewrite quotient_exact. unfold exact_amount.
    change (inject_Z 0) with 0%Q. unfold Qdiv. apply Qmult_0_l. }
  assert (Hzero : representable 0).
  { exists 0, 0. split; [cbn; lia|]. split; [unfold F64.emin; lia|].
    split; vm_compute; reflexivity. }
  assert (Hval : (Rnd.value 10 (Rnd.round 10 Dec.prec Dec.Etiny q) == 0)%Q).
  { transitivity q; [|exact Hq].
    apply (round_exact 10 ten_ge_2 Dec.prec Dec.Etiny prec28_pos q 0 0).
    - transitivity 0%Q; [exact Hq|vm_compute; reflexivity].
    - vm_compute. reflexivity.
    - unfold Dec.Etiny. lia. }
  destruct (of_Q_exact _ 0 Hval Hzero) as (m & e & Hm & Hme).
  assert (Hm0 : m = 0).
  { unfold F64.to_Q in Hme. apply Qmult_integral in Hme. destruct Hme as [Hme|Hme].
    - unfold Qeq in Hme. cbn in Hme. lia.
    - exfalso. exact (bpow_nz 2 two_ge_2 e Hme). }
  subst m.
  exists (Dec.mk (fst (Rnd.round 10 Dec.prec Dec.Etiny q))
                 (snd (Rnd.round 10 Dec.prec Dec.Etiny q))), e.
  split; [|exact Hm].
  apply (div_returns 0 d). cbn. lia.
Qed.

(** A zero times any float is a zero or a NaN: below every positive
    threshold. *)
Lemma zero_times_price (e : Z) (p : F64.float) (n : Z) :
  0 < n -> F64.ge_int (F64.mul (F64.Fin 0 e) p) n = false.
Proof.
  intros Hn. destruct p as [| s |pm pe]; cbn [F64.mul]; try reflexivity.
  assert (Hzero : representable 0).
  { exists 0, 0. split; [cbn; lia|]. split; [unfold F64.emin; lia|].
    split; vm_compute; reflexivity. }
  assert (Hprod : (F64.to_Q 0 e * F64.to_Q pm pe == 0)%Q).
  { unfold F64.to_Q. change (inject_Z 0) with 0%Q. rewrite !Qmult_0_l. reflexivity. }
  destruct (of_Q_exact _ 0 Hprod Hzero) as (m & e' & -> & Hme).
  cbn [F64.ge_int]. destruct (Qle_bool (inject_Z n) (F64.to_Q m e')) eqn:E; [|reflexivity].
  apply Qle_bool_iff in E. rewrite Hme in E.
  change 0%Q with (inject_Z 0) in E. rewrite <- Zle_Qle in E. lia.
Qed.

(** The same for whatever the running table holds as price, when the product
    is defined. *)
Lemma zero_times_value (e : Z) (price : json) (n : Z) :
  0 < n ->
  match float_mul (F64.Fin 0 e) price with
  | Return v => F64.ge_int v n = false
  | Raise _ => True
  end.
Proof.
  intros Hn. destruct price as [|b|z|f|s|l|d]; cbn [float_mul]; try exact I.
  - unfold float_of_int. destruct (F64.of_Q (inject_Z (if b then 1 else 0)));
      cbn [Py.bind]; try exact I; apply zero_times_price; exact Hn.
  - unfold float_of_int. destruct (F64.of_Q (inject_Z z));
      cbn [Py.bind]; try exact I; apply zero_times_price; exact Hn.
  - apply zero_times_price. exact Hn.
Qed.

(** X8.  A transfer of amount zero is never dispatched by either monitor,
    whatever the token's price.  In the multi-chain monitor handling its log
    leaves no trace at all, for a listed token at any price (also an
    infinite one or a NaN) and for an unlisted one.  In the single-chain
    monitor handling its notification posts nothing to any sink, whatever
    the refresh has stored as the price, a number or not. *)
Theorem X8_zero_amount_is_never_dispatched :
  forall (chain : Multi.ChainConfig) (tokens : token_table) (T : Base.live_table)
         (data params log : json) (t : transfer) (sink : nat -> post_outcome),
    amount_raw t = 0 ->
    (Multi.decode_transfer_log log = ([], Return (Some t)) ->
     Multi.process_log chain tokens log sink = ([], Return tt))
    /\ (item data "params" = Return params ->
        item params "result" = Return log ->
        Base.decode_transfer_log log = ([], Return (Some t)) ->
        posts (fst (Base.handle_message T (Return data) sink)) = []
        /\ snd (Base.handle_message T (Return data) sink) = Return tt).
Proof.
  intros chain tokens T data params log t sink Hzero. split.
  - intros Hdec. unfold Multi.process_log. rewrite Hdec. cbn [Trace.bind lift app].
    unfold Multi.calculate_usd_value. rewrite Hzero.
    destruct (lookup (PyStr.lower (contract t)) tokens) as [info|]; [|reflexivity].
    destruct (zero_quotient (decimals info)) as (amount & e & Hdiv & Hfl).
    rewrite Hdiv. cbn [Py.bind]. rewrite Hfl. cbn [lift Trace.bind app].
    unfold Multi.MIN_USD_VALUE. rewrite zero_times_price by lia. reflexivity.
  - intros Hparams Hlog Hdec.
    assert (Hhas : contains "params" data = Return true).
    { destruct data; try discriminate Hparams. cbn [item contains] in *.
      destruct (lookup "params" d); [reflexivity|discriminate Hparams]. }
    unfold Base.handle_message. cbn [lift Trace.bind app]. rewrite Hhas.
    cbn [lift Trace.bind app negb]. rewrite Hparams. cbn [Trace.bind app].
    rewrite Hlog. cbn [Trace.bind app]. rewrite Hdec. cbn [Trace.bind app].
    unfold Base.calculate_usd_value. rewrite Hzero.
    destruct (lookup (PyStr.lower (contract t)) T) as [info|]; [|split; reflexivity].
    destruct (zero_quotient (Base.live_decimals info)) as (amount & e & Hdiv & Hfl).
    rewrite Hdiv. cbn [Py.bind]. rewrite Hfl.
    pose proof (zero_times_value e (Base.live_price info) Base.MIN_USD_VALUE) as Hv.
    destruct (float_mul (F64.Fin 0 e) (Base.live_price info)) as [v|ex];
      cbn [Py.bind lift Trace.bind app].
    + rewrite Hv by (unfold Base.MIN_USD_VALUE; lia). split; reflexivity.
    + destruct ex; split; reflexivity.
Qed.

(** A log of the USDC contract with data [0x0]. *)
Lemma X8_witness :
  Multi.process_log Sample.boba (Sample.usdc_at 1) (Sample.log_with (JStr "0x0"))
    Sample.no_sink = ([], Return tt)
  /\ posts (fst (Base.handle_message Base.initial_table
                  (Return (JDict [("params", JDict [("result", Sample.log_with (JStr "0x0"))])]))
                  Sample.no_sink)) = []
  /\ snd (Base.handle_message Base.initial_table
            (Return (JDict [("params", JDict [("result", Sample.log_with (JStr "0x0"))])]))
            Sample.no_sink) = Return tt.
Proof.
  destruct (X8_zero_amount_is_never_dispatched Sample.boba (Sample.usdc_at 1)
              Base.initial_table
              (JDict [("params", JDict [("result", Sample.log_with (JStr "0x0"))])])
              (JDict [("result", Sample.log_with (JStr "0x0"))])
              (Sample.log_with (JStr "0x0"))
              (mkTransfer "0xaaaaaaaaaaaaaaaaaaaaaaaaaaaaaaaaaaaaaaaa"
                          "0xbbbbbbbbbbbbbbbbbbbbbbbbbbbbbbbbbbbbbbbb"
                          Sample.usdc 0 (JStr "0xabc") (JStr "0x11"))
              Sample.no_sink eq_refl) as [HM HB].
  split; [exact (HM eq_refl)|exact (HB eq_refl eq_refl eq_refl)].
Defined.

(** Converting a [bool] to a float never fails. *)
Lemma float_of_bool (b : bool) :
  exists f, float_of_int (if b then 1 else 0) = Return f.
Proof. destruct b; vm_compute; eexists; reflexivity. Qed.

(** X9.  Valuing an amount that fits in 256 bits never overflows the decimal
    quotient, whatever the token's decimals.  In the multi-chain monitor,
    whose prices are the floats of the configuration, the valuation
    therefore never raises: it returns the float product of the price and
    the float nearest to the quotient rounded to 28 digits, with the symbol
    of the table row.  In the single-chain monitor, whose prices are what
    the refresh stored, it returns that product when the price is a float,
    raises [TypeError] when the price is not a number, and can otherwise
    only raise [OverflowError], for an integer price too large for a
    float. *)
Theorem X9_valuation_of_uint256_fails_only_on_price :
  forall (tokens : token_table) (T : Base.live_table) (c : string) (a : Z)
         (info : token_info) (row : Base.live_token),
    lookup (PyStr.lower c) tokens = Some info ->
    lookup (PyStr.lower c) T = Some row ->
    Z.abs a < 2 ^ 256 ->
    let amount d := F64.of_Q (Rnd.value 10 (Rnd.round 10 Dec.prec Dec.Etiny
                                              (Dec.to_Q (Dec.of_int a)
                                               / Dec.to_Q (Dec.of_int (10 ^ Z.of_N d))))) in
    Multi.calculate_usd_value tokens c a
      = Return (Some (F64.mul (amount (decimals info)) (price_usd info), symbol info))
    /\ (forall p, Base.live_price row = JFloat p ->
          Base.calculate_usd_value T c a
          = Return (Some (F64.mul (amount (Base.live_decimals row)) p)))
    /\ (is_number (Base.live_price row) = false ->
          Base.calculate_usd_value T c a = Raise TypeError)
    /\ (forall e, Base.calculate_usd_value T c a = Raise e ->
          (e = TypeError /\ is_number (Base.live_price row) = false)
          \/ (e = OverflowError /\ exists n, Base.live_price row = JInt n)).
Proof.
  intros tokens T c a info row Hlook Hrow Ha amount.
  split; [exact (proj1 (valuation_returns tokens c a info Hlook Ha))|].
  assert (Hbase : Base.calculate_usd_value T c a
                  = usd <- float_mul (amount (Base.live_decimals row)) (Base.live_price row) ;;
                    Return (Some usd)).
  { unfold Base.calculate_usd_value. rewrite Hrow.
    rewrite (div_returns a (Base.live_decimals row) Ha). reflexivity. }
  rewrite Hbase. clear Hbase.
  generalize (amount (Base.live_decimals row)). intros x.
  destruct (Base.live_price row) as [|b|n|f|s|l|d]; cbn [is_number float_mul Py.bind].
  - split; [intros p H; discriminate H|]. split; [reflexivity|].
    intros e H. injection H as <-. left. split; reflexivity.
  - destruct (float_of_bool b) as [fb ->]. cbn [Py.bind].
    split; [intros p H; discriminate H|]. split; [intros H; discriminate H|].
    intros e H. discriminate H.
  - split; [intros p H; discriminate H|]. split; [intros H; discriminate H|].
    intros e H. unfold float_of_int in H.
    destruct (F64.of_Q (inject_Z n)); cbn [Py.bind] in H; try discriminate H.
    injection H as <-. right. split; [reflexivity|]. exists n. reflexivity.
  - split; [intros p H; injection H as <-; reflexivity|].
    split; [intros H; discriminate H|]. intros e H. discriminate H.
  - split; [intros p H; discriminate H|]. split; [reflexivity|].
    intros e H. injection H as <-. left. split; reflexivity.
  - split; [intros p H; discriminate H|]. split; [reflexivity|].
    intros e H. injection H as <-. left. split; reflexivity.
  - split; [intros p H; discriminate H|]. split; [reflexivity|].
    intros e H. injection H as <-. left. split; reflexivity.
Qed.

Lemma X9_witness :
  let amount d := F64.of_Q (Rnd.value 10 (Rnd.round 10 Dec.prec Dec.Etiny
                                            (Dec.to_Q (Dec.of_int (2 ^ 256 - 1))
                                             / Dec.to_Q (Dec.of_int (10 ^ Z.of_N d))))) in
  Multi.calculate_usd_value Base.TOP_TOKENS Sample.usdc (2 ^ 256 - 1)
    = Return (Some (F64.mul (amount 6%N) (F64.lit 1 1), "USDC"))
  /\ (forall p, JFloat (F64.lit 1 1) = JFloat p ->
        Base.calculate_usd_value Base.initial_table Sample.usdc (2 ^ 256 - 1)
        = Return (Some (F64.mul (amount 6%N) p)))
  /\ (is_number (JFloat (F64.lit 1 1)) = false ->
        Base.calculate_usd_value Base.initial_table Sample.usdc (2 ^ 256 - 1) = Raise TypeError)
  /\ (forall e, Base.calculate_usd_value Base.initial_table Sample.usdc (2 ^ 256 - 1) = Raise e ->
        (e = TypeError /\ is_number (JFloat (F64.lit 1 1)) = false)
        \/ (e = OverflowError /\ exists n, JFloat (F64.lit 1 1) = JInt n)).
Proof.
  apply (X9_valuation_of_uint256_fails_only_on_price Base.TOP_TOKENS Base.initial_table
           Sample.usdc (2 ^ 256 - 1) (mkToken "USDC" 6 (F64.lit 1 1))
           (Base.mkLive "USDC" 6 (JFloat (F64.lit 1 1)))).
  - reflexivity.
  - reflexivity.
  - vm_compute. reflexivity.
Defined.

(** X23.  A price that is not a number loses every transfer of its token in
    the single-chain monitor.  When the refresh has stored null, a string, a
    list or an object as the price of a listed token, a notification of a
    transfer of that token (of any amount that fits in 256 bits) is answered
    with the one line [Error processing message] for a [TypeError]: nothing
    is posted, whatever the amount. *)
Theorem X23_non_numeric_price_loses_transfers :
  forall (T : Base.live_table) (data params log : json) (t : transfer)
         (row : Base.live_token) (sink : nat -> post_outcome),
    item data "params" = Return params ->
    item params "result" = Return log ->
    Base.decode_transfer_log log = ([], Return (Some t)) ->
    lookup (PyStr.lower (contract t)) T = Some row ->
    is_number (Base.live_price row) = false ->
    Z.abs (amount_raw t) < 2 ^ 256 ->
    Base.handle_message T (Return data) sink
    = ([Print "Error processing message: {e}" [AExc TypeError]], Return tt).
Proof.
  intros T data params log t row sink Hparams Hlog Hdec Hrow Hnum Ha.
  assert (Hhas : contains "params" data = Return true).
  { destruct data; try discriminate Hparams. cbn [item contains] in *.
    destruct (lookup "params" d); [reflexivity|discriminate Hparams]. }
  unfold Base.handle_message. cbn [lift Trace.bind app]. rewrite Hhas.
  cbn [lift Trace.bind app negb]. rewrite Hparams. cbn [Trace.bind app].
  rewrite Hlog. cbn [Trace.bind app]. rewrite Hdec. cbn [Trace.bind app].
  unfold Base.calculate_usd_value. rewrite Hrow.
  rewrite (div_returns (amount_raw t) (Base.live_decimals row) Ha). cbn [Py.bind].
  destruct (Base.live_price row); cbn [is_number] in Hnum; try discriminate Hnum;
    reflexivity.
Qed.

(** 600 USDC after a refresh that stored null as the price of USDC. *)
Lemma X23_witness :
  Base.handle_message [(Sample.usdc, Base.mkLive "USDC" 6 JNull)]
    (Return (JDict [("params", JDict [("result", Sample.log_with (JStr "0x23c34600"))])]))
    Sample.no_sink
  = ([Print "Error processing message: {e}" [AExc TypeError]], Return tt).
Proof.
  apply (X23_non_numeric_price_loses_transfers
           [(Sample.usdc, Base.mkLive "USDC" 6 JNull)]
           (JDict [("params", JDict [("result", Sample.log_with (JStr "0x23c34600"))])])
           (JDict [("result", Sample.log_with (JStr "0x23c34600"))])
           (Sample.log_with (JStr "0x23c34600"))
           Sample.a_transfer (Base.mkLive "USDC" 6 JNull)).
  - reflexivity.
  - reflexivity.
  - reflexivity.
  - reflexivity.
  - reflexivity.
  - vm_compute. reflexivity.
Defined.

End Threshold.

(** ** More on the polling session *)

Section PollingSession.

Lemma sleeps_app (a b : list event) : sleeps (a ++ b)%list = (sleeps a ++ sleeps b)%list.
Proof. apply filter_app. Qed.

(** A dispatch never sleeps. *)
Lemma multi_send_loop_no_sleep urls : forall i body sink,
  sleeps (fst (Multi.send_loop urls i body sink)) = [].
Proof.
  induction urls as [|u rest IH]; intros i body sink; [reflexivity|].
  specialize (IH (S i) body sink).
  cbn [Multi.send_loop]. destruct (sink i) as [status b|e]; cbn;
    destruct (Multi.send_loop rest (S i) body sink) as [t r]; cbn in *; exact IH.
Qed.

(** What handling one log leaves behind: no sleep, and an outcome the sinks
    have no part in. *)
Lemma multi_process_log_outcome chain tokens log sink :
  sleeps (fst (Multi.process_log chain tokens log sink)) = []
  /\ forall sink', snd (Multi.process_log chain tokens log sink')
                   = snd (Multi.process_log chain tokens log sink).
Proof.
  unfold Multi.process_log.
  destruct (multi_decode_total log) as [r ->]. cbn [Trace.bind app].
  destruct r as [t|]; [|split; reflexivity].
  destruct (Multi.calculate_usd_value tokens (contract t) (amount_raw t))
    as [[[usd sym]|]|e]; cbn [lift Trace.bind app]; try (split; reflexivity).
  destruct (F64.ge_int usd Multi.MIN_USD_VALUE); [|split; reflexivity].
  split.
  - unfold Multi.send_to_webhook. cbn [emit Trace.bind app].
    pose proof (multi_send_loop_no_sleep WEBHOOK_URLS 0 (Multi.payload chain t) sink) as H.
    destruct (Multi.send_loop WEBHOOK_URLS 0 (Multi.payload chain t) sink) as [tr r].
    cbn [fst app] in *. exact H.
  - intros sink'.
    destruct (dispatch_posts chain t usd sym sink) as (_ & Hr & _).
    destruct (dispatch_posts chain t usd sym sink') as (_ & Hr' & _).
    destruct (Multi.send_to_webhook chain t usd sym sink) as [tr r].
    destruct (Multi.send_to_webhook chain t usd sym sink') as [tr' r'].
    cbn [snd app] in *. congruence.
Qed.

Lemma multi_process_logs_outcome chain tokens logs : forall i sinks,
  sleeps (fst (Multi.process_logs chain tokens logs i sinks)) = []
  /\ forall sinks', snd (Multi.process_logs chain tokens logs i sinks')
                    = snd (Multi.process_logs chain tokens logs i sinks).
Proof.
  induction logs as [|log rest IH]; intros i sinks; [split; reflexivity|].
  cbn [Multi.process_logs].
  destruct (multi_process_log_outcome chain tokens log (sinks i)) as [Hs Hr].
  destruct (IH (S i) sinks) as [IHs IHr]. split.
  - destruct (Multi.process_log chain tokens log (sinks i)) as [t [[]|e]];
      cbn [Trace.bind fst] in *; [|exact Hs].
    destruct (Multi.process_logs chain tokens rest (S i) sinks) as [t' r'].
    cbn [fst] in *. rewrite sleeps_app, Hs, IHs. reflexivity.
  - intros sinks'. specialize (Hr (sinks' i)). specialize (IHr sinks').
    destruct (Multi.process_log chain tokens log (sinks i)) as [t r].
    destruct (Multi.process_log chain tokens log (sinks' i)) as [t0 r0].
    cbn [snd] in Hr. subst r0. destruct r as [[]|e]; cbn [Trace.bind snd]; [|reflexivity].
    destruct (Multi.process_logs chain tokens rest (S i) sinks) as [t1 r1].
    destruct (Multi.process_logs chain tokens rest (S i) sinks') as [t2 r2].
    cbn [snd] in *. exact IHr.
Qed.

(** The block under [try] of a pass sleeps the poll interval when it ends
    normally and not at all when it raises; it never prints the line of the
    handler. *)
Lemma poll_body_sleeps chain tokens last inp :
  pass_failed (fst (Multi.poll_body chain tokens last inp)) = false
  /\ match snd (Multi.poll_body chain tokens last inp) with
     | Return _ => sleeps (fst (Multi.poll_body chain tokens last inp))
                   = [Sleep (Multi.poll_interval chain)]
     | Raise _ => sleeps (fst (Multi.poll_body chain tokens last inp)) = []
     end.
Proof.
  unfold Multi.poll_body.
  destruct (reply_json (Multi.height_reply inp)) as [block_result|e]; [|split; reflexivity].
  destruct block_result as [| | | | |l|d]; try (split; reflexivity).
  cbn [lift emit Trace.bind get app].
  set (cur := match lookup "result" d with Some v => v | None => JNull end).
  destruct (truthy cur); cbn [negb]; [|split; reflexivity].
  destruct last as [last|]; [|split; reflexivity].
  destruct (int16 last) as [n|e]; cbn [lift Trace.bind app]; [|split; reflexivity].
  rewrite int16_hex. cbn [lift Trace.bind app].
  destruct (int16 cur) as [c|e]; cbn [lift Trace.bind app]; [|split; reflexivity].
  destruct (n + 1 >? c); [split; reflexivity|].
  cbn [emit Trace.bind app].
  destruct (reply_json (Multi.logs_reply inp)) as [log_result|e];
    cbn [lift Trace.bind app]; [|split; reflexivity].
  destruct (get log_result "result" (JList [])) as [logs|e];
    cbn [lift Trace.bind app]; [|split; reflexivity].
  set (run := match logs with
              | JList l => Multi.process_logs chain tokens l 0 (Multi.sinks inp)
              | _ => ret tt
              end).
  assert (Hrun : quiet (fst run) /\ sleeps (fst run) = []).
  { unfold run. destruct logs; try (split; [apply quiet_nil|reflexivity]).
    split; [apply multi_process_logs_quiet|apply multi_process_logs_outcome]. }
  destruct run as [pt [[]|e]]; cbn [fst] in Hrun; destruct Hrun as [[_ Hf] Hs];
    cbn [Trace.bind emit ret app fst snd].
  - split.
    + change (pass_failed (pt ++ [Sleep (Multi.poll_interval chain)])%list = false).
      rewrite pass_failed_app, Hf. reflexivity.
    + change (sleeps (pt ++ [Sleep (Multi.poll_interval chain)])%list
              = [Sleep (Multi.poll_interval chain)]).
      rewrite sleeps_app, Hs. reflexivity.
  - split.
    + change (pass_failed pt = false). exact Hf.
    + change (sleeps pt = []). exact Hs.
Qed.

(** A pass ends normally and sleeps once. *)
Lemma poll_pass_sleeps (chain : Multi.ChainConfig) (tokens : token_table)
    (last : option json) (inp : Multi.poll_input) :
  exists tr last',
    Multi.poll_iteration chain tokens last inp = (tr, Return last')
    /\ ((pass_failed tr = false /\ sleeps tr = [Sleep (Multi.poll_interval chain)])
        \/ (pass_failed tr = true /\ sleeps tr = [Sleep 10] /\ last' = last)).
Proof.
  destruct (poll_body_sleeps chain tokens last inp) as [Hf Hs].
  unfold Multi.poll_iteration.
  destruct (Multi.poll_body chain tokens last inp) as [t [last'|e]];
    cbn [fst snd Trace.try_except emit ret Trace.bind app] in *.
  - exists t, last'. split; [reflexivity|]. left. split; assumption.
  - eexists. exists last. split; [reflexivity|]. right.
    rewrite pass_failed_app, sleeps_app, Hf, Hs. repeat split.
Qed.

(** X10.  Whatever the node and the sinks answer, a pass of the polling loop
    ends normally and sleeps exactly once: for the poll interval when the
    block under [try] went through, for ten seconds when it raised, and then
    the cursor is what it was.  The loop never spins without a pause and no
    exception leaves it. *)
Theorem X10_poll_pass_sleeps_exactly_once :
  forall (chain : Multi.ChainConfig) (tokens : token_table) (last : option json)
         (inp : Multi.poll_input),
    exists tr last',
      Multi.poll_iteration chain tokens last inp = (tr, Return last')
      /\ ((pass_failed tr = false /\ sleeps tr = [Sleep (Multi.poll_interval chain)])
          \/ (pass_failed tr = true /\ sleeps tr = [Sleep 10] /\ last' = last)).
Proof. exact poll_pass_sleeps. Qed.

(** One pass, fed the same node replies: same cursor and same log query,
    whatever the sinks do. *)
Lemma poll_pass_ignores_sinks chain tokens last a b :
  same_node_replies a b ->
  snd (Multi.poll_iteration chain tokens last a) = snd (Multi.poll_iteration chain tokens last b)
  /\ log_queries (fst (Multi.poll_iteration chain tokens last a))
     = log_queries (fst (Multi.poll_iteration chain tokens last b)).
Proof.
  intros [Hh Hl]. split.
  - unfold Multi.poll_iteration, Multi.poll_body. rewrite Hh, Hl.
    destruct (reply_json (Multi.height_reply b)) as [block_result|e]; [|reflexivity].
    destruct block_result as [| | | | |l|d]; try reflexivity.
    cbn [lift emit Trace.bind get app].
    set (cur := match lookup "result" d with Some v => v | None => JNull end).
    destruct (truthy cur); cbn [negb]; [|reflexivity].
    destruct last as [last|]; [|reflexivity].
    destruct (int16 last) as [n|e]; cbn [lift Trace.bind app]; [|reflexivity].
    rewrite int16_hex. cbn [lift Trace.bind app].
    destruct (int16 cur) as [c|e]; cbn [lift Trace.bind app]; [|reflexivity].
    destruct (n + 1 >? c); [reflexivity|].
    cbn [emit Trace.bind app].
    destruct (reply_json (Multi.logs_reply b)) as [log_result|e];
      cbn [lift Trace.bind app]; [|reflexivity].
    destruct (get log_result "result" (JList [])) as [logs|e];
      cbn [lift Trace.bind app]; [|reflexivity].
    set (runa := match logs with
                 | JList l => Multi.process_logs chain tokens l 0 (Multi.sinks a)
                 | _ => ret tt
                 end).
    set (runb := match logs with
                 | JList l => Multi.process_logs chain tokens l 0 (Multi.sinks b)
                 | _ => ret tt
                 end).
    assert (Hrun : snd runa = snd runb).
    { unfold runa, runb. destruct logs; try reflexivity. apply multi_process_logs_outcome. }
    destruct runa as [pa ra]. destruct runb as [pb rb].
    cbn [snd] in Hrun. subst rb. destruct ra as [[]|e]; reflexivity.
  - destruct last as [last|].
    + rewrite !poll_pass_queries. unfold reported_height. rewrite Hh. reflexivity.
    + destruct (poll_pass_unset chain tokens a) as (ta & la & Ea & Qa & _).
      destruct (poll_pass_unset chain tokens b) as (tb & lb & Eb & Qb & _).
      rewrite Ea, Eb. cbn [fst]. rewrite Qa, Qb. reflexivity.
Qed.

(** X11.  The sinks have no part in the cursor.  Two polling sessions that
    are told the same by the node, pass for pass, end with the same cursor
    and have asked for the same block ranges, whatever the sinks answered in
    either: a webhook outage neither stalls polling nor makes it skip or
    repeat a range. *)
Theorem X11_sinks_never_move_the_cursor :
  forall (chain : Multi.ChainConfig) (tokens : token_table)
         (inputs inputs' : list Multi.poll_input) (last : option json),
    Forall2 same_node_replies inputs inputs' ->
    snd (Multi.poll_loop chain tokens last inputs)
      = snd (Multi.poll_loop chain tokens last inputs')
    /\ log_queries (fst (Multi.poll_loop chain tokens last inputs))
       = log_queries (fst (Multi.poll_loop chain tokens last inputs')).
Proof.
  intros chain tokens inputs inputs' last H. revert last.
  induction H as [|a b rest rest' Hab _ IH]; intros last; [split; reflexivity|].
  cbn [Multi.poll_loop].
  destruct (poll_pass_ignores_sinks chain tokens last a b Hab) as [Hr Hq].
  destruct (poll_pass_sleeps chain tokens last a) as (ta & la & Ea & _).
  destruct (poll_pass_sleeps chain tokens last b) as (tb & lb & Eb & _).
  rewrite Ea, Eb in *. cbn [fst snd] in Hr, Hq. injection Hr as ->.
  cbn [Trace.bind]. specialize (IH lb). destruct IH as [IHr IHq].
  destruct (Multi.poll_loop chain tokens lb rest) as [t1 r1].
  destruct (Multi.poll_loop chain tokens lb rest') as [t2 r2].
  cbn [fst snd] in *. split; [exact IHr|].
  rewrite !log_queries_app, Hq, IHq. reflexivity.
Qed.

Lemma X11_witness :
  snd (Multi.poll_loop Sample.boba [] (Some (JStr "0x10"))
         [Multi.mkPoll (Sample.height "0x12")
            (Sample.ok (JDict [("result", JList [Sample.log_with (JStr "0x2e90edd000")])]))
            (fun _ => Sample.no_sink)])
    = snd (Multi.poll_loop Sample.boba [] (Some (JStr "0x10"))
             [Multi.mkPoll (Sample.height "0x12")
                (Sample.ok (JDict [("result", JList [Sample.log_with (JStr "0x2e90edd000")])]))
                (fun _ _ => Sample.ok JNull)])
  /\ log_queries (fst (Multi.poll_loop Sample.boba [] (Some (JStr "0x10"))
                         [Multi.mkPoll (Sample.height "0x12")
                            (Sample.ok (JDict [("result", JList [Sample.log_with (JStr "0x2e90edd000")])]))
                            (fun _ => Sample.no_sink)]))
     = log_queries (fst (Multi.poll_loop Sample.boba [] (Some (JStr "0x10"))
                           [Multi.mkPoll (Sample.height "0x12")
                              (Sample.ok (JDict [("result", JList [Sample.log_with (JStr "0x2e90edd000")])]))
                              (fun _ _ => Sample.ok JNull)])).
Proof.
  apply X11_sinks_never_move_the_cursor.
  constructor; [split; reflexivity|constructor].
Defined.

(** X12.  A log query the node answers with a JSON object that carries no
    list of logs (an error object, a null result) is not a failure for the
    polling loop: the pass posts nothing to the sinks, sleeps the poll
    interval and moves the cursor to the height it was told, so the blocks of
    that range are not asked for again. *)
Theorem X12_answer_without_logs_moves_cursor :
  forall (chain : Multi.ChainConfig) (tokens : token_table) (last : json)
         (inp : Multi.poll_input) (n c : Z) (cur : json) (status : Z)
         (reply : list (string * json)),
    block_number_of last = Some n ->
    reported_height inp = Some cur ->
    truthy cur = true ->
    block_number_of cur = Some c ->
    n + 1 <= c ->
    Multi.logs_reply inp = Responded status (Return (JDict reply)) ->
    (forall log rest, lookup "result" reply <> Some (JList (log :: rest))) ->
    Multi.poll_iteration chain tokens (Some last) inp
    = ([ Post (Multi.rpc_url chain) Multi.block_req 10;
         Post (Multi.rpc_url chain) (Multi.log_req tokens (PyStr.hex (n + 1)) cur) 30;
         Sleep (Multi.poll_interval chain) ],
       Return (Some cur)).
Proof.
  intros chain tokens last inp n c cur status reply Hn Hh Ht Hc Hle Hl Hnone.
  unfold reported_height in Hh. unfold block_number_of in Hn, Hc.
  unfold Multi.poll_iteration, Multi.poll_body.
  destruct (reply_json (Multi.height_reply inp)) as [[| | | | |l|d]|e]; try discriminate Hh.
  injection Hh as Hh. cbn [field] in Hh.
  cbn [lift emit Trace.bind get app]. rewrite Hh, Ht. cbn [negb].
  destruct (int16 last) as [n'|e]; [|discriminate Hn]. injection Hn as ->.
  cbn [lift Trace.bind app]. rewrite int16_hex. cbn [lift Trace.bind app].
  destruct (int16 cur) as [c'|e]; [|discriminate Hc]. injection Hc as ->.
  cbn [lift Trace.bind app].
  destruct (Z.gtb_spec (n + 1) c) as [Hgt|_]; [lia|].
  cbn [emit Trace.bind app]. rewrite Hl. cbn [reply_json lift Trace.bind get app].
  destruct (lookup "result" reply) as [[| | | | |[|log rest]|]|] eqn:Hres;
    try reflexivity.
  exfalso. exact (Hnone log rest eq_refl).
Qed.

Lemma X12_witness :
  Multi.poll_iteration Sample.boba [] (Some (JStr "0x10"))
    (Multi.mkPoll (Sample.height "0x12") (Sample.ok Sample.rpc_error) (fun _ => Sample.no_sink))
  = ([ Post (Multi.rpc_url Sample.boba) Multi.block_req 10;
       Post (Multi.rpc_url Sample.boba) (Multi.log_req [] (PyStr.hex (16 + 1)) (JStr "0x12")) 30;
       Sleep (Multi.poll_interval Sample.boba) ],
     Return (Some (JStr "0x12"))).
Proof.
  apply (X12_answer_without_logs_moves_cursor Sample.boba [] (JStr "0x10")
           (Multi.mkPoll (Sample.height "0x12") (Sample.ok Sample.rpc_error)
              (fun _ => Sample.no_sink))
           16 18 (JStr "0x12") 200
           [ ("jsonrpc", JStr "2.0"); ("id", JInt 1);
             ("error", JDict [ ("code", JInt (-32601));
                               ("message", JStr "method not found") ]) ]).
  - reflexivity.
  - reflexivity.
  - reflexivity.
  - reflexivity.
  - lia.
  - reflexivity.
  - intros log rest H. vm_compute in H. discriminate H.
Defined.

(** The first pass that is told a height takes it as the cursor. *)
Lemma poll_pass_seeds (chain : Multi.ChainConfig) (tokens : token_table)
    (inp : Multi.poll_input) (cur : json) :
  reported_height inp = Some cur ->
  truthy cur = true ->
  Multi.poll_iteration chain tokens None inp
  = ([ Post (Multi.rpc_url chain) Multi.block_req 10;
       Print "[{chain.name}] HTTP poll started at block {current_block}"
         [AStr (Multi.name chain); AJson cur];
       Sleep (Multi.poll_interval chain) ],
     Return (Some cur)).
Proof.
  intros Hh Ht. unfold reported_height in Hh.
  unfold Multi.poll_iteration, Multi.poll_body.
  destruct (reply_json (Multi.height_reply inp)) as [[| | | | |l|d]|e]; try discriminate Hh.
  injection Hh as Hh. cbn [field] in Hh.
  cbn [lift emit Trace.bind get app]. rewrite Hh, Ht. reflexivity.
Qed.

(** A pass that is told no height leaves an unset cursor unset. *)
Lemma poll_pass_waits (chain : Multi.ChainConfig) (tokens : token_table)
    (inp : Multi.poll_input) :
  no_height inp ->
  exists tr, Multi.poll_iteration chain tokens None inp = (tr, Return None)
             /\ log_queries tr = [].
Proof.
  intros Hno.
  destruct (poll_pass_unset chain tokens inp) as (tr & last' & E & Q & [->|(cur & Hh & Ht & _)]).
  - exists tr. split; assumption.
  - unfold no_height in Hno. rewrite Hh, Ht in Hno. discriminate Hno.
Qed.

(** X13.  A polling session does not look back.  While the node reports no
    height the cursor stays unset and no logs are asked for; from the first
    pass that is told a height on, the session is the one that starts with
    that height as its cursor, so the first block it can ask logs for is the
    one after that height. *)
Theorem X13_session_starts_at_first_reported_height :
  forall (chain : Multi.ChainConfig) (tokens : token_table)
         (waiting : list Multi.poll_input) (inp : Multi.poll_input)
         (rest : list Multi.poll_input) (cur : json),
    Forall no_height waiting ->
    reported_height inp = Some cur ->
    truthy cur = true ->
    snd (Multi.poll_loop chain tokens None (waiting ++ inp :: rest)%list)
      = snd (Multi.poll_loop chain tokens (Some cur) rest)
    /\ log_queries (fst (Multi.poll_loop chain tokens None (waiting ++ inp :: rest)%list))
       = log_queries (fst (Multi.poll_loop chain tokens (Some cur) rest)).
Proof.
  intros chain tokens waiting inp rest cur Hw Hh Ht.
  induction Hw as [|w waiting Hno _ IH].
  - cbn [app Multi.poll_loop]. rewrite (poll_pass_seeds chain tokens inp cur Hh Ht).
    cbn [Trace.bind].
    destruct (Multi.poll_loop chain tokens (Some cur) rest) as [t r].
    cbn [fst snd]. split; reflexivity.
  - cbn [app Multi.poll_loop].
    destruct (poll_pass_waits chain tokens w Hno) as (tr & -> & Hq).
    cbn [Trace.bind]. destruct IH as [IHr IHq].
    destruct (Multi.poll_loop chain tokens None (waiting ++ inp :: rest)%list) as [t r].
    cbn [fst snd] in *. split; [exact IHr|].
    rewrite log_queries_app, Hq. exact IHq.
Qed.

Lemma X13_witness :
  snd (Multi.poll_loop Sample.boba [] None
         ([Multi.mkPoll (Sample.ok (JDict [("result", JNull)])) (Failed ConnectionClosed)
             (fun _ => Sample.no_sink)]
          ++ Multi.mkPoll (Sample.height "0x12") (Failed ConnectionClosed)
               (fun _ => Sample.no_sink) :: [])%list)
    = snd (Multi.poll_loop Sample.boba [] (Some (JStr "0x12")) [])
  /\ log_queries (fst (Multi.poll_loop Sample.boba [] None
                         ([Multi.mkPoll (Sample.ok (JDict [("result", JNull)]))
                             (Failed ConnectionClosed) (fun _ => Sample.no_sink)]
                          ++ Multi.mkPoll (Sample.height "0x12") (Failed ConnectionClosed)
                               (fun _ => Sample.no_sink) :: [])%list))
     = log_queries (fst (Multi.poll_loop Sample.boba [] (Some (JStr "0x12")) [])).
Proof.
  apply X13_session_starts_at_first_reported_height.
  - constructor; [reflexivity|constructor].
  - reflexivity.
  - reflexivity.
Defined.

End PollingSession.

(** ** More on the streaming sessions *)

Section Streaming.

Lemma base_send_loop_no_sleep urls : forall i body t usd sym sink,
  sleeps (fst (Base.send_loop urls i body t usd sym sink)) = [].
Proof.
  induction urls as [|u rest IH]; intros i body t usd sym sink; [reflexivity|].
  specialize (IH (S i) body t usd sym sink).
  cbn [Base.send_loop]. destruct (sink i) as [status b|e]; cbn;
    destruct (Base.send_loop rest (S i) body t usd sym sink) as [tr r]; cbn in *; exact IH.
Qed.

(** Handling one message ends normally and without a sleep, whatever the
    message is. *)
Lemma multi_handle_message_outcome chain tokens message sink :
  snd (Multi.handle_message chain tokens message sink) = Return tt
  /\ sleeps (fst (Multi.handle_message chain tokens message sink)) = [].
Proof.
  unfold Multi.handle_message.
  destruct message as [data|e]; [|split; reflexivity].
  cbn [lift Trace.bind app].
  destruct (contains "params" data) as [[|]|e]; cbn [negb]; try (split; reflexivity).
  destruct (item data "params") as [params|e]; cbn [Trace.bind app]; [|split; reflexivity].
  destruct (item params "result") as [log|e]; cbn [Trace.bind app]; [|split; reflexivity].
  destruct (multi_process_log_outcome chain tokens log sink) as [Hs _].
  destruct (Multi.process_log chain tokens log sink) as [t [[]|e]];
    cbn [fst snd Trace.try_except ret app] in *; split; try reflexivity; try exact Hs.
  rewrite ?app_nil_r. exact Hs.
Qed.

Lemma multi_handle_messages_outcome chain tokens msgs : forall i sinks,
  snd (Multi.handle_messages chain tokens msgs i sinks) = Return tt
  /\ sleeps (fst (Multi.handle_messages chain tokens msgs i sinks)) = [].
Proof.
  induction msgs as [|m rest IH]; intros i sinks; [split; reflexivity|].
  cbn [Multi.handle_messages].
  destruct (multi_handle_message_outcome chain tokens m (sinks i)) as [Hr Hs].
  destruct (IH (S i) sinks) as [IHr IHs].
  destruct (Multi.handle_message chain tokens m (sinks i)) as [t r].
  cbn [fst snd] in Hr, Hs. subst r. cbn [Trace.bind].
  destruct (Multi.handle_messages chain tokens rest (S i) sinks) as [t' r'].
  cbn [fst snd] in *. split; [exact IHr|]. rewrite sleeps_app, Hs, IHs. reflexivity.
Qed.

Lemma base_handle_message_outcome tokens message sink :
  snd (Base.handle_message tokens message sink) = Return tt
  /\ sleeps (fst (Base.handle_message tokens message sink)) = [].
Proof.
  unfold Base.handle_message.
  destruct message as [data|e]; [|destruct e; split; reflexivity].
  cbn [lift Trace.bind app].
  destruct (contains "params" data) as [[|]|e]; cbn [negb];
    try (split; reflexivity); [|destruct e; split; reflexivity].
  destruct (item data "params") as [params|e]; cbn [Trace.bind app];
    [|destruct e; split; reflexivity].
  destruct (item params "result") as [log|e]; cbn [Trace.bind app];
    [|destruct e; split; reflexivity].
  assert (Hdec : exists r, snd (Base.decode_transfer_log log) = Return r
                           /\ sleeps (fst (Base.decode_transfer_log log)) = []).
  { destruct (base_decode_total log) as [[r ->]|(e & _ & ->)]; eexists; split; reflexivity. }
  destruct Hdec as (r & Hr & Hs).
  destruct (Base.decode_transfer_log log) as [dt dr]. cbn [fst snd] in Hr, Hs. subst dr.
  cbn [Trace.bind]. unfold sleeps in *.
  destruct r as [t|]; [|cbn; rewrite ?app_nil_r; split; [reflexivity|exact Hs]].
  destruct (Base.calculate_usd_value tokens (contract t) (amount_raw t)) as [[usd|]|e].
  - cbn [lift Trace.bind app]. destruct (F64.ge_int usd Base.MIN_USD_VALUE).
    + set (sym := match lookup (PyStr.lower (contract t)) tokens with
                  | Some info => Base.live_symbol info
                  | None => "???"
                  end).
      destruct (dispatch_posts Sample.boba t usd sym sink) as (_ & _ & _ & Hret).
      pose proof (base_send_loop_no_sleep WEBHOOK_URLS 0 (Base.payload t) t usd sym sink) as Hsl.
      fold (Base.send_to_webhook t usd sym sink) in Hsl. unfold sleeps in Hsl.
      destruct (Base.send_to_webhook t usd sym sink) as [st sr].
      cbn [fst snd] in Hret, Hsl. subst sr. cbn. split; [reflexivity|].
      rewrite filter_app. cbn. rewrite Hs, Hsl. reflexivity.
    + cbn. rewrite ?app_nil_r. split; [reflexivity|exact Hs].
  - cbn. rewrite ?app_nil_r. split; [reflexivity|exact Hs].
  - destruct e; cbn; rewrite ?app_nil_r; split; try reflexivity;
      rewrite ?filter_app, Hs; reflexivity.
Qed.

Lemma base_handle_messages_outcome msgs : forall i table sinks,
  snd (Base.handle_messages msgs i table sinks) = Return tt
  /\ sleeps (fst (Base.handle_messages msgs i table sinks)) = [].
Proof.
  induction msgs as [|m rest IH]; intros i table sinks; [split; reflexivity|].
  cbn [Base.handle_messages].
  destruct (base_handle_message_outcome (table i) m (sinks i)) as [Hr Hs].
  destruct (IH (S i) table sinks) as [IHr IHs].
  destruct (Base.handle_message (table i) m (sinks i)) as [t r].
  cbn [fst snd] in Hr, Hs. subst r. cbn [Trace.bind].
  destruct (Base.handle_messages rest (S i) table sinks) as [t' r'].
  cbn [fst snd] in *. split; [exact IHr|]. rewrite sleeps_app, Hs, IHs. reflexivity.
Qed.

(** X14.  No message ends a subscription.  Whatever the messages of a
    stream are (not JSON, not a notification, a log that does not decode, a
    value that overflows, a price that is not a number) and whatever the
    sinks answer, the message loop of either monitor handles them all, ends
    normally and never sleeps. *)
Theorem X14_messages_never_end_the_stream :
  forall (chain : Multi.ChainConfig) (tokens : token_table) (msgs : list (res json))
         (table : nat -> Base.live_table) (sinks : nat -> nat -> post_outcome),
    snd (Multi.handle_messages chain tokens msgs 0 sinks) = Return tt
    /\ sleeps (fst (Multi.handle_messages chain tokens msgs 0 sinks)) = []
    /\ snd (Base.handle_messages msgs 0 table sinks) = Return tt
    /\ sleeps (fst (Base.handle_messages msgs 0 table sinks)) = [].
Proof.
  intros chain tokens msgs table sinks.
  destruct (multi_handle_messages_outcome chain tokens msgs 0 sinks) as [Mr Ms].
  destruct (base_handle_messages_outcome msgs 0 table sinks) as [Br Bs].
  repeat split; assumption.
Qed.

(** The exceptions reading a JSON value can raise. *)
Lemma contains_raises (k : string) (v : json) (e : exc) :
  contains k v = Raise e -> e = TypeError.
Proof. destruct v; cbn; intros H; inversion H; reflexivity. Qed.

Lemma item_raises (v : json) (k : string) (e : exc) :
  item v k = Raise e -> e = TypeError \/ e = KeyError.
Proof.
  destruct v; cbn; intros H; try (inversion H; left; reflexivity).
  destruct (lookup k d); inversion H. right. reflexivity.
Qed.

Lemma slice_first_raises (n : nat) (v : json) (e : exc) :
  slice_first n v = Raise e -> e = TypeError.
Proof. destruct v; cbn; intros H; inversion H; reflexivity. Qed.

(** X15.  A pass of the multi-chain streaming loop ends normally, whatever
    happens in it, and sleeps at most once.  It reconnects without any delay
    only when the subscription was accepted and the stream of messages ended
    without an exception; it waits five seconds only when the connection was
    reported closed; in every other case (another exception, a refused
    subscription, no streaming endpoint) it waits ten seconds. *)
Theorem X15_multi_stream_pass_delay :
  forall (chain : Multi.ChainConfig) (tokens : token_table) (inp : Multi.stream_input),
    exists tr,
      Multi.stream_iteration chain tokens inp = (tr, Return tt)
      /\ ((sleeps tr = []
           /\ Multi.closing inp = None
           /\ exists r, Multi.sub_reply inp = Return r /\ contains "result" r = Return true)
          \/ (sleeps tr = [Sleep 5]
              /\ (Multi.connect_result inp = Raise ConnectionClosed
                  \/ Multi.send_result inp = Raise ConnectionClosed
                  \/ Multi.sub_reply inp = Raise ConnectionClosed
                  \/ Multi.closing inp = Some ConnectionClosed))
          \/ sleeps tr = [Sleep 10]).
Proof.
  intros chain tokens inp.
  unfold Multi.stream_iteration, Multi.stream_body.
  destruct (Multi.wss chain) as [w|];
    [|eexists; split; [reflexivity|right; right; reflexivity]].
  cbn [lift emit Trace.bind app].
  destruct (Multi.connect_result inp) as [[]|e]; cbn [lift emit Trace.bind app];
    [|destruct e; eexists; (split; [reflexivity|]);
      try (right; right; reflexivity); right; left; split; [reflexivity|auto]].
  destruct (Multi.send_result inp) as [[]|e]; cbn [lift emit Trace.bind app];
    [|destruct e; eexists; (split; [reflexivity|]);
      try (right; right; reflexivity); right; left; split; [reflexivity|auto]].
  destruct (Multi.sub_reply inp) as [result|e]; cbn [lift emit Trace.bind app];
    [|destruct e; eexists; (split; [reflexivity|]);
      try (right; right; reflexivity); right; left; split; [reflexivity|auto]].
  destruct (contains "result" result) as [[|]|e] eqn:Hhas; cbn [lift emit Trace.bind app];
    [| eexists; split; [reflexivity|right; right; reflexivity]
     | apply contains_raises in Hhas; subst e;
       eexists; (split; [reflexivity|]); right; right; reflexivity].
  destruct (item result "result") as [r|e] eqn:Hitem; cbn [lift emit Trace.bind app];
    [|apply item_raises in Hitem; destruct Hitem; subst e;
      eexists; (split; [reflexivity|]); right; right; reflexivity].
  destruct (slice_first 16 r) as [id|e] eqn:Hid; cbn [lift emit Trace.bind app];
    [|apply slice_first_raises in Hid; subst e;
      eexists; (split; [reflexivity|]); right; right; reflexivity].
  destruct (multi_handle_messages_outcome chain tokens (Multi.messages inp) 0
              (Multi.msg_sinks inp)) as [Hr Hs].
  destruct (Multi.handle_messages chain tokens (Multi.messages inp) 0 (Multi.msg_sinks inp))
    as [mt mr].
  cbn [fst snd] in Hr, Hs. subst mr. cbn [Trace.bind].
  destruct (Multi.closing inp) as [e|]; cbn [lift ret Trace.try_except emit Trace.bind app].
  - destruct e; eexists; (split; [reflexivity|]);
      try (right; right; cbn [sleeps filter is_sleep]; fold (sleeps (mt ++ []));
           rewrite ?app_nil_r, ?sleeps_app, ?Hs; cbn; rewrite ?sleeps_app, ?Hs; reflexivity).
    right. left. split; [|auto].
    cbn [sleeps filter is_sleep]. fold (sleeps (mt ++ [])).
    rewrite ?app_nil_r, ?sleeps_app, ?Hs; cbn; rewrite ?sleeps_app, ?Hs; reflexivity.
  - eexists. split; [reflexivity|]. left. split; [|split; [reflexivity|exists result; auto]].
    cbn [sleeps filter is_sleep]. fold (sleeps (mt ++ [])).
    rewrite ?app_nil_r, ?sleeps_app, ?Hs; reflexivity.
Qed.

Lemma lookup_some_in {A} (k : string) (v : A) (d : list (string * A)) :
  lookup k d = Some v -> In (k, v) d.
Proof.
  induction d as [|[k' v'] d IH]; cbn [lookup]; [discriminate|].
  destruct (String.eqb k k') eqn:E.
  - apply String.eqb_eq in E. subst k'. intros H. injection H as ->. left. reflexivity.
  - intros H. right. exact (IH H).
Qed.

(** The dispatcher of the single-chain monitor prints no transfer line. *)
Lemma base_send_loop_lines urls : forall i body t usd sym sink args,
  ~ In (Print "[TRANSFER] {symbol}: ${usd_value:,.2f} | TX: {transfer['tx_hash']}" args)
       (fst (Base.send_loop urls i body t usd sym sink)).
Proof.
  induction urls as [|u rest IH]; intros i body t usd sym sink args; [intros []|].
  specialize (IH (S i) body t usd sym sink args).
  cbn [Base.send_loop]. destruct (sink i) as [status b|e]; cbn;
    destruct (Base.send_loop rest (S i) body t usd sym sink) as [tr r]; cbn in *;
    intros [H|[H|H]]; try discriminate H; exact (IH H).
Qed.

(** X16.  The single-chain monitor announces a transfer only for a token of
    its table and only at or above the threshold, whatever prices the table
    holds: every [[TRANSFER]] line it prints names the symbol of a listed
    token, so the fallback symbol [???] of the source is never printed for
    an unlisted contract. *)
Theorem X16_base_announces_listed_symbols_only :
  forall (tokens : Base.live_table) (message : res json) (sink : nat -> post_outcome)
         (args : list arg),
    In (Print "[TRANSFER] {symbol}: ${usd_value:,.2f} | TX: {transfer['tx_hash']}" args)
       (fst (Base.handle_message tokens message sink)) ->
    exists k info usd tx,
      In (k, info) tokens
      /\ args = [AStr (Base.live_symbol info); AFloat usd; AJson tx]
      /\ F64.ge_int usd Base.MIN_USD_VALUE = true.
Proof.
  intros tokens message sink args.
  unfold Base.handle_message.
  destruct message as [data|e]; [|destruct e; cbn; intros H; intuition discriminate].
  cbn [lift Trace.bind app].
  destruct (contains "params" data) as [[|]|e]; cbn [negb];
    [| cbn; intros []
     | destruct e; cbn; intros H; intuition discriminate].
  destruct (item data "params") as [params|e]; cbn [Trace.bind app];
    [|destruct e; cbn; intros H; intuition discriminate].
  destruct (item params "result") as [log|e]; cbn [Trace.bind app];
    [|destruct e; cbn; intros H; intuition discriminate].
  assert (Hdec : exists dt r, Base.decode_transfer_log log = (dt, Return r)
                              /\ forall a, ~ In (Print "[TRANSFER] {symbol}: ${usd_value:,.2f} | TX: {transfer['tx_hash']}" a) dt).
  { destruct (base_decode_total log) as [[r ->]|(e & _ & ->)]; do 2 eexists;
      (split; [reflexivity|]); intros a H; cbn in H; intuition discriminate. }
  destruct Hdec as (dt & r & -> & Hdt). cbn [Trace.bind].
  destruct r as [t|];
    [|cbn; rewrite ?app_nil_r; intros H; exfalso; exact (Hdt _ H)].
  destruct (Base.calculate_usd_value tokens (contract t) (amount_raw t)) as [[usd|]|e] eqn:Hval.
  - cbn [lift Trace.bind app].
    destruct (F64.ge_int usd Base.MIN_USD_VALUE) eqn:Hge;
      [|cbn; rewrite ?app_nil_r; intros H; exfalso; exact (Hdt _ H)].
    unfold Base.calculate_usd_value in Hval.
    destruct (lookup (PyStr.lower (contract t)) tokens) as [info|] eqn:Hlook;
      [|discriminate Hval].
    pose proof (base_send_loop_lines WEBHOOK_URLS 0 (Base.payload t) t usd (Base.live_symbol info) sink args)
      as Hsl.
    fold (Base.send_to_webhook t usd (Base.live_symbol info) sink) in Hsl.
    destruct (dispatch_posts Sample.boba t usd (Base.live_symbol info) sink) as (_ & _ & _ & Hret).
    destruct (Base.send_to_webhook t usd (Base.live_symbol info) sink) as [st sr].
    cbn [fst snd] in Hret, Hsl. subst sr. cbn. intros H.
    apply in_app_or in H. destruct H as [H|[H|H]].
    + exfalso. exact (Hdt _ H).
    + injection H as <-. exists (PyStr.lower (contract t)), info, usd, (tx_hash t).
      split; [apply lookup_some_in; exact Hlook|]. split; [reflexivity|exact Hge].
    + exfalso. exact (Hsl H).
  - cbn. rewrite ?app_nil_r. intros H. exfalso. exact (Hdt _ H).
  - destruct e; cbn; rewrite ?app_nil_r; intros H; try (exfalso; exact (Hdt _ H));
      apply in_app_or in H; destruct H as [H|H]; try (exfalso; exact (Hdt _ H));
      cbn in H; intuition discriminate.
Qed.

Lemma X16_witness :
  exists k info usd tx,
    In (k, info) Base.initial_table
    /\ [AStr "USDC"; AFloat (F64.Fin 5277655813324800 (-43)); AJson (JStr "0xabc")]
       = [AStr (Base.live_symbol info); AFloat usd; AJson tx]
    /\ F64.ge_int usd Base.MIN_USD_VALUE = true.
Proof.
  apply (X16_base_announces_listed_symbols_only Base.initial_table
           (Return (JDict [("params", JDict [("result", Sample.log_with (JStr "0x23c34600"))])]))
           Sample.no_sink).
  vm_compute. left. reflexivity.
Defined.

End Streaming.

(** ** The price refresh *)

Section Prices.

(** What the loop of a refresh does to the table, whether it ends or
    raises. *)
Lemma update_prices_spec (data : json) : forall T : Base.live_table,
  listing (fst (Base.update_prices T data)) = listing T
  /\ filter untracked (fst (Base.update_prices T data)) = filter untracked T
  /\ Forall2 (price_from data) T (fst (Base.update_prices T data)).
Proof.
  assert (Hsame : forall T : Base.live_table, Forall2 (price_from data) T T).
  { induction T as [|kv T IH]; constructor; [left; reflexivity|exact IH]. }
  induction T as [|[address tok] rest IH]; [repeat split; constructor|].
  destruct IH as (IHl & IHu & IHp).
  cbn [Base.update_prices].
  destruct (lookup (Base.live_symbol tok) Base.COINGECKO_IDS) as [cg_id|] eqn:Hid.
  - assert (Hold : untracked (address, tok) = false)
      by (unfold untracked; cbn [snd]; rewrite Hid; reflexivity).
    assert (Hnew : forall p, untracked (address, Base.mkLive (Base.live_symbol tok)
                                                   (Base.live_decimals tok) p) = false)
      by (intros p; unfold untracked; cbn [snd Base.live_symbol]; rewrite Hid; reflexivity).
    destruct (Base.quoted data cg_id) as [[usd|]|e] eqn:Hq.
    + destruct (Base.update_prices rest data) as [rest' r]. cbn [fst] in *.
      split; [|split].
      * unfold listing in *. cbn [map fst snd Base.live_symbol Base.live_decimals].
        rewrite IHl. reflexivity.
      * cbn [filter]. rewrite Hnew, Hold. exact IHu.
      * constructor; [|exact IHp]. right.
        unfold Base.quoted in Hq.
        destruct (contains cg_id data) as [[|]|e]; cbn [Py.bind] in Hq; try discriminate Hq.
        destruct (item data cg_id) as [entry|e] eqn:He; cbn [Py.bind] in Hq;
          [|discriminate Hq].
        destruct (contains "usd" entry) as [[|]|e]; cbn [Py.bind] in Hq; try discriminate Hq.
        destruct (item entry "usd") as [p|e] eqn:Hp; cbn [Py.bind] in Hq; [|discriminate Hq].
        injection Hq as <-. exists cg_id, entry. cbn [snd Base.live_price].
        split; [exact Hid|]. split; [exact He|exact Hp].
    + destruct (Base.update_prices rest data) as [rest' r]. cbn [fst] in *.
      split; [|split].
      * unfold listing in *. cbn [map fst snd]. rewrite IHl. reflexivity.
      * cbn [filter]. rewrite Hold. exact IHu.
      * constructor; [left; reflexivity|exact IHp].
    + cbn [fst]. split; [reflexivity|]. split; [reflexivity|apply Hsame].
  - assert (Hold : untracked (address, tok) = true)
      by (unfold untracked; cbn [snd]; rewrite Hid; reflexivity).
    destruct (Base.update_prices rest data) as [rest' r]. cbn [fst] in *.
    split; [|split].
    + unfold listing in *. cbn [map fst snd]. rewrite IHl. reflexivity.
    + cbn [filter]. rewrite Hold, IHu. reflexivity.
    + constructor; [left; reflexivity|exact IHp].
Qed.

(** The table a refresh leaves, by the reply it got. *)
Lemma fetch_prices_table (T : Base.live_table) (reply : post_outcome) :
  fst (Base.fetch_prices T reply)
  = match reply with
    | Responded status (Return data) =>
        if status =? 200 then fst (Base.update_prices T data) else T
    | _ => T
    end.
Proof.
  unfold Base.fetch_prices.
  destruct reply as [status [data|e]|e]; try reflexivity.
  - destruct (status =? 200); [|reflexivity].
    destruct (Base.update_prices T data) as [after [t [[]|e]]]; reflexivity.
  - destruct (status =? 200); reflexivity.
Qed.

Lemma fetch_prices_invariant (T : Base.live_table) (reply : post_outcome) :
  listing (fst (Base.fetch_prices T reply)) = listing T
  /\ filter untracked (fst (Base.fetch_prices T reply)) = filter untracked T.
Proof.
  rewrite fetch_prices_table.
  destruct reply as [status [data|e]|e]; try (split; reflexivity).
  destruct (status =? 200); [|split; reflexivity].
  destruct (update_prices_spec data T) as (Hl & Hu & _). split; assumption.
Qed.

(** X17.  Refreshing prices changes prices only, and only those of tracked
    tokens.  After any number of rounds of the periodic refresh, whatever
    CoinGecko answered, the table lists the same addresses with the same
    symbols and decimals in the same order, and the rows whose symbol has no
    CoinGecko id (the stablecoins) are exactly as they were. *)
Theorem X17_refresh_keeps_listing_and_untracked_rows :
  forall (T : Base.live_table) (replies : list post_outcome),
    listing (fst (Base.update_prices_periodically T replies)) = listing T
    /\ filter untracked (fst (Base.update_prices_periodically T replies))
       = filter untracked T.
Proof.
  intros T replies. revert T.
  induction replies as [|reply rest IH]; intros T; [split; reflexivity|].
  cbn [Base.update_prices_periodically].
  destruct (fetch_prices_invariant T reply) as [Hl Hu].
  destruct (Base.fetch_prices T reply) as [after t]. cbn [fst] in Hl, Hu.
  destruct (IH after) as [IHl IHu].
  destruct (Base.update_prices_periodically after rest) as [final t']. cbn [fst] in *.
  split; congruence.
Qed.

(** X18.  A refresh never invents a price.  Whatever the reply, every row of
    the table has afterwards either the price it had or the [usd] field of
    the reply's entry for the row's CoinGecko id; this also holds when the
    refresh failed half way, which leaves the rows before the failure
    updated and the others not. *)
Theorem X18_refreshed_price_is_old_or_quoted :
  forall (T : Base.live_table) (status : Z) (data : json),
    Forall2 (price_from data) T
            (fst (Base.fetch_prices T (Responded status (Return data)))).
Proof.
  intros T status data. rewrite fetch_prices_table.
  destruct (status =? 200).
  - apply update_prices_spec.
  - induction T as [|kv T IH]; constructor; [left; reflexivity|exact IH].
Qed.

(** X19.  A refresh that gets no usable reply (the request fails, the status
    is not 200, the body is not JSON) leaves the whole table as it was, and
    so does any number of such rounds: the monitor goes on with the prices it
    had. *)
Theorem X19_unusable_reply_keeps_prices :
  forall (T : Base.live_table) (replies : list post_outcome),
    Forall unusable replies ->
    fst (Base.update_prices_periodically T replies) = T.
Proof.
  intros T replies H. induction H as [|reply rest Hbad _ IH]; [reflexivity|].
  cbn [Base.update_prices_periodically].
  assert (Hkeep : fst (Base.fetch_prices T reply) = T).
  { rewrite fetch_prices_table. destruct reply as [status [data|e]|e]; try reflexivity.
    cbn [unusable] in Hbad. destruct (Z.eqb_spec status 200); [contradiction|reflexivity]. }
  destruct (Base.fetch_prices T reply) as [after t]. cbn [fst] in Hkeep. subst after.
  destruct (Base.update_prices_periodically T rest) as [final t']. cbn [fst] in *.
  exact IH.
Qed.

Lemma X19_witness :
  fst (Base.update_prices_periodically Base.initial_table
         [ Failed (TransportError "timeout");
           Responded 429 (Return (JDict []));
           Responded 200 (Raise JSONDecodeError) ])
  = Base.initial_table.
Proof.
  apply X19_unusable_reply_keeps_prices.
  repeat constructor. simpl. lia.
Defined.

(** The loop of a refresh on a reply that is a JSON object of JSON objects:
    it ends, and every row is requoted. *)
Lemma update_prices_wellformed (quotes : list (string * json)) :
  (forall k v, In (k, v) quotes -> exists entry, v = JDict entry) ->
  forall T : Base.live_table,
    fst (Base.update_prices T (JDict quotes)) = map (requoted quotes) T
    /\ snd (snd (Base.update_prices T (JDict quotes))) = Return tt.
Proof.
  intros Hwf. induction T as [|[address tok] rest IH]; [split; reflexivity|].
  destruct IH as [IHt IHr].
  cbn [Base.update_prices map]. unfold requoted at 1. cbn [fst snd].
  destruct (lookup (Base.live_symbol tok) Base.COINGECKO_IDS) as [cg_id|].
  - unfold Base.quoted. cbn [contains item].
    destruct (lookup cg_id quotes) as [v|] eqn:Hv; cbn [Py.bind].
    + destruct (Hwf cg_id v (lookup_some_in _ _ _ Hv)) as [entry ->].
      cbn [contains item Py.bind].
      destruct (lookup "usd" entry) as [usd|]; cbn [Py.bind].
      * destruct (Base.update_prices rest (JDict quotes)) as [rest' [t r]].
        cbn [fst snd emit Trace.bind app] in *. subst rest' r. split; reflexivity.
      * destruct (Base.update_prices rest (JDict quotes)) as [rest' [t r]].
        cbn [fst snd] in *. subst rest' r. split; reflexivity.
    + destruct (Base.update_prices rest (JDict quotes)) as [rest' [t r]].
      cbn [fst snd] in *. subst rest' r. split; reflexivity.
  - destruct (Base.update_prices rest (JDict quotes)) as [rest' [t r]].
    cbn [fst snd] in *. subst rest' r. split; reflexivity.
Qed.

(** X20.  On a reply that is a JSON object of JSON objects, a refresh does
    not fail: it prints no error line, and every tracked row whose id is
    quoted in dollars gets that quote, all in the same round; every other
    row is left as it was. *)
Theorem X20_wellformed_reply_requotes_every_row :
  forall (T : Base.live_table) (quotes : list (string * json)),
    (forall k v, In (k, v) quotes -> exists entry, v = JDict entry) ->
    fst (Base.fetch_prices T (Responded 200 (Return (JDict quotes))))
      = map (requoted quotes) T
    /\ existsb is_fetch_error
         (snd (Base.fetch_prices T (Responded 200 (Return (JDict quotes))))) = false.
Proof.
  intros T quotes Hwf.
  destruct (update_prices_wellformed quotes Hwf T) as [Ht Hr].
  assert (Hlines : forall t : list event,
             Forall (fun e => match e with
                              | Print template _ =>
                                  String.eqb template "Error fetching prices: {e}" = false
                              | _ => True
                              end) t ->
             existsb is_fetch_error (map Base.Out t) = false).
  { induction t as [|e t IH]; intros H; [reflexivity|].
    inversion H as [|? ? He Ht']; subst. cbn [map existsb]. rewrite (IH Ht').
    destruct e; cbn [is_fetch_error]; try reflexivity. rewrite He. reflexivity. }
  assert (Hprints : forall T0 : Base.live_table,
             Forall (fun e => match e with
                              | Print template _ =>
                                  String.eqb template "Error fetching prices: {e}" = false
                              | _ => True
                              end) (fst (snd (Base.update_prices T0 (JDict quotes))))).
  { induction T0 as [|[address tok] rest IH]; [constructor|].
    cbn [Base.update_prices].
    destruct (lookup (Base.live_symbol tok) Base.COINGECKO_IDS) as [cg_id|].
    - destruct (Base.quoted (JDict quotes) cg_id) as [[usd|]|e].
      + destruct (Base.update_prices rest (JDict quotes)) as [rest' [t r]].
        cbn [fst snd emit Trace.bind app] in *. constructor; [reflexivity|exact IH].
      + destruct (Base.update_prices rest (JDict quotes)) as [rest' [t r]]. exact IH.
      + constructor.
    - destruct (Base.update_prices rest (JDict quotes)) as [rest' [t r]]. exact IH. }
  specialize (Hprints T).
  unfold Base.fetch_prices. cbn [Z.eqb Pos.eqb].
  destruct (Base.update_prices T (JDict quotes)) as [after [t r]].
  cbn [fst snd] in *. subst after r. cbn [fst snd existsb is_fetch_error].
  split; [reflexivity|]. apply Hlines. exact Hprints.
Qed.

Lemma X20_witness :
  fst (Base.fetch_prices Base.initial_table
         (Responded 200 (Return (JDict [("weth", JDict [("usd", JFloat (F64.lit 3000 1))])]))))
    = map (requoted [("weth", JDict [("usd", JFloat (F64.lit 3000 1))])]) Base.initial_table
  /\ existsb is_fetch_error
       (snd (Base.fetch_prices Base.initial_table
               (Responded 200 (Return (JDict [("weth", JDict [("usd", JFloat (F64.lit 3000 1))])])))))
     = false.
Proof.
  apply X20_wellformed_reply_requotes_every_row.
  intros k v [H|[]]. injection H as _ <-. eexists. reflexivity.
Defined.

End Prices.

(** ** The entry point *)

Section Entry.

Lemma start_tasks_spec (CHAINS : list Multi.ChainConfig) : forall tasks,
  Multi.start_tasks CHAINS tasks
  = (tasks ++ map (fun chain => if Multi.has_wss chain then Multi.Streaming chain
                                else Multi.Polling chain) CHAINS)%list.
Proof.
  induction CHAINS as [|chain rest IH]; intros tasks; cbn [Multi.start_tasks map].
  - rewrite app_nil_r. reflexivity.
  - rewrite IH, <- app_assoc. reflexivity.
Qed.

(** X21.  [main] starts exactly one monitor per configured chain, in the
    order of [CHAINS]: a streaming monitor for a chain with a non-empty
    streaming endpoint, a polling monitor for any other.  So a streaming
    monitor always has an endpoint to connect to, the payloads of a polled
    chain always carry the empty string as [wss], and the two counts of the
    banner add up to the number of chains. *)
Theorem X21_main_starts_one_monitor_per_chain :
  forall (CHAINS : list Multi.ChainConfig),
    map Multi.task_chain (snd (Multi.main CHAINS)) = CHAINS
    /\ (forall chain, In (Multi.Streaming chain) (snd (Multi.main CHAINS)) ->
          In chain CHAINS
          /\ exists w, Multi.wss chain = Some w /\ w <> EmptyString)
    /\ (forall chain t, In (Multi.Polling chain) (snd (Multi.main CHAINS)) ->
          In chain CHAINS
          /\ field "wss" (Multi.payload chain t) = JStr EmptyString)
    /\ (List.length (Multi.wss_chains CHAINS) + List.length (Multi.http_chains CHAINS)
        = List.length CHAINS)%nat.
Proof.
  intros CHAINS. unfold Multi.main. cbn [snd].
  rewrite start_tasks_spec. cbn [app].
  split; [|split; [|split]].
  - induction CHAINS as [|chain rest IH]; [reflexivity|].
    cbn [map]. rewrite IH. destruct (Multi.has_wss chain); reflexivity.
  - intros chain Hin. apply in_map_iff in Hin. destruct Hin as (c & Hc & Hin).
    unfold Multi.has_wss in Hc.
    destruct (Multi.wss c) as [w|] eqn:Hw; [|discriminate Hc].
    destruct (String.eqb w EmptyString) eqn:He; cbn [negb] in Hc; [discriminate Hc|].
    injection Hc as <-. split; [exact Hin|]. exists w. split; [exact Hw|].
    intros ->. discriminate He.
  - intros chain t Hin. apply in_map_iff in Hin. destruct Hin as (c & Hc & Hin).
    unfold Multi.has_wss in Hc.
    destruct (Multi.wss c) as [w|] eqn:Hw.
    + destruct (String.eqb w EmptyString) eqn:He; cbn [negb] in Hc; [|discriminate Hc].
      injection Hc as <-. split; [exact Hin|].
      apply String.eqb_eq in He. subst w.
      unfold Multi.payload. rewrite Hw. reflexivity.
    + injection Hc as <-. split; [exact Hin|].
      unfold Multi.payload. rewrite Hw. reflexivity.
  - unfold Multi.wss_chains, Multi.http_chains.
    induction CHAINS as [|chain rest IH]; [reflexivity|].
    cbn [filter]. destruct (Multi.has_wss chain); cbn [negb List.length]; lia.
Qed.

End Entry.

